(** * alerts_export: the SSH-tunnelled collect / restore scripts

    A shallow embedding of [collect_alerts-reports.py] (class
    [SSHTunnelCollector]) and [restore_alerts-reports.py] (class
    [SSHTunnelRestorer]), and the properties of the tunnel and of the
    document transfer that the specification states about them.

    Everything outside the two scripts (the network, the file system, the
    SSH transport, the operating system's threads and processes) is an
    explicit environment: a record of oracles that says what each external
    call answers.  The scripts themselves are functions in a state and
    exception monad whose state carries the object's attributes and the
    trace of the external effects performed so far. *)

From Stdlib Require Import ZArith List String Ascii Bool Lia.
From Stdlib Require Import QArith_base.
From Stdlib.Init Require Byte.
Import ListNotations.
Set Warnings "-register-all".
Local Open Scope string_scope.
Local Open Scope Z_scope.

(* ===================================================================== *)
(** * Python values, exceptions and effects                               *)
(* ===================================================================== *)

Module Py.

(** What [json.load] and [response.json()] produce.  A [JObj] is the member
    list of a JSON object in file order; [dict_get] below resolves repeated
    keys the way [json.load] does (the last one wins).  [JNull] doubles as
    Python's [None], as it does after parsing. *)
Inductive json : Type :=
| JNull
| JBool (b : bool)
| JInt (n : Z)
| JFloat (q : Q)
| JStr (s : string)
| JArr (items : list json)
| JObj (members : list (string * json)).

(** [bool(v)]: Python truthiness, the test behind [not x], [if x] and
    [all([...])]. *)
Definition truthy (v : json) : bool :=
  match v with
  | JNull => false
  | JBool b => b
  | JInt n => negb (n =? 0)
  | JFloat q => negb (Qnum q =? 0)
  | JStr s => negb (String.eqb s EmptyString)
  | JArr items => match items with [] => false | _ :: _ => true end
  | JObj members => match members with [] => false | _ :: _ => true end
  end.

(** [all(xs)] on a list of values. *)
Definition py_all (xs : list json) : bool := forallb truthy xs.

Fixpoint dict_get (key : string) (members : list (string * json)) : option json :=
  match members with
  | [] => None
  | (k, v) :: rest =>
      match dict_get key rest with
      | Some v' => Some v'
      | None => if String.eqb key k then Some v else None
      end
  end.

Definition dict_has (key : string) (members : list (string * json)) : bool :=
  match dict_get key members with Some _ => true | None => false end.

(** The exceptions the scripts tell apart.  [SystemExit] is not an
    [Exception] in Python: an [except Exception] clause lets it through. *)
Inductive exn : Type :=
| ConnectionError          (* requests.exceptions.ConnectionError *)
| RequestTimeout           (* requests.exceptions.Timeout *)
| HTTPError                (* raised by response.raise_for_status() *)
| OtherRequestException    (* any other requests.exceptions.RequestException *)
| JSONDecodeError
| AttributeError
| TypeError
| UnboundLocalError
| FileNotFoundError (mentions_sshpass : bool)
| OSError
| AuthenticationException  (* paramiko *)
| SSHException             (* paramiko *)
| SocketError              (* socket.error *)
| SocketTimeout            (* socket.timeout *)
| TimeoutExpired           (* subprocess *)
| OtherException
| SystemExit (code : Z).

Definition is_RequestException (e : exn) : bool :=
  match e with
  | ConnectionError | RequestTimeout | HTTPError | OtherRequestException => true
  | _ => false
  end.

Definition is_Exception (e : exn) : bool :=
  match e with SystemExit _ => false | _ => true end.

(** Outcome of a Python expression or call: a value or a raised exception. *)
Inductive result (A : Type) : Type :=
| Ret (a : A)
| Raise (e : exn).
Arguments Ret {A} a.
Arguments Raise {A} e.

(** [obj.get(key)] and [obj.get(key, default)]: only a dict has [get]. *)
Definition py_get_default (obj : json) (key : string) (default : json) : result json :=
  match obj with
  | JObj members =>
      match dict_get key members with Some v => Ret v | None => Ret default end
  | _ => Raise AttributeError
  end.

Definition py_get (obj : json) (key : string) : result json :=
  py_get_default obj key JNull.

Definition json_is_str (s : string) (v : json) : bool :=
  match v with JStr s' => String.eqb s s' | _ => false end.

(** [key in obj] for a string [key]: membership of a key in a dict, of an
    element in a list, of a substring in a string; a [TypeError] on the
    rest. *)
Definition py_contains (key : string) (obj : json) : result bool :=
  match obj with
  | JObj members => Ret (dict_has key members)
  | JArr items => Ret (existsb (json_is_str key) items)
  | JStr s => Ret (match String.index 0 key s with Some _ => true | None => false end)
  | _ => Raise TypeError
  end.

Fixpoint chars (s : string) : list json :=
  match s with
  | EmptyString => []
  | String c rest => JStr (String c EmptyString) :: chars rest
  end.

(** The keys of a dict, each once, in the order of first insertion. *)
Fixpoint dict_keys (seen : list string) (members : list (string * json)) : list string :=
  match members with
  | [] => []
  | (k, _) :: rest =>
      if existsb (String.eqb k) seen then dict_keys seen rest
      else k :: dict_keys (k :: seen) rest
  end.

(** What [for item in obj] iterates over ([len(obj)] fails on the same
    values): the elements of a list, the keys of a dict, the characters of a
    string. *)
Definition py_iter (obj : json) : result (list json) :=
  match obj with
  | JArr items => Ret items
  | JObj members => Ret (map JStr (dict_keys [] members))
  | JStr s => Ret (chars s)
  | _ => Raise TypeError
  end.

(** ['/' in s]. *)
Definition contains_slash (s : string) : bool :=
  match String.index 0 "/" s with Some _ => true | None => false end.

Fixpoint ends_with_slash (s : string) : bool :=
  match s with
  | EmptyString => false
  | String c EmptyString => Ascii.eqb c "/"
  | String _ rest => ends_with_slash rest
  end.

(** [os.path.join(a, b)] on POSIX. *)
Definition path_join (a b : string) : string :=
  match b with
  | String "/" _ => b
  | _ => if String.eqb a EmptyString || ends_with_slash a then a ++ b else a ++ "/" ++ b
  end.

(** [os.path.basename(p)] on POSIX: what follows the last slash. *)
Fixpoint basename (p : string) : string :=
  match p with
  | EmptyString => EmptyString
  | String c rest =>
      if contains_slash rest then basename rest
      else if Ascii.eqb c "/" then rest else p
  end.

(** Truthiness of an optional string argument ([None] and [''] are false). *)
Definition given (a : option string) : bool :=
  match a with Some v => negb (String.eqb v EmptyString) | None => false end.

(** [sys.exit(code)]. *)
Definition exit_code {A} (r : result A) : Z :=
  match r with
  | Ret _ => 0
  | Raise (SystemExit code) => code
  | Raise _ => 1
  end.

End Py.

(* ===================================================================== *)
(** * External effects and the monad of the scripts                       *)
(* ===================================================================== *)

Module Eff.
Import Py.

(** The HTTP requests the scripts issue, with the parts of the URL kept
    apart.  [ReqProbe p] is [GET http://localhost:{p}];
    [ReqSearch p endpoint query] is [GET http://localhost:{p}{endpoint}?pretty]
    with the JSON body [query];
    [ReqPut p index doc_id source] is
    [PUT http://localhost:{p}/{index}/_doc/{doc_id}] with the JSON body
    [source] ([index] and [doc_id] go through Python's string formatting). *)
Inductive request : Type :=
| ReqProbe (port : Z)
| ReqSearch (port : Z) (endpoint : string) (query : json)
| ReqPut (port : Z) (index doc_id source : json).

(** A response of the [requests] library.  [json_body] is what
    [response.json()] returns, [None] when the body does not parse. *)
Record response : Type := mkResponse {
  status : Z;
  content_type : option string;
  text : string;
  json_body : option json
}.

(** How a call into [requests] fails when it gets no response. *)
Inductive transport_error : Type :=
| Refused            (* requests.exceptions.ConnectionError *)
| TimedOut           (* requests.exceptions.Timeout *)
| OtherRequestError  (* another requests.exceptions.RequestException *)
| OtherError.        (* any other Exception *)

Definition exn_of (t : transport_error) : exn :=
  match t with
  | Refused => ConnectionError
  | TimedOut => RequestTimeout
  | OtherRequestError => OtherRequestException
  | OtherError => OtherException
  end.

Inductive http_outcome : Type :=
| HttpRaises (t : transport_error)
| HttpResponse (r : response).

(** [response.raise_for_status()] raises [HTTPError] on 4xx and 5xx. *)
Definition raise_for_status (r : response) : result unit :=
  if (400 <=? status r) && (status r <? 600) then Raise HTTPError else Ret tt.

Inductive level : Type := DEBUG | INFO | WARNING | ERROR.

(** The log lines the properties below speak about; every other line of the
    scripts is a [MsgOther] with the text of its format string. *)
Inductive message : Type :=
| MsgMissingFields (item : json)
| MsgRequestFailed (doc_id : json) (e : exn)
| MsgUnexpectedItem (doc_id : json) (e : exn)
| MsgRestored (doc_id : json) (action : json)
| MsgRestoring (path : string) (n : nat)
| MsgRestoreCompleted (path : string) (success_count failure_count : nat)
| MsgAcceptError (e : exn)
| MsgWorkerError (e : exn)
| MsgOther (fmt : string).

(** One external effect.  The trace of a run is the list of its effects,
    the most recent first. *)
Inductive event : Type :=
| EvLog (l : level) (m : message)
| EvHttp (r : request)
| EvSleep (seconds : Z)
| EvCreateFile (path : string)                      (* open(path, 'w') *)
| EvWriteFile (path : string) (content : json + string)
| EvSummary (file_type : string) (success : bool)   (* a line of the printed summary *)
| EvSshConnect
| EvSshClose
| EvThreadStart
| EvThreadJoin (timeout : Z)
| EvListen (port : Z)                               (* socket, bind, listen *)
| EvAccept (timeout : Z)                            (* settimeout; accept *)
| EvSpawn (client : nat)                            (* a forwarder thread is started *)
| EvServerClose
| EvPortCheck (port : Z)
| EvPopen (with_sshpass : bool)
| EvTerminate
| EvWait (timeout : Z)
| EvKill.

Definition trace : Type := list event.

Definition request_of (e : event) : list request :=
  match e with EvHttp r => [r] | _ => [] end.

(** The requests of a trace, the most recent first. *)
Definition requests (t : trace) : list request := flat_map request_of t.

Section Monad.
(** [St] is the state of the running script: the attributes of the object
    and the trace.  An exception keeps the state reached when it was
    raised, as in Python. *)
Context {St : Type}.

Definition M (A : Type) : Type := St -> result A * St.

Definition ret {A} (a : A) : M A := fun s => (Ret a, s).
Definition raise {A} (e : exn) : M A := fun s => (Raise e, s).
Definition lift {A} (r : result A) : M A := fun s => (r, s).

Definition bind {A B} (m : M A) (k : A -> M B) : M B :=
  fun s => match m s with
           | (Ret a, s') => k a s'
           | (Raise e, s') => (Raise e, s')
           end.

(** [try: m  except C1: h1  except C2: h2 ...]: the first clause whose
    class matches handles the exception; an exception that no clause
    matches, or that a handler raises, propagates. *)
Fixpoint dispatch {A} (clauses : list ((exn -> bool) * (exn -> M A))) (e : exn) : M A :=
  match clauses with
  | [] => raise e
  | (matches, handler) :: rest =>
      if matches e then handler e else dispatch rest e
  end.

Definition try_except {A} (m : M A) (clauses : list ((exn -> bool) * (exn -> M A))) : M A :=
  fun s => match m s with
           | (Ret a, s') => (Ret a, s')
           | (Raise e, s') => dispatch clauses e s'
           end.

(** [try: m  finally: f]. *)
Definition try_finally {A} (m : M A) (f : M unit) : M A :=
  fun s => match m s with
           | (r, s') => match f s' with
                        | (Ret _, s'') => (r, s'')
                        | (Raise e, s'') => (Raise e, s'')
                        end
           end.

Definition get : M St := fun s => (Ret s, s).
Definition modify (f : St -> St) : M unit := fun s => (Ret tt, f s).
End Monad.
Arguments M St A : clear implicits.

(** A state that carries the trace of the run. *)
Class Traced (St : Type) : Type := {
  trace_of : St -> trace;
  with_trace : trace -> St -> St
}.

Section Effects.
Context {St : Type} `{Traced St}.

Definition emit (e : event) : M St unit :=
  modify (fun s => with_trace (e :: trace_of s) s).

(** [logging.<level>(...)]. *)
Definition log (l : level) (m : message) : M St unit := emit (EvLog l m).

(** A call into [requests]: the request is recorded, and the network
    answers, possibly depending on the requests it has already seen. *)
Definition http_call (net : list request -> request -> http_outcome)
    (r : request) : M St response :=
  fun s =>
    let s' := with_trace (EvHttp r :: trace_of s) s in
    match net (requests (trace_of s)) r with
    | HttpRaises t => (Raise (exn_of t), s')
    | HttpResponse resp => (Ret resp, s')
    end.
End Effects.

Declare Scope py_scope.
Delimit Scope py_scope with py.
Notation "x <- m ;; k" := (bind m (fun x => k))
  (at level 61, m at next level, right associativity) : py_scope.
Notation "m ;; k" := (bind m (fun _ => k))
  (at level 61, right associativity) : py_scope.

End Eff.

(* ===================================================================== *)
(** * restore_alerts-reports.py: class SSHTunnelRestorer                  *)
(* ===================================================================== *)

Module Restorer.
Import Py Eff.
Local Open Scope py_scope.

(** What the file system holds at a path when the script opens it. *)
Inductive file_state : Type :=
| FileMissing
| FileUnreadable            (* open() or the decoding raises *)
| FileNotJson               (* json.load raises JSONDecodeError *)
| FileJson (json_data : json).

(** The world around one run of the script. *)
Record env : Type := mkEnv {
  local_port : Z;
  ssh_password : option string;
  input_dir : string;
  now : string;                                  (* datetime.now() formatted *)
  fs : string -> file_state;
  writable : string -> bool;                     (* open(path, 'w') succeeds *)
  net : list request -> request -> http_outcome;
  construct : result unit;                       (* SSHTunnelRestorer(config) *)
  popen : result unit;                           (* subprocess.Popen(ssh_cmd) *)
  exits_during_settle : bool;                    (* ssh is gone after the sleep *)
  wait_expires : bool                            (* Popen.wait(timeout=5) raises TimeoutExpired *)
}.

(** The attributes of the object that change ([tunnel_process]), the
    operating system's view of the ssh process, and the trace. *)
Record state : Type := mkState {
  tunnel_process : option unit;
  process_running : bool;
  events : trace
}.

#[global] Instance state_traced : Traced state := {
  trace_of := events;
  with_trace t s := mkState (tunnel_process s) (process_running s) t
}.

Definition initial : state := mkState None false [].

Definition set_tunnel_process (p : option unit) : M state unit :=
  modify (fun s => mkState p (process_running s) (events s)).
Definition set_process_running (b : bool) : M state unit :=
  modify (fun s => mkState (tunnel_process s) b (events s)).

Section WithEnv.
Variable E : env.

(** [self.tunnel_process.poll() is None]. *)
Definition poll_is_None : M state bool :=
  s <- get ;; ret (process_running s).

Definition cleanup_tunnel : M state unit :=
  s <- get ;;
  match tunnel_process s with
  | Some _ =>
      if process_running s then
        log INFO (MsgOther "Closing SSH tunnel...") ;;
        emit EvTerminate ;;
        try_except
          (emit (EvWait 5) ;;
           (if wait_expires E then raise TimeoutExpired else ret tt) ;;
           set_process_running false)
          [ ((fun e => match e with TimeoutExpired => true | _ => false end),
             (fun _ => emit EvKill ;; set_process_running false)) ] ;;
        set_tunnel_process None
      else ret tt
  | None => ret tt
  end.

Definition password_given : bool :=
  match ssh_password E with
  | Some p => negb (String.eqb p EmptyString)
  | None => false
  end.

(** [create_ssh_tunnel], block by block: the start of the ssh process
    with the settle delay, and the test of the tunnel. *)
Definition start_ssh : M state unit :=
  log INFO (MsgOther "Creating SSH tunnel: {cmd}") ;;
  emit (EvPopen password_given) ;;
  lift (popen E) ;;
  set_tunnel_process (Some tt) ;;
  set_process_running true ;;
  emit (EvSleep 3) ;;
  set_process_running (negb (exits_during_settle E)).

Definition test_tunnel : M state bool :=
  try_except
    (http_call (net E) (ReqProbe (local_port E)) ;;
     log INFO (MsgOther "SSH tunnel established successfully") ;;
     ret true)
    [ (is_RequestException,
       (fun _ => log ERROR (MsgOther "SSH tunnel test failed: {e}") ;;
                 cleanup_tunnel ;;
                 ret false)) ].

Definition create_ssh_tunnel : M state bool :=
  try_except
    (start_ssh ;;
     alive <- poll_is_None ;;
     if negb alive then
       log ERROR (MsgOther "SSH tunnel failed to start: {stderr}") ;;
       ret false
     else test_tunnel)
    [ ((fun e => match e with FileNotFoundError _ => true | _ => false end),
       (fun e => match e with
                 | FileNotFoundError true =>
                     log ERROR (MsgOther "sshpass not found. Install with: sudo apt-get install sshpass")
                 | _ => log ERROR (MsgOther "SSH command not found: {e}")
                 end ;;
                 ret false));
      (is_Exception,
       (fun _ => log ERROR (MsgOther "Failed to create SSH tunnel: {e}") ;;
                 ret false)) ].

(** [response.json()]. *)
Definition response_json (r : response) : result json :=
  match json_body r with Some j => Ret j | None => Raise JSONDecodeError end.

(** The three [item.get] calls bind [index], [doc_id] and [source] in this
    order.  When the first of them raises ([item] is not a dict), no
    clause for [RequestException] applies and the [except Exception]
    handler formats [doc_id], which is still unbound: that raises
    [UnboundLocalError] from inside the handler, so it leaves the
    function. *)
Definition _restore_single_item (item : json) : M state bool :=
  match py_get item "_index", py_get item "_id", py_get item "_source" with
  | Ret index, Ret doc_id, Ret source =>
      try_except
        (if negb (py_all [index; doc_id; source]) then
           log ERROR (MsgMissingFields item) ;;
           ret false
         else
           r <- http_call (net E) (ReqPut (local_port E) index doc_id source) ;;
           lift (raise_for_status r) ;;
           result <- lift (response_json r) ;;
           action <- lift (py_get_default result "result" (JStr "unknown")) ;;
           log DEBUG (MsgRestored doc_id action) ;;
           ret true)
        [ (is_RequestException,
           (fun e => log ERROR (MsgRequestFailed doc_id e) ;; ret false));
          (is_Exception,
           (fun e => log ERROR (MsgUnexpectedItem doc_id e) ;; ret false)) ]
  | _, _, _ => raise UnboundLocalError
  end.

(** The [for item in hits] loop with its two counters. *)
Fixpoint restore_items (hits : list json) (success_count failure_count : nat)
  : M state (nat * nat) :=
  match hits with
  | [] => ret (success_count, failure_count)
  | item :: rest =>
      ok <- _restore_single_item item ;;
      if ok then restore_items rest (S success_count) failure_count
      else restore_items rest success_count (S failure_count)
  end.

(** [len(obj)]. *)
Definition py_len (obj : json) : result nat :=
  match py_iter obj with
  | Ret items => Ret (List.length items)
  | Raise e => Raise e
  end.

(** [with open(path) as file: json.load(file)]. *)
Definition load_json (path : string) : M state json :=
  match fs E path with
  | FileMissing => raise (FileNotFoundError false)
  | FileUnreadable => raise OSError
  | FileNotJson => raise JSONDecodeError
  | FileJson json_data => ret json_data
  end.

Definition path_exists (path : string) : bool :=
  match fs E path with FileMissing => false | _ => true end.

(** [json_data.get('hits', {}).get('hits', [])]. *)
Definition hits_of (json_data : json) : result json :=
  match py_get_default json_data "hits" (JObj []) with
  | Ret inner => py_get_default inner "hits" (JArr [])
  | Raise e => Raise e
  end.

Definition is_JSONDecodeError (e : exn) : bool :=
  match e with JSONDecodeError => true | _ => false end.

Definition restore_from_file (json_file_path : string) : M state bool :=
  try_except
    (if negb (path_exists json_file_path) then
       log ERROR (MsgOther "File not found: {json_file_path}") ;;
       ret false
     else
       log INFO (MsgOther "Restoring from: {json_file_path}") ;;
       json_data <- load_json json_file_path ;;
       has_hits <- lift (py_contains "hits" json_data) ;;
       if negb has_hits then
         log ERROR (MsgOther "Invalid JSON format in {json_file_path}: missing 'hits' field") ;;
         ret false
       else
         hits <- lift (hits_of json_data) ;;
         if negb (truthy hits) then
           log WARNING (MsgOther "No data to restore in {json_file_path}") ;;
           ret true
         else
           n <- lift (py_len hits) ;;
           log INFO (MsgRestoring json_file_path n) ;;
           items <- lift (py_iter hits) ;;
           counts <- restore_items items 0%nat 0%nat ;;
           log INFO (MsgRestoreCompleted json_file_path (fst counts) (snd counts)) ;;
           ret (Nat.eqb (snd counts) 0))
    [ (is_JSONDecodeError,
       (fun _ => log ERROR (MsgOther "Failed to parse JSON in {json_file_path}: {e}") ;;
                 ret false));
      (is_Exception,
       (fun _ => log ERROR (MsgOther "Unexpected error restoring from {json_file_path}: {e}") ;;
                 ret false)) ].

(** [restore_alerts] and [restore_reports] differ in the default name. *)
Definition resolve (default : string) (filename : option string) : string :=
  let name := match filename with Some f => f | None => default end in
  if contains_slash name then name else path_join (input_dir E) name.

Definition restore_alerts (alerts_filename : option string) : M state bool :=
  let alerts_file := resolve "alerts.json" alerts_filename in
  log INFO (MsgOther "Starting alerts restoration from: {alerts_file}") ;;
  restore_from_file alerts_file.

Definition restore_reports (reports_filename : option string) : M state bool :=
  let reports_file := resolve "reports.json" reports_filename in
  log INFO (MsgOther "Starting reports restoration from: {reports_file}") ;;
  restore_from_file reports_file.

(** The loop of [extract_definitions_only]: the truthy [_source] values. *)
Fixpoint definitions_of (hits : list json) : result (list json) :=
  match hits with
  | [] => Ret []
  | item :: rest =>
      match py_get item "_source" with
      | Raise e => Raise e
      | Ret source =>
          match definitions_of rest with
          | Raise e => Raise e
          | Ret defs => Ret (if truthy source then source :: defs else defs)
          end
      end
  end.

Definition extract_definitions_only (json_file_path output_file_path : string)
  : M state bool :=
  try_except
    (if negb (path_exists json_file_path) then
       log ERROR (MsgOther "File not found: {json_file_path}") ;;
       ret false
     else
       log INFO (MsgOther "Extracting definitions from: {json_file_path}") ;;
       json_data <- load_json json_file_path ;;
       has_hits <- lift (py_contains "hits" json_data) ;;
       if negb has_hits then
         log ERROR (MsgOther "Invalid JSON format in {json_file_path}: missing 'hits' field") ;;
         ret false
       else
         hits <- lift (hits_of json_data) ;;
         if negb (truthy hits) then
           log WARNING (MsgOther "No data to extract in {json_file_path}") ;;
           ret true
         else
           items <- lift (py_iter hits) ;;
           definitions <- lift (definitions_of items) ;;
           (if writable E output_file_path then emit (EvCreateFile output_file_path)
            else raise OSError) ;;
           emit (EvWriteFile output_file_path
                   (inl (JObj [("definitions", JArr definitions);
                               ("count", JInt (Z.of_nat (List.length definitions)));
                               ("extracted_from", JStr (basename json_file_path))]))) ;;
           log INFO (MsgOther "Successfully extracted {n} definitions to {output_file_path}") ;;
           ret true)
    [ (is_JSONDecodeError,
       (fun _ => log ERROR (MsgOther "Failed to parse JSON in {json_file_path}: {e}") ;;
                 ret false));
      (is_Exception,
       (fun _ => log ERROR (MsgOther "Unexpected error extracting definitions from {json_file_path}: {e}") ;;
                 ret false)) ].

(** The result mapping: a dict from the operation's name to its success,
    in insertion order. *)
Definition results : Type := list (string * bool).

(** [all(results.values())]. *)
Definition all_values (r : results) : bool := forallb snd r.

Definition restore_all (alerts_filename reports_filename : option string)
  : M state results :=
  log INFO (MsgOther "Starting SSH tunnel configuration restoration...") ;;
  up <- create_ssh_tunnel ;;
  if negb up then
    log ERROR (MsgOther "Failed to create SSH tunnel. Aborting restoration.") ;;
    ret [("reports", false); ("alerts", false)]
  else
    try_finally
      (a <- restore_alerts alerts_filename ;;
       r <- restore_reports reports_filename ;;
       let res := [("alerts", a); ("reports", r)] in
       log INFO (MsgOther "Restoration completed: {success_count}/{total_count} file types restored successfully") ;;
       (if all_values res
        then log INFO (MsgOther "All configurations restored successfully!")
        else log WARNING (MsgOther "Some configurations failed to restore. Check the logs for details.")) ;;
       ret res)
      cleanup_tunnel.

(** The parsed command line. *)
Record args : Type := mkArgs {
  file : option string;
  alerts : option string;
  reports : option string;
  alerts_source : option string;
  reports_source : option string
}.

Definition sys_exit {A} (code : Z) : M state A := raise (SystemExit code).

(** One operation behind a tunnel of its own: the [--file], [-a] and [-r]
    branches of [main]. *)
Definition tunnelled (key : string) (op : M state bool) : M state results :=
  up <- create_ssh_tunnel ;;
  if negb up then
    log ERROR (MsgOther "Failed to create SSH tunnel. Aborting.") ;;
    sys_exit 1
  else
    try_finally (ok <- op ;; ret [(key, ok)]) cleanup_tunnel.

Definition extract (key prefix : string) (source : string) : M state results :=
  let input_file :=
    if contains_slash source then source else path_join (input_dir E) source in
  let output_file := path_join (input_dir E) (prefix ++ now E ++ ".json") in
  ok <- extract_definitions_only input_file output_file ;;
  ret [(key, ok)].

Fixpoint print_summary (r : results) : M state unit :=
  match r with
  | [] => ret tt
  | (file_type, success) :: rest =>
      emit (EvSummary file_type success) ;; print_summary rest
  end.

Definition unwrap (a : option string) : string :=
  match a with Some v => v | None => EmptyString end.

Definition is_FileNotFoundError (e : exn) : bool :=
  match e with FileNotFoundError _ => true | _ => false end.

(** The branch of [main] that the arguments select, and the result
    mapping it builds. *)
Definition requested (a : args) : M state results :=
  if given (file a) then
    tunnelled (basename (unwrap (file a))) (restore_from_file (unwrap (file a)))
  else if given (alerts_source a) then
    extract "alerts_extract" "alerts_definitions_" (unwrap (alerts_source a))
  else if given (reports_source a) then
    extract "reports_extract" "reports_definitions_" (unwrap (reports_source a))
  else if given (alerts a) && given (reports a) then
    restore_all (alerts a) (reports a)
  else if given (alerts a) then
    tunnelled "alerts" (restore_alerts (alerts a))
  else if given (reports a) then
    tunnelled "reports" (restore_reports (reports a))
  else
    restore_all None None.

Definition main (a : args) : M state unit :=
  try_except
    (lift (construct E) ;;
     res <- requested a ;;
     print_summary res ;;
     if all_values res then sys_exit 0 else sys_exit 1)
    [ (is_FileNotFoundError,
       (fun _ => log ERROR (MsgOther "Configuration file not found: {e}") ;; sys_exit 1));
      (is_Exception,
       (fun _ => log ERROR (MsgOther "Unexpected error: {e}") ;; sys_exit 1)) ].

(** The whole process: [main], then the [atexit] hook that the
    constructor registered ([cleanup_tunnel]), and the exit status. *)
Definition process (a : args) (s : state) : Z * state :=
  match main a s with
  | (r, s1) => (exit_code r, snd (cleanup_tunnel s1))
  end.
End WithEnv.

End Restorer.

(* ===================================================================== *)
(** * collect_alerts-reports.py: class SSHTunnelCollector                 *)
(* ===================================================================== *)

Module Collector.
Import Py Eff.
Local Open Scope py_scope.

(** The world around one run of the script. *)
Record env : Type := mkEnv {
  local_port : Z;
  output_dir : string;
  timestamp : string;
  construct : result unit;                       (* SSHTunnelCollector(config) *)
  ssh_connect : result unit;                     (* SSHClient.connect *)
  listen : result unit;                          (* the worker's socket, bind, listen *)
  net : list request -> request -> http_outcome;
  port_check : option Z;                         (* sock.connect_ex, None when it raises *)
  server_close : result unit;
  thread_join : result unit;
  worker_ends_on_join : bool;                    (* the worker is gone when join returns *)
  ssh_close : result unit;
  writable : string -> bool                      (* open(path, 'w') succeeds *)
}.

(** The attributes of the object that change, whether the worker thread is
    alive, and the trace. *)
Record state : Type := mkState {
  ssh_client : option unit;
  tunnel_thread : option unit;
  tunnel_server : option unit;
  tunnel_running : bool;
  worker_alive : bool;
  events : trace
}.

#[global] Instance state_traced : Traced state := {
  trace_of := events;
  with_trace t s :=
    mkState (ssh_client s) (tunnel_thread s) (tunnel_server s)
            (tunnel_running s) (worker_alive s) t
}.

Definition initial : state := mkState None None None false false [].

Definition set_ssh_client (v : option unit) : M state unit :=
  modify (fun s => mkState v (tunnel_thread s) (tunnel_server s)
                           (tunnel_running s) (worker_alive s) (events s)).
Definition set_tunnel_thread (v : option unit) : M state unit :=
  modify (fun s => mkState (ssh_client s) v (tunnel_server s)
                           (tunnel_running s) (worker_alive s) (events s)).
Definition set_tunnel_server (v : option unit) : M state unit :=
  modify (fun s => mkState (ssh_client s) (tunnel_thread s) v
                           (tunnel_running s) (worker_alive s) (events s)).
Definition set_tunnel_running (v : bool) : M state unit :=
  modify (fun s => mkState (ssh_client s) (tunnel_thread s) (tunnel_server s)
                           v (worker_alive s) (events s)).
Definition set_worker_alive (v : bool) : M state unit :=
  modify (fun s => mkState (ssh_client s) (tunnel_thread s) (tunnel_server s)
                           (tunnel_running s) v (events s)).

(** A bare [except:] catches everything. *)
Definition anything (e : exn) : bool := true.

(** [try: m  except: pass]. *)
Definition swallow (m : M state unit) : M state unit :=
  try_except m [ (anything, (fun _ => ret tt)) ].

Definition when (b : bool) (m : M state unit) : M state unit :=
  if b then m else ret tt.

Definition is_some {A} (o : option A) : bool :=
  match o with Some _ => true | None => false end.

Section WithEnv.
Variable E : env.

(** The four [if] blocks of [cleanup_tunnel], in order. *)
Definition lower_flag : M state unit :=
  s <- get ;;
  when (tunnel_running s)
    (log INFO (MsgOther "Closing SSH tunnel...") ;;
     set_tunnel_running false).

Definition release_server : M state unit :=
  s <- get ;;
  when (is_some (tunnel_server s))
    (swallow (emit EvServerClose ;; lift (server_close E)) ;;
     set_tunnel_server None).

Definition join_worker : M state unit :=
  s <- get ;;
  when (is_some (tunnel_thread s) && worker_alive s)
    (swallow (emit (EvThreadJoin 5) ;;
              lift (thread_join E) ;;
              when (worker_ends_on_join E) (set_worker_alive false)) ;;
     set_tunnel_thread None).

Definition release_client : M state unit :=
  s <- get ;;
  when (is_some (ssh_client s))
    (swallow (emit EvSshClose ;; lift (ssh_close E)) ;;
     set_ssh_client None).

Definition cleanup_tunnel : M state unit :=
  lower_flag ;; release_server ;; join_worker ;; release_client.

(** The part of [_tunnel_worker] that runs before its accept loop, and
    its way out when that part fails.  The worker is a thread of its own:
    the model lets it reach its loop (or fail) within the settle delay of
    [create_ssh_tunnel], and nothing it raises reaches the main thread. *)
Definition worker_prologue : M state unit :=
  set_worker_alive true ;;
  try_except
    (emit (EvListen (local_port E)) ;;
     lift (listen E) ;;
     set_tunnel_server (Some tt) ;;
     log INFO (MsgOther "Tunnel server listening on localhost:{self.local_port}"))
    [ (is_Exception,
       (fun e => log ERROR (MsgWorkerError e) ;; set_worker_alive false));
      (anything,
       (fun _ => set_worker_alive false)) ].

(** The fallback of the [ConnectionError] handler: is the port open? *)
Definition check_port : M state unit :=
  emit (EvPortCheck (local_port E)) ;;
  match port_check E with
  | Some 0 => log INFO (MsgOther "Port {self.local_port} is listening but Elasticsearch might not be responding")
  | Some _ => log ERROR (MsgOther "Port {self.local_port} is not listening")
  | None => log ERROR (MsgOther "Port test failed: {port_test_error}")
  end.

Definition is_ConnectionError (e : exn) : bool :=
  match e with ConnectionError => true | _ => false end.
Definition is_Timeout (e : exn) : bool :=
  match e with RequestTimeout => true | _ => false end.
Definition is_AuthenticationException (e : exn) : bool :=
  match e with AuthenticationException => true | _ => false end.
Definition is_SSHException (e : exn) : bool :=
  match e with AuthenticationException | SSHException => true | _ => false end.
Definition is_socket_error (e : exn) : bool :=
  match e with
  | SocketError | SocketTimeout | OSError | FileNotFoundError _ => true
  | _ => false
  end.

(** [create_ssh_tunnel], block by block: the SSH connection, the start of
    the worker with the settle delay, the test of the tunnel. *)
Definition connect_ssh : M state unit :=
  log INFO (MsgOther "Creating SSH tunnel using paramiko: {user}@{host}:{port}") ;;
  set_ssh_client (Some tt) ;;
  emit EvSshConnect ;;
  lift (ssh_connect E) ;;
  log INFO (MsgOther "SSH connection established successfully").

Definition start_worker : M state unit :=
  set_tunnel_running true ;;
  set_tunnel_thread (Some tt) ;;
  emit EvThreadStart ;;
  log INFO (MsgOther "Waiting for SSH tunnel to establish...") ;;
  emit (EvSleep 3) ;;
  worker_prologue.

Definition test_tunnel : M state bool :=
  try_except
    (log INFO (MsgOther "Testing connection to localhost:{self.local_port}") ;;
     http_call (net E) (ReqProbe (local_port E)) ;;
     log INFO (MsgOther "SSH tunnel established successfully") ;;
     ret true)
    [ (is_ConnectionError,
       (fun _ => log ERROR (MsgOther "SSH tunnel test failed - connection error: {e}") ;;
                 check_port ;;
                 cleanup_tunnel ;;
                 ret false));
      (is_Timeout,
       (fun _ => log ERROR (MsgOther "SSH tunnel test failed - timeout: {e}") ;;
                 cleanup_tunnel ;;
                 ret false));
      (is_Exception,
       (fun _ => log ERROR (MsgOther "SSH tunnel test failed - unexpected error: {e}") ;;
                 cleanup_tunnel ;;
                 ret false)) ].

Definition create_ssh_tunnel : M state bool :=
  try_except
    (connect_ssh ;; start_worker ;; test_tunnel)
    [ (is_AuthenticationException,
       (fun _ => log ERROR (MsgOther "SSH authentication failed. Check username and password.") ;;
                 ret false));
      (is_SSHException,
       (fun _ => log ERROR (MsgOther "SSH connection failed: {e}") ;; ret false));
      (is_socket_error,
       (fun _ => log ERROR (MsgOther "Network error connecting to SSH server: {e}") ;;
                 ret false));
      (is_Exception,
       (fun _ => log ERROR (MsgOther "Failed to create SSH tunnel: {e}") ;; ret false)) ].

Definition response_json (r : response) : result json :=
  match json_body r with Some j => Ret j | None => Raise JSONDecodeError end.

(** [response.headers.get('content-type', '').startswith('application/json')]. *)
Definition is_json_content (r : response) : bool :=
  match content_type r with
  | Some ct => String.prefix "application/json" ct
  | None => false
  end.

Definition is_JSONDecodeError (e : exn) : bool :=
  match e with JSONDecodeError => true | _ => false end.

Definition _execute_request (endpoint : string) (query : json)
    (output_file file_type : string) : M state bool :=
  try_except
    (log INFO (MsgOther "Making request through tunnel: {url}") ;;
     r <- http_call (net E) (ReqSearch (local_port E) endpoint query) ;;
     lift (raise_for_status r) ;;
     (if writable E output_file then emit (EvCreateFile output_file)
      else raise OSError) ;;
     (if is_json_content r then
        body <- lift (response_json r) ;;
        emit (EvWriteFile output_file (inl body))
      else
        emit (EvWriteFile output_file (inr (text r)))) ;;
     log INFO (MsgOther "Successfully collected {file_type} data to {output_file}") ;;
     ret true)
    [ (is_RequestException,
       (fun _ => log ERROR (MsgOther "Request failed for {file_type}: {e}") ;; ret false));
      (is_JSONDecodeError,
       (fun _ => log ERROR (MsgOther "Failed to parse JSON response for {file_type}: {e}") ;;
                 ret false));
      (is_Exception,
       (fun _ => log ERROR (MsgOther "Unexpected error collecting {file_type}: {e}") ;;
                 ret false)) ].

(** [{"query": {"match_all": {}}, "size": 9999}]. *)
Definition match_all_query : json :=
  JObj [("query", JObj [("match_all", JObj [])]); ("size", JInt 9999)].

Definition collect_reports : M state bool :=
  _execute_request
    "/vrm-scheduled-report-definition-vrm-ty-vrm-scheduled-report-definition/_search"
    match_all_query
    (path_join (output_dir E) ("reports_" ++ timestamp E ++ ".json"))
    "reports".

Definition collect_alerts : M state bool :=
  _execute_request
    "/rt-alert-def-vrm-ty-rt-alert-def-vrm/_search"
    match_all_query
    (path_join (output_dir E) ("alerts_" ++ timestamp E ++ ".json"))
    "alerts".

Definition results : Type := list (string * bool).

(** [all(results.values())]. *)
Definition all_values (r : results) : bool := forallb snd r.

Definition collect_all : M state results :=
  log INFO (MsgOther "Starting SSH tunnel configuration collection...") ;;
  up <- create_ssh_tunnel ;;
  if negb up then
    log ERROR (MsgOther "Failed to create SSH tunnel. Aborting collection.") ;;
    ret [("reports", false); ("alerts", false)]
  else
    try_finally
      (r <- collect_reports ;;
       a <- collect_alerts ;;
       let res := [("reports", r); ("alerts", a)] in
       log INFO (MsgOther "Collection completed: {success_count}/{total_count} files collected successfully") ;;
       (if all_values res
        then log INFO (MsgOther "All files collected successfully!")
        else log WARNING (MsgOther "Some files failed to collect. Check the logs for details.")) ;;
       ret res)
      cleanup_tunnel.

Definition sys_exit {A} (code : Z) : M state A := raise (SystemExit code).

Fixpoint print_summary (r : results) : M state unit :=
  match r with
  | [] => ret tt
  | (file_type, success) :: rest =>
      emit (EvSummary file_type success) ;; print_summary rest
  end.

(** [KeyboardInterrupt] is not among the modelled exceptions: the first
    clause of [main]'s handler never applies here. *)
Definition main : M state unit :=
  try_except
    (lift (construct E) ;;
     res <- collect_all ;;
     print_summary res ;;
     if all_values res then sys_exit 0 else sys_exit 1)
    [ (is_Exception,
       (fun _ => log ERROR (MsgOther "Unexpected error: {e}") ;; sys_exit 1)) ].

(** The whole process: [main], then the [atexit] hook ([cleanup_tunnel]),
    and the exit status. *)
Definition process (s : state) : Z * state :=
  match main s with
  | (r, s1) => (exit_code r, snd (cleanup_tunnel s1))
  end.
End WithEnv.

(** ** The listener thread: [_tunnel_worker] *)

(** What the rest of the world does during one turn of the accept loop.
    [tunnel_running] is shared with the main thread, whose
    [cleanup_tunnel] clears it; [accept] is what
    [settimeout(1.0); accept()] gives: a client, [socket.timeout] after the
    second has passed, or another error. *)
Record tick : Type := mkTick {
  stopped_before_test : bool;
  accept : result nat;
  stopped_before_handler : bool
}.

Inductive loop_exit : Type :=
| Stopped       (* the while test saw the flag cleared *)
| Broke         (* break, after an error of accept *)
| Failed        (* the worker never reached its loop *)
| Waiting.      (* still in the loop when the observation ends *)

Definition is_socket_timeout (e : exn) : bool :=
  match e with SocketTimeout => true | _ => false end.

Section Worker.
Variable E : env.

Fixpoint accept_loop (ticks : list tick) : M state loop_exit :=
  match ticks with
  | [] => ret Waiting
  | t :: rest =>
      when (stopped_before_test t) (set_tunnel_running false) ;;
      s <- get ;;
      if negb (tunnel_running s) then ret Stopped
      else
        emit (EvAccept 1) ;;
        match accept t with
        | Ret client => emit (EvSpawn client) ;; accept_loop rest
        | Raise e =>
            if is_socket_timeout e then accept_loop rest
            else if is_Exception e then
              when (stopped_before_handler t) (set_tunnel_running false) ;;
              s <- get ;;
              when (tunnel_running s) (log ERROR (MsgAcceptError e)) ;;
              ret Broke
            else raise e
        end
  end.

(** The main thread, seen from the worker's [finally].  [cleanup_tunnel]
    is the only code that clears [tunnel_running]; right after that it
    closes the listening socket itself and resets [self.tunnel_server]
    (lines 291 to 296).  [released] says whether it has got that far by
    the time the worker tests [self.tunnel_server]; while the flag is up
    it has not.  The [close] of the main thread is an event of the main
    thread, not of the worker. *)
Definition main_thread_release (released : bool) : M state unit :=
  s <- get ;;
  when (released && negb (tunnel_running s)) (set_tunnel_server None).

Definition _tunnel_worker (ticks : list tick) (released : bool)
  : M state loop_exit :=
  try_finally
    (try_except
       (emit (EvListen (local_port E)) ;;
        lift (listen E) ;;
        set_tunnel_server (Some tt) ;;
        log INFO (MsgOther "Tunnel server listening on localhost:{self.local_port}") ;;
        accept_loop ticks)
       [ (is_Exception, (fun e => log ERROR (MsgWorkerError e) ;; ret Failed)) ])
    (main_thread_release released ;;
     s <- get ;;
     when (is_some (tunnel_server s))
       (swallow (emit EvServerClose ;; lift (server_close E)))).
End Worker.

(** ** One forwarded connection: [_handle_tunnel_connection] *)

Local Open Scope list_scope.

Definition bytes : Type := list Byte.byte.

(** The two endpoints of a forwarded connection.  A [*_buf] holds what has
    arrived from that side and [recv] has not returned yet, [*_eof] says that
    the side has closed (its [recv] returns [b''] once the buffer is
    empty), [to_*] is what the side has taken from [send], in order.
    [client_sent] and [channel_sent] are ghost fields: everything each side
    has put into the connection so far. *)
Record conn : Type := mkConn {
  client_buf : bytes;
  client_eof : bool;
  client_sent : bytes;
  to_client : bytes;
  channel_buf : bytes;
  channel_eof : bool;
  channel_sent : bytes;
  to_channel : bytes;
  sockets_closed : bool
}.

Definition fresh : conn := mkConn [] false [] [] [] false [] [] false.

(** What the two peers do before one [select], and how the two [send]
    calls of the turn answer: [send] returns the number of bytes it took,
    which may be less than it was given. *)
Record round : Type := mkRound {
  client_writes : bytes;
  client_closes : bool;
  channel_writes : bytes;
  channel_closes : bool;
  client_recv_raises : option exn;
  channel_recv_raises : option exn;
  channel_send_takes : result nat;
  client_send_takes : result nat
}.

Inductive forward_exit : Type :=
| ClientClosed              (* client_socket.recv returned b'' *)
| ChannelClosed             (* channel.recv returned b'' *)
| ForwardError (e : exn)
| Forwarding.               (* still in the loop when the observation ends *)

(** The size given to both [recv] calls. *)
Definition chunk_size : nat := 4096.

(** What the peers write reaches the buffers; nothing arrives on a side
    that has closed. *)
Definition arrive (r : round) (c : conn) : conn :=
  let c1 :=
    if client_eof c then c
    else mkConn (client_buf c ++ client_writes r) (client_closes r)
                (client_sent c ++ client_writes r) (to_client c)
                (channel_buf c) (channel_eof c) (channel_sent c) (to_channel c)
                (sockets_closed c) in
  if channel_eof c1 then c1
  else mkConn (client_buf c1) (client_eof c1) (client_sent c1) (to_client c1)
              (channel_buf c1 ++ channel_writes r) (channel_closes r)
              (channel_sent c1 ++ channel_writes r) (to_channel c1)
              (sockets_closed c1).

(** [select] reports a side readable when it has data or has closed. *)
Definition client_ready (c : conn) : bool :=
  match client_buf c with [] => client_eof c | _ :: _ => true end.
Definition channel_ready (c : conn) : bool :=
  match channel_buf c with [] => channel_eof c | _ :: _ => true end.

(** [data = client_socket.recv(4096)] and [data = channel.recv(4096)]. *)
Definition client_recv (c : conn) : bytes * conn :=
  (firstn chunk_size (client_buf c),
   mkConn (skipn chunk_size (client_buf c)) (client_eof c) (client_sent c)
          (to_client c) (channel_buf c) (channel_eof c) (channel_sent c)
          (to_channel c) (sockets_closed c)).
Definition channel_recv (c : conn) : bytes * conn :=
  (firstn chunk_size (channel_buf c),
   mkConn (client_buf c) (client_eof c) (client_sent c) (to_client c)
          (skipn chunk_size (channel_buf c)) (channel_eof c) (channel_sent c)
          (to_channel c) (sockets_closed c)).

(** [channel.send(data)] and [client_socket.send(data)]: the side takes the
    first [n] bytes; the count that [send] returns is dropped by the
    caller. *)
Definition channel_send (n : nat) (data : bytes) (c : conn) : conn :=
  mkConn (client_buf c) (client_eof c) (client_sent c) (to_client c)
         (channel_buf c) (channel_eof c) (channel_sent c)
         (to_channel c ++ firstn n data) (sockets_closed c).
Definition client_send (n : nat) (data : bytes) (c : conn) : conn :=
  mkConn (client_buf c) (client_eof c) (client_sent c)
         (to_client c ++ firstn n data)
         (channel_buf c) (channel_eof c) (channel_sent c) (to_channel c)
         (sockets_closed c).

Definition close_both (c : conn) : conn :=
  mkConn (client_buf c) (client_eof c) (client_sent c) (to_client c)
         (channel_buf c) (channel_eof c) (channel_sent c) (to_channel c) true.

(** The second half of a turn: [if channel in ready: ...]. *)
Definition channel_half (ready : bool) (r : round) (c : conn)
    : option forward_exit * conn :=
  if ready then
    match channel_recv_raises r with
    | Some e => (Some (ForwardError e), c)
    | None =>
        let (data, c1) := channel_recv c in
        match data with
        | [] => (Some ChannelClosed, c1)
        | _ :: _ =>
            match client_send_takes r with
            | Raise e => (Some (ForwardError e), c1)
            | Ret n => (None, client_send n data c1)
            end
        end
    end
  else (None, c).

(** The first half: [if client_socket in ready: ...]. *)
Definition client_half (ready : bool) (r : round) (c : conn)
    : option forward_exit * conn :=
  if ready then
    match client_recv_raises r with
    | Some e => (Some (ForwardError e), c)
    | None =>
        let (data, c1) := client_recv c in
        match data with
        | [] => (Some ClientClosed, c1)
        | _ :: _ =>
            match channel_send_takes r with
            | Raise e => (Some (ForwardError e), c1)
            | Ret n => (None, channel_send n data c1)
            end
        end
    end
  else (None, c).

(** The [while True] loop.  Both membership tests use the list that
    [select] returned at the start of the turn. *)
Fixpoint forward_loop (rounds : list round) (c : conn) : forward_exit * conn :=
  match rounds with
  | [] => (Forwarding, c)
  | r :: rest =>
      let c0 := arrive r c in
      let from_client := client_ready c0 in
      let from_channel := channel_ready c0 in
      match client_half from_client r c0 with
      | (Some out, c1) => (out, c1)
      | (None, c1) =>
          match channel_half from_channel r c1 with
          | (Some out, c2) => (out, c2)
          | (None, c2) => forward_loop rest c2
          end
      end
  end.

(** [open_channel] may raise; every way out goes through the [finally]
    clause, which closes both ends. *)
Definition _handle_tunnel_connection (open_channel : result unit)
    (rounds : list round) (c : conn) : forward_exit * conn :=
  match open_channel with
  | Raise e => (ForwardError e, close_both c)
  | Ret _ =>
      let (out, c') := forward_loop rounds c in (out, close_both c')
  end.

End Collector.

(* ===================================================================== *)
(** * Vocabulary of the properties                                        *)
(* ===================================================================== *)

Module Props.
Import Py Eff.

(** A document, as restore meets it in a hits list: a JSON object. *)
Definition is_document (item : json) : Prop :=
  exists members, item = JObj members.

(** The value [item.get(key)] of a document. *)
Definition field (key : string) (members : list (string * json)) : json :=
  match dict_get key members with Some v => v | None => JNull end.

(** The state after restore has skipped [item]: one more error line, and
    nothing else. *)
Definition skipped (item : json) (s : Restorer.state) : Restorer.state :=
  with_trace (EvLog ERROR (MsgMissingFields item) :: Restorer.events s) s.

(** The attempts of a batch: [_restore_single_item] on every entry in turn,
    whatever the earlier ones gave. *)
Fixpoint attempts (E : Restorer.env) (items : list json) (s : Restorer.state)
  : list (result bool) :=
  match items with
  | [] => []
  | item :: rest =>
      let (r, s') := Restorer._restore_single_item E item s in
      r :: attempts E rest s'
  end.

Definition is_success (r : result bool) : bool :=
  match r with Ret true => true | _ => false end.
Definition is_failure (r : result bool) : bool :=
  match r with Ret false => true | _ => false end.

Definition succeeded (rs : list (result bool)) : nat :=
  List.length (filter is_success rs).
Definition failed (rs : list (result bool)) : nat :=
  List.length (filter is_failure rs).

(** The PUT requests of a trace. *)
Definition is_put (r : request) : bool :=
  match r with ReqPut _ _ _ _ => true | _ => false end.
Definition puts (t : trace) : list request := filter is_put (requests t).

(** Two states that have sent the same requests. *)
Definition same_requests (s s' : Restorer.state) : Prop :=
  requests (Restorer.events s) = requests (Restorer.events s').

(** The state in which [restore_from_file] enters its loop over [n] hits. *)
Definition entering (path : string) (n : nat) (s : Restorer.state) : Restorer.state :=
  with_trace (EvLog INFO (MsgRestoring path n)
              :: EvLog INFO (MsgOther "Restoring from: {json_file_path}")
              :: Restorer.events s) s.


(** ** Concrete worlds *)

(** The answer of the document store to a PUT that creates a document. *)
Definition created : response :=
  mkResponse 200 (Some "application/json; charset=UTF-8")
    "{result: created}" (Some (JObj [("result", JStr "created")])).

Definition document (index doc_id : string) : json :=
  JObj [("_index", JStr index); ("_id", JStr doc_id);
        ("_source", JObj [("name", JStr doc_id)])].

(** An entry without [_id]. *)
Definition without_id : list (string * json) :=
  [("_index", JStr "rt-alert-def-vrm"); ("_source", JObj [("name", JStr "cpu")])].

(** An entry whose [_source] is the empty object. *)
Definition empty_source : list (string * json) :=
  [("_index", JStr "rt-alert-def-vrm"); ("_id", JStr "7"); ("_source", JObj [])].

(** Three valid documents and one entry without [_id]. *)
Definition four_hits : list json :=
  [document "rt-alert-def-vrm" "1"; document "rt-alert-def-vrm" "2";
   JObj without_id; document "rt-alert-def-vrm" "3"].

(** Three valid documents, with a [null] entry after the first. *)
Definition hits_with_null : list json :=
  [document "rt-alert-def-vrm" "1"; JNull;
   document "rt-alert-def-vrm" "2"; document "rt-alert-def-vrm" "3"].

Definition inner_of (hits : list json) : list (string * json) :=
  [("total", JInt (Z.of_nat (List.length hits))); ("hits", JArr hits)].

Definition envelope_of (hits : list json) : list (string * json) :=
  [("took", JInt 3); ("hits", JObj (inner_of hits))].

(** A restore whose tunnel comes up, whose files all hold [four_hits] and
    whose document store accepts every PUT. *)
Definition restore_world : Restorer.env :=
  Restorer.mkEnv 9202 (Some "secret") "json_files" "20240101_120000"
    (fun _ => Restorer.FileJson (JObj (envelope_of four_hits)))
    (fun _ => true)
    (fun _ _ => HttpResponse created)
    (Ret tt) (Ret tt) false false.

(** The same restore, with files that hold [hits_with_null]. *)
Definition restore_world_with_null : Restorer.env :=
  Restorer.mkEnv 9202 (Some "secret") "json_files" "20240101_120000"
    (fun _ => Restorer.FileJson (JObj (envelope_of hits_with_null)))
    (fun _ => true)
    (fun _ _ => HttpResponse created)
    (Ret tt) (Ret tt) false false.

(** The PUT of [document index doc_id]. *)
Definition put_document (index doc_id : string) : request :=
  ReqPut 9202 (JStr index) (JStr doc_id) (JObj [("name", JStr doc_id)]).

(** ** Closed tunnel sessions *)

(** The collector's session after [cleanup_tunnel]: the flag is down, the
    listener and the SSH client are released, and the worker thread is
    either forgotten or dead. *)
Definition collector_closed (s : Collector.state) : Prop :=
  Collector.tunnel_running s = false
  /\ Collector.tunnel_server s = None
  /\ Collector.ssh_client s = None
  /\ (Collector.tunnel_thread s = None \/ Collector.worker_alive s = false).

(** The restorer's session after [cleanup_tunnel]: the ssh process is
    forgotten or has exited. *)
Definition restorer_closed (s : Restorer.state) : Prop :=
  Restorer.tunnel_process s = None \/ Restorer.process_running s = false.

(** What [cleanup_tunnel] does to the outside, the most recent first: it
    releases what the session holds. *)
Definition collector_teardown (s : Collector.state) : list event :=
  ((if Collector.is_some (Collector.ssh_client s) then [EvSshClose] else [])
   ++ (if Collector.is_some (Collector.tunnel_thread s) && Collector.worker_alive s
       then [EvThreadJoin 5] else [])
   ++ (if Collector.is_some (Collector.tunnel_server s) then [EvServerClose] else [])
   ++ (if Collector.tunnel_running s
       then [EvLog INFO (MsgOther "Closing SSH tunnel...")] else []))%list.

Definition restorer_teardown (E : Restorer.env) (s : Restorer.state) : list event :=
  match Restorer.tunnel_process s with
  | Some _ =>
      if Restorer.process_running s
      then ((if Restorer.wait_expires E then [EvKill] else [])
            ++ [EvWait 5; EvTerminate; EvLog INFO (MsgOther "Closing SSH tunnel...")])%list
      else []
  | None => []
  end.

(** A collector's session with everything up, and a restorer's. *)
Definition collector_up : Collector.state :=
  Collector.mkState (Some tt) (Some tt) (Some tt) true true [].
Definition restorer_up : Restorer.state := Restorer.mkState (Some tt) true [].

(** ** Traces *)

(** [grows t u new]: the trace [u] is [t] with the events [new] added. *)
Inductive grows (t : trace) : trace -> trace -> Prop :=
| grows_nil : grows t t []
| grows_cons e u new : grows t u new -> grows t (e :: u) (e :: new).

(** The settle delay of [create_ssh_tunnel]. *)
Definition is_settle (e : event) : bool :=
  match e with EvSleep 3 => true | _ => false end.

(** In a trace (the most recent event first): the most recent probe request
    comes after a settle delay. *)
Fixpoint probe_after_settle (t : trace) : bool :=
  match t with
  | [] => false
  | EvHttp (ReqProbe _) :: older => existsb is_settle older
  | _ :: older => probe_after_settle older
  end.

(** A collector whose tunnel comes up and whose document store answers the
    probe with an error status. *)
Definition answer (code : Z) : response :=
  mkResponse code (Some "text/plain") EmptyString None.

Definition collect_world (probe : http_outcome) : Collector.env :=
  Collector.mkEnv 9201 "json_files" "20240101_120000"
    (Ret tt) (Ret tt) (Ret tt)
    (fun _ r => match r with ReqProbe _ => probe | _ => HttpResponse created end)
    (Some 111) (Ret tt) (Ret tt) true (Ret tt) (fun _ => true).

(** A step of the teardown: it returns, it adds events but no request, and
    it changes the attributes as [P] says. *)
Definition teardown_step (m : M Collector.state unit)
    (P : Collector.state -> Collector.state -> Prop) : Prop :=
  forall s, exists s' new,
    m s = (Ret tt, s')
    /\ Collector.events s' = (new ++ Collector.events s)%list
    /\ requests new = []
    /\ P s s'.

(** [around_probe t p u quiet older]: the trace [u] is [t] with the events
    [older], then the request [p], then the events [quiet] added. *)
Inductive around_probe (t : trace) (p : request) : trace -> trace -> trace -> Prop :=
| at_probe u older :
    grows t u older -> around_probe t p (EvHttp p :: u) [] older
| before_probe e u quiet older :
    around_probe t p u quiet older -> around_probe t p (e :: u) (e :: quiet) older.

(** ** Whole runs *)

(** The states in which [collect_all] and [restore_all] ask for the
    tunnel: one log line after they are entered. *)
Definition collecting (s : Collector.state) : Collector.state :=
  with_trace (EvLog INFO (MsgOther "Starting SSH tunnel configuration collection...")
              :: Collector.events s) s.
Definition restoring (s : Restorer.state) : Restorer.state :=
  with_trace (EvLog INFO (MsgOther "Starting SSH tunnel configuration restoration...")
              :: Restorer.events s) s.

(** The result mapping when nothing could be tried. *)
Definition all_failed : list (string * bool) :=
  [("reports", false); ("alerts", false)].

(** The requests that transfer documents: the searches of collect and the
    PUTs of restore (the probe is not one of them). *)
Definition is_transfer (r : request) : bool :=
  match r with ReqProbe _ => false | _ => true end.
Definition transfers (t : trace) : list request := filter is_transfer (requests t).

(** The arguments of a restore that needs a tunnel: not one of the two
    extraction modes. *)
Definition needs_tunnel (a : Restorer.args) : bool :=
  given (Restorer.file a)
  || negb (given (Restorer.alerts_source a) || given (Restorer.reports_source a)).

(** A collector whose SSH server refuses the password, and a restorer on a
    machine without the ssh command. *)
Definition collect_world_no_ssh : Collector.env :=
  Collector.mkEnv 9201 "json_files" "20240101_120000"
    (Ret tt) (Raise AuthenticationException) (Ret tt)
    (fun _ _ => HttpRaises Refused)
    None (Ret tt) (Ret tt) true (Ret tt) (fun _ => true).

Definition restore_world_no_ssh : Restorer.env :=
  Restorer.mkEnv 9202 None "json_files" "20240101_120000"
    (fun _ => Restorer.FileJson (JObj (envelope_of four_hits)))
    (fun _ => true)
    (fun _ _ => HttpRaises Refused)
    (Ret tt) (Raise (FileNotFoundError false)) false false.

Definition no_args : Restorer.args := Restorer.mkArgs None None None None None.

(** Every operation of a result mapping succeeded; some operation failed. *)
Definition every_success (res : list (string * bool)) : Prop :=
  Forall (fun kv => snd kv = true) res.
Definition some_failure (res : list (string * bool)) : Prop :=
  Exists (fun kv => snd kv = false) res.

(** [--file json_files/alerts.json]. *)
Definition one_file : Restorer.args :=
  Restorer.mkArgs (Some "json_files/alerts.json") None None None None.

(** ** Collect and the shape of the response *)

(** The claim of the specification about collect, in its words: a response
    whose top-level JSON lacks a [hits] key makes the collect operation
    report failure. *)
Definition missing_hits_is_a_format_error : Prop :=
  forall (E : Collector.env) (endpoint : string) (query : json)
         (output_file file_type : string) (s : Collector.state)
         (r : response) (body : json),
    Collector.net E (requests (Collector.events s))
      (ReqSearch (Collector.local_port E) endpoint query) = HttpResponse r ->
    json_body r = Some body ->
    py_contains "hits" body <> Ret true ->
    fst (Collector._execute_request E endpoint query output_file file_type s)
    = Ret false.

(** A JSON answer of the document store without [hits]. *)
Definition no_hits_body : json :=
  JObj [("took", JInt 1); ("timed_out", JBool false)].
Definition no_hits : response :=
  mkResponse 200 (Some "application/json; charset=UTF-8")
    "{took: 1, timed_out: false}" (Some no_hits_body).

(** A collector whose tunnel is up and whose searches get [no_hits]. *)
Definition collect_world_no_hits : Collector.env :=
  Collector.mkEnv 9201 "json_files" "20240101_120000"
    (Ret tt) (Ret tt) (Ret tt)
    (fun _ _ => HttpResponse no_hits)
    (Some 0) (Ret tt) (Ret tt) true (Ret tt) (fun _ => true).

(** ** The accept loop *)

(** The state after one more bounded [accept]. *)
Definition waited (s : Collector.state) : Collector.state :=
  with_trace (EvAccept 1 :: Collector.events s) s.

(** The state after an error of [accept] has been handled: it is logged
    unless the flag was cleared in the meantime. *)
Definition handled (t : Collector.tick) (e : exn) (s : Collector.state)
    : Collector.state :=
  if Collector.stopped_before_handler t then
    Collector.mkState (Collector.ssh_client s) (Collector.tunnel_thread s)
      (Collector.tunnel_server s) false (Collector.worker_alive s)
      (Collector.events (waited s))
  else
    with_trace (EvLog ERROR (MsgAcceptError e) :: Collector.events (waited s)) s.

(** The claim of the specification about the accept loop, in its words: an
    error accepting a connection, with the stop flag not set, is logged and
    the loop continues with the next turn. *)
Definition accept_error_continues : Prop :=
  forall (t : Collector.tick) (rest : list Collector.tick)
         (s : Collector.state) (e : exn),
    Collector.tunnel_running s = true ->
    Collector.stopped_before_test t = false ->
    Collector.stopped_before_handler t = false ->
    Collector.accept t = Raise e ->
    is_Exception e = true ->
    Collector.is_socket_timeout e = false ->
    Collector.accept_loop (t :: rest) s
    = Collector.accept_loop rest (handled t e s).

(** The claim of the specification about bind errors, in its words: an
    error binding the port is fatal to tunnel setup. *)
Definition bind_error_fails_setup : Prop :=
  forall (E : Collector.env) (s : Collector.state) (e : exn),
    Collector.listen E = Raise e ->
    is_Exception e = true ->
    fst (Collector.create_ssh_tunnel E s) = Ret false.

(** A collector whose local port is taken: the worker cannot bind it, and
    what holds the port answers the probe. *)
Definition collect_world_port_taken : Collector.env :=
  Collector.mkEnv 9201 "json_files" "20240101_120000"
    (Ret tt) (Ret tt) (Raise OSError)
    (fun _ _ => HttpResponse (answer 200))
    (Some 0) (Ret tt) (Ret tt) true (Ret tt) (fun _ => true).

(** The session after the worker was started and could not bind. *)
Definition unbound (E : Collector.env) (b : exn) (s : Collector.state)
    : Collector.state :=
  Collector.mkState (Collector.ssh_client s) (Some tt) (Collector.tunnel_server s)
    true false
    (EvLog ERROR (MsgWorkerError b)
     :: EvListen (Collector.local_port E)
     :: EvSleep 3
     :: EvLog INFO (MsgOther "Waiting for SSH tunnel to establish...")
     :: EvThreadStart
     :: Collector.events s).

(** The number of times the listening socket was closed. *)
Definition is_server_close (e : event) : bool :=
  match e with EvServerClose => true | _ => false end.
Definition server_closes (t : trace) : nat := List.length (filter is_server_close t).

(** A session whose listener is up. *)
Definition listening : Collector.state :=
  Collector.mkState (Some tt) (Some tt) (Some tt) true true [].

(** An [accept] that fails, then a client that would connect. *)
Definition failing_tick : Collector.tick := Collector.mkTick false (Raise OSError) false.
Definition client_tick (n : nat) : Collector.tick := Collector.mkTick false (Ret n) false.
Definition timeout_tick : Collector.tick :=
  Collector.mkTick false (Raise SocketTimeout) false.

(** ** Forwarding *)

(** Both [send] calls of a turn take a whole chunk. *)
Definition takes_all (r : Collector.round) : Prop :=
  (exists n, Collector.channel_send_takes r = Ret n /\ (Collector.chunk_size <= n)%nat)
  /\ (exists n, Collector.client_send_takes r = Ret n /\ (Collector.chunk_size <= n)%nat).

(** What each side has sent is what the other side has taken, followed by
    what is still buffered. *)
Definition in_transit (c : Collector.conn) : Prop :=
  Collector.client_sent c = (Collector.to_channel c ++ Collector.client_buf c)%list
  /\ Collector.channel_sent c = (Collector.to_client c ++ Collector.channel_buf c)%list.

(** The client writes [data]; [channel.send] takes at most [n] bytes. *)
Definition client_writes_round (data : Collector.bytes) (n : nat) : Collector.round :=
  Collector.mkRound data false [] false None None (Ret n) (Ret 4096%nat).

Definition client_closes_round : Collector.round :=
  Collector.mkRound [] true [] false None None (Ret 4096%nat) (Ret 4096%nat).

(** Six bytes from the client in two writes, the first of them while the
    channel has room for two bytes only; then the client closes. *)
Definition short_send : list Collector.round :=
  [client_writes_round [Byte.x01; Byte.x02; Byte.x03; Byte.x04] 2;
   client_writes_round [Byte.x05; Byte.x06] 4096;
   client_closes_round].

(** ** Vocabulary of the further properties *)

(** The PUT that restore sends for an entry of a hits list: one request,
    built from the entry's own [_index], [_id] and [_source], when the three
    are truthy; none otherwise. *)
Definition put_of (port : Z) (item : json) : list request :=
  match item with
  | JObj members =>
      if py_all [field "_index" members; field "_id" members; field "_source" members]
      then [ReqPut port (field "_index" members) (field "_id" members)
              (field "_source" members)]
      else []
  | _ => []
  end.

Definition is_object (item : json) : bool :=
  match item with JObj _ => true | _ => false end.

(** A file that holds no JSON value. *)
Definition unusable (f : Restorer.file_state) : bool :=
  match f with Restorer.FileJson _ => false | _ => true end.

(** The events that write files. *)
Definition is_file_event (e : event) : bool :=
  match e with EvCreateFile _ | EvWriteFile _ _ => true | _ => false end.
Definition file_events (t : trace) : list event := filter is_file_event t.

(** The events that start or stop something outside the process: ssh, the
    worker thread, the listener. *)
Definition is_tunnel_event (e : event) : bool :=
  match e with
  | EvSshConnect | EvSshClose | EvThreadStart | EvThreadJoin _ | EvListen _
  | EvAccept _ | EvSpawn _ | EvServerClose | EvPopen _ | EvTerminate
  | EvWait _ | EvKill | EvSleep _ | EvPortCheck _ => true
  | _ => false
  end.
Definition tunnel_events (t : trace) : list event := filter is_tunnel_event t.

(** The clients for which a forwarder thread was started, the most recent
    first. *)
Definition spawn_of (e : event) : list nat :=
  match e with EvSpawn client => [client] | _ => [] end.
Definition spawned (t : trace) : list nat := flat_map spawn_of t.

(** A turn of the accept loop in which nobody stops the tunnel and [accept]
    gives a client or times out. *)
Definition calm (t : Collector.tick) : bool :=
  negb (Collector.stopped_before_test t)
  && match Collector.accept t with
     | Ret _ => true
     | Raise e => Collector.is_socket_timeout e
     end.

(** The clients that the turns of the accept loop bring, in order. *)
Definition client_of (t : Collector.tick) : list nat :=
  match Collector.accept t with Ret client => [client] | Raise _ => [] end.

(** The two searches of [collect_all]. *)
Definition reports_search (E : Collector.env) : request :=
  ReqSearch (Collector.local_port E)
    "/vrm-scheduled-report-definition-vrm-ty-vrm-scheduled-report-definition/_search"
    Collector.match_all_query.
Definition alerts_search (E : Collector.env) : request :=
  ReqSearch (Collector.local_port E)
    "/rt-alert-def-vrm-ty-rt-alert-def-vrm/_search"
    Collector.match_all_query.

(** A response that [raise_for_status] refuses. *)
Definition is_error_status (r : response) : bool :=
  (400 <=? status r) && (status r <? 600).

(** The search got no usable response: no response at all, or a 4xx/5xx. *)
Definition search_failed (o : http_outcome) : bool :=
  match o with
  | HttpRaises _ => true
  | HttpResponse r => is_error_status r
  end.

(** ** Exceptions that escape *)

(** The exception of a result, if any, is an [Exception]: a clause
    [except Exception] catches it. *)
Definition catchable {A} (r : result A) : Prop :=
  match r with Ret _ => True | Raise e => is_Exception e = true end.

(** A computation that raises nothing but [Exception]s. *)
Definition never_exits {St A} (m : M St A) : Prop :=
  forall s, catchable (fst (m s)).

(** A computation that returns, whatever the state. *)
Definition returns {St A} (m : M St A) : Prop :=
  forall s, exists a s', m s = (Ret a, s').

(** ** What a block leaves alone *)

(** [keeps f m]: running [m] does not change what [f] reads in the trace
    (the requests sent, the files written, ...). *)
Definition keeps {St : Type} `{Traced St} {A X : Type}
    (f : trace -> X) (m : M St A) : Prop :=
  forall s, f (trace_of (snd (m s))) = f (trace_of s).

(** [f] does not see the event [e]. *)
Definition blind {X : Type} (f : trace -> X) (e : event) : Prop :=
  forall t, f (e :: t) = f t.

(** The [_source] values that [extract_definitions_only] keeps. *)
Definition sources_of (documents : list (list (string * json))) : list json :=
  filter truthy (map (field "_source") documents).

(** The file that [extract_definitions_only] writes. *)
Definition extracted (json_file_path : string) (definitions : list json) : json :=
  JObj [("definitions", JArr definitions);
        ("count", JInt (Z.of_nat (List.length definitions)));
        ("extracted_from", JStr (basename json_file_path))].

(** The state after a calm turn of the accept loop: the bounded wait, and
    a forwarder for the client if there was one. *)
Definition after_calm (t : Collector.tick) (s : Collector.state) : Collector.state :=
  with_trace (map EvSpawn (client_of t) ++ EvAccept 1 :: Collector.events s)%list s.

(** A turn at whose test the stop flag is found cleared. *)
Definition stop_tick : Collector.tick := Collector.mkTick true (Ret 0%nat) false.

(** The client writes four bytes, the channel answers with three, and the
    client closes: every [send] takes what it is given. *)
Definition echo : list Collector.round :=
  [Collector.mkRound [Byte.x01; Byte.x02; Byte.x03; Byte.x04] false [] false
     None None (Ret 4096%nat) (Ret 4096%nat);
   Collector.mkRound [] false [Byte.x0a; Byte.x0b; Byte.x0c] false
     None None (Ret 4096%nat) (Ret 4096%nat);
   client_closes_round].

(** The client closes while three bytes of the channel arrive. *)
Definition close_and_answer : Collector.round :=
  Collector.mkRound [] true [Byte.x0a; Byte.x0b; Byte.x0c] false
    None None (Ret 4096%nat) (Ret 4096%nat).

End Props.

(* ===================================================================== *)
(** * Restore: documents, counters and the skipped entries                *)
(* ===================================================================== *)

Import Py Eff Props.
Local Open Scope list_scope.

Ltac unfold_monad :=
  unfold try_except, bind, ret, raise, lift, log, emit, modify, get, http_call in *.

Lemma py_get_document key members :
  py_get (JObj members) key = Ret (field key members).
Proof.
  unfold py_get, py_get_default, field.
  destruct (dict_get key members); reflexivity.
Qed.

(** The entry point of every skip: a document one of whose three values is
    falsy is refused before any request is built. *)
Lemma falsy_value_skips E members s :
  py_all [field "_index" members; field "_id" members; field "_source" members] = false ->
  Restorer._restore_single_item E (JObj members) s
  = (Ret false, skipped (JObj members) s).
Proof.
  intros Hall.
  unfold Restorer._restore_single_item.
  rewrite !py_get_document.
  unfold_monad. rewrite Hall. reflexivity.
Qed.

(** On a document, [_restore_single_item] returns: it never raises. *)
Lemma document_attempt_returns E members s :
  exists ok s', Restorer._restore_single_item E (JObj members) s = (Ret ok, s').
Proof.
  unfold Restorer._restore_single_item.
  rewrite !py_get_document.
  unfold_monad.
  destruct (py_all _); cbn [negb].
  2:{ eauto. }
  cbn.
  destruct (Restorer.net E _ _) as [t | r]; cbn.
  - destruct t; cbn; eauto.
  - unfold raise_for_status.
    destruct ((400 <=? status r) && (status r <? 600)); cbn; [eauto |].
    unfold Restorer.response_json.
    destruct (json_body r) as [j |]; cbn; [| eauto].
    destruct j; cbn; eauto.
    destruct (dict_get "result" members0); cbn; eauto.
Qed.

(** What [_restore_single_item] answers and sends depends on the state only
    through the requests already sent: log lines do not matter. *)
Lemma attempt_same_requests E item s s' :
  same_requests s s' ->
  fst (Restorer._restore_single_item E item s)
  = fst (Restorer._restore_single_item E item s')
  /\ same_requests (snd (Restorer._restore_single_item E item s))
                   (snd (Restorer._restore_single_item E item s')).
Proof.
  unfold same_requests, requests. intros H.
  destruct item; try (split; [reflexivity | exact H]).
  unfold Restorer._restore_single_item.
  rewrite !py_get_document.
  unfold_monad.
  destruct (py_all _); cbn [negb]; [| split; [reflexivity | exact H]].
  cbn. rewrite H.
  destruct (Restorer.net E _ _) as [t | r]; cbn.
  - destruct t; cbn; split; try reflexivity; f_equal; exact H.
  - unfold raise_for_status.
    destruct ((400 <=? status r) && (status r <? 600)); cbn;
      [split; [reflexivity | f_equal; exact H] |].
    unfold Restorer.response_json.
    destruct (json_body r) as [j |]; cbn;
      [| split; [reflexivity | f_equal; exact H]].
    destruct j; cbn; try (split; [reflexivity | f_equal; exact H]).
    destruct (dict_get "result" members0); cbn;
      split; try reflexivity; f_equal; exact H.
Qed.

Lemma restore_items_cons E item rest ok ko s :
  Restorer.restore_items E (item :: rest) ok ko s
  = match Restorer._restore_single_item E item s with
    | (Ret true, s') => Restorer.restore_items E rest (S ok) ko s'
    | (Ret false, s') => Restorer.restore_items E rest ok (S ko) s'
    | (Raise e, s') => (Raise e, s')
    end.
Proof.
  cbn [Restorer.restore_items]. unfold bind.
  destruct (Restorer._restore_single_item E item s) as [[[|] | e] s']; reflexivity.
Qed.



Lemma missing_is_falsy members :
  dict_get "_index" members = None \/
  dict_get "_id" members = None \/
  dict_get "_source" members = None ->
  py_all [field "_index" members; field "_id" members; field "_source" members] = false.
Proof.
  unfold py_all, field. cbn [forallb].
  intros [H | [H | H]]; rewrite H; cbn [truthy];
    rewrite ?andb_false_r; reflexivity.
Qed.

Lemma empty_is_falsy members :
  dict_get "_source" members = Some (JObj []) \/
  dict_get "_index" members = Some (JStr EmptyString) \/
  dict_get "_id" members = Some (JStr EmptyString) ->
  py_all [field "_index" members; field "_id" members; field "_source" members] = false.
Proof.
  unfold py_all, field. cbn [forallb].
  intros [H | [H | H]]; rewrite H; cbn [truthy String.eqb negb];
    rewrite ?andb_false_r; reflexivity.
Qed.


(** C10.  The required-field test is a truthiness test: a document whose
    [_source] is the empty object, or whose [_index] or [_id] is the empty
    string, is refused like one that lacks the field: [False], one error
    line, no request; and it answers as any document with a missing field
    answers. *)
Theorem empty_field_is_skipped E members :
  dict_get "_source" members = Some (JObj []) \/
  dict_get "_index" members = Some (JStr EmptyString) \/
  dict_get "_id" members = Some (JStr EmptyString) ->
  forall s,
    Restorer._restore_single_item E (JObj members) s
    = (Ret false, skipped (JObj members) s)
    /\ requests (Restorer.events (skipped (JObj members) s))
       = requests (Restorer.events s)
    /\ (forall lacking,
           dict_get "_index" lacking = None \/
           dict_get "_id" lacking = None \/
           dict_get "_source" lacking = None ->
           fst (Restorer._restore_single_item E (JObj members) s)
           = fst (Restorer._restore_single_item E (JObj lacking) s)
           /\ requests (Restorer.events (snd (Restorer._restore_single_item E (JObj members) s)))
              = requests (Restorer.events (snd (Restorer._restore_single_item E (JObj lacking) s)))).
Proof.
  intros Hempty s.
  pose proof (empty_is_falsy members Hempty) as Hall.
  rewrite (falsy_value_skips E members s Hall).
  split; [reflexivity | split; [reflexivity |]].
  intros lacking Hmiss.
  rewrite (falsy_value_skips E lacking s (missing_is_falsy lacking Hmiss)).
  split; reflexivity.
Qed.

(** ** The counters of a batch *)

Lemma attempts_length E items :
  forall s, List.length (attempts E items s) = List.length items.
Proof.
  induction items as [| item rest IH]; intros s; cbn [attempts].
  - reflexivity.
  - destruct (Restorer._restore_single_item E item s) as [r s1].
    cbn [List.length]. now rewrite IH.
Qed.

Lemma attempts_same_requests E items :
  forall s s', same_requests s s' -> attempts E items s = attempts E items s'.
Proof.
  induction items as [| item rest IH]; intros s s' H; cbn [attempts].
  - reflexivity.
  - destruct (attempt_same_requests E item s s' H) as [Hr Hs].
    destruct (Restorer._restore_single_item E item s) as [r1 s1].
    destruct (Restorer._restore_single_item E item s') as [r2 s2].
    cbn in Hr, Hs. subst r2. f_equal. apply IH; exact Hs.
Qed.

(** On documents the loop goes through the whole list, and its counters
    are the numbers of [True] and of [False] among the attempts. *)
Lemma restore_items_documents E items :
  Forall is_document items ->
  forall ok ko s,
    Forall (fun r => r = Ret true \/ r = Ret false) (attempts E items s)
    /\ exists s',
        Restorer.restore_items E items ok ko s
        = (Ret ((ok + succeeded (attempts E items s))%nat,
                (ko + failed (attempts E items s))%nat), s').
Proof.
  induction 1 as [| item rest [members ->] _ IH]; intros ok ko s.
  - split; [constructor |].
    exists s. cbn. unfold ret. now rewrite !Nat.add_0_r.
  - rewrite restore_items_cons. cbn [attempts].
    destruct (document_attempt_returns E members s) as (b & s1 & Hb).
    rewrite Hb.
    destruct b.
    + destruct (IH (S ok) ko s1) as (Hall & s' & Hs').
      split; [constructor; [now left | exact Hall] |].
      exists s'. rewrite Hs'. unfold succeeded, failed. cbn.
      rewrite ?Nat.add_succ_r. reflexivity.
    + destruct (IH ok (S ko) s1) as (Hall & s' & Hs').
      split; [constructor; [now right | exact Hall] |].
      exists s'. rewrite Hs'. unfold succeeded, failed. cbn.
      rewrite ?Nat.add_succ_r. reflexivity.
Qed.

Lemma outcomes_partition rs :
  Forall (fun r : result bool => r = Ret true \/ r = Ret false) rs ->
  (succeeded rs + failed rs)%nat = List.length rs.
Proof.
  unfold succeeded, failed.
  induction 1 as [| r rest [-> | ->] _ IH]; cbn; lia.
Qed.

(** When every entry of the hits list is a JSON object, the batch is
    complete: restore makes one attempt per entry, every attempt ends as a
    success or as a failure, the two counters of the loop are the numbers
    of each (so they add up to the length of the list), and the file is
    reported restored exactly when the failure counter is zero. *)
Theorem restore_counts_every_document E path envelope inner items s :
  Restorer.fs E path = Restorer.FileJson (JObj envelope) ->
  dict_get "hits" envelope = Some (JObj inner) ->
  dict_get "hits" inner = Some (JArr items) ->
  Forall is_document items ->
  let rs := attempts E items s in
  List.length rs = List.length items
  /\ Forall (fun r => r = Ret true \/ r = Ret false) rs
  /\ (succeeded rs + failed rs)%nat = List.length items
  /\ exists s',
      Restorer.restore_from_file E path s = (Ret (Nat.eqb (failed rs) 0), s')
      /\ (items <> [] ->
          exists t,
            Restorer.events s'
            = EvLog INFO (MsgRestoreCompleted path (succeeded rs) (failed rs)) :: t).
Proof.
  intros Hfile Henv Hinner Hdocs rs.
  assert (Hrs : rs = attempts E items (entering path (List.length items) s)).
  { apply attempts_same_requests. reflexivity. }
  destruct (restore_items_documents E items Hdocs 0%nat 0%nat
              (entering path (List.length items) s)) as (Hall & s1 & Hloop).
  rewrite <- Hrs in Hall, Hloop. cbn [Nat.add] in Hloop.
  split; [apply attempts_length |].
  split; [exact Hall |].
  split; [rewrite outcomes_partition by exact Hall; apply attempts_length |].
  unfold Restorer.restore_from_file, Restorer.path_exists, Restorer.load_json.
  rewrite Hfile. unfold_monad. cbn [negb].
  unfold py_contains, dict_has. rewrite Henv. cbn [negb].
  unfold Restorer.hits_of, py_get_default. rewrite Henv, Hinner.
  cbn [truthy].
  destruct items as [| item rest].
  - eexists. split; [reflexivity | intros Hne; now elim Hne].
  - cbn [negb]. unfold Restorer.py_len, py_iter.
    unfold entering in Hloop.
    cbn [with_trace trace_of Restorer.state_traced Restorer.tunnel_process
         Restorer.process_running Restorer.events] in Hloop |- *.
    rewrite Hloop. cbn [fst snd].
    eexists. split; [reflexivity | intros _; eexists; reflexivity].
Qed.

Lemma four_hits_are_documents : Forall is_document four_hits.
Proof. repeat constructor; eexists; reflexivity. Qed.

Lemma restore_counts_every_document_witness :
  let rs := attempts restore_world four_hits Restorer.initial in
  List.length rs = List.length four_hits
  /\ Forall (fun r => r = Ret true \/ r = Ret false) rs
  /\ (succeeded rs + failed rs)%nat = List.length four_hits
  /\ exists s',
      Restorer.restore_from_file restore_world "alerts.json" Restorer.initial
      = (Ret (Nat.eqb (failed rs) 0), s')
      /\ (four_hits <> [] ->
          exists t,
            Restorer.events s'
            = EvLog INFO (MsgRestoreCompleted "alerts.json" (succeeded rs) (failed rs)) :: t).
Proof.
  exact (restore_counts_every_document restore_world "alerts.json"
           (envelope_of four_hits) (inner_of four_hits) four_hits Restorer.initial
           eq_refl eq_refl eq_refl four_hits_are_documents).
Defined.

(** C2.  A failure of one entry can abort the rest of the batch.  The
    scenario of the specification goes as it says: with three valid
    documents and one entry without [_id], every entry is attempted, the
    three documents are sent, the file is reported with 3 successes and 1
    failure, and [restore_from_file] answers [False].  But an entry that
    is no JSON object ([null] here, after the first of three valid
    documents) ends the batch: [item.get] raises, the handler of
    [_restore_single_item] formats [doc_id], which is not bound yet, so
    the exception leaves the function and the loop; the two documents
    after the entry are never attempted, no count is reported, and the
    file is given up with one error line. *)
Theorem malformed_entry_aborts_the_batch :
  (let run := Restorer.restore_from_file restore_world "alerts.json" Restorer.initial in
   fst run = Ret false
   /\ Restorer.events (snd run)
      = [EvLog INFO (MsgRestoreCompleted "alerts.json" 3 1);
         EvLog DEBUG (MsgRestored (JStr "3") (JStr "created"));
         EvHttp (put_document "rt-alert-def-vrm" "3");
         EvLog ERROR (MsgMissingFields (JObj without_id));
         EvLog DEBUG (MsgRestored (JStr "2") (JStr "created"));
         EvHttp (put_document "rt-alert-def-vrm" "2");
         EvLog DEBUG (MsgRestored (JStr "1") (JStr "created"));
         EvHttp (put_document "rt-alert-def-vrm" "1");
         EvLog INFO (MsgRestoring "alerts.json" 4);
         EvLog INFO (MsgOther "Restoring from: {json_file_path}")])
  /\ (let run := Restorer.restore_from_file restore_world_with_null "alerts.json"
                   Restorer.initial in
      fst run = Ret false
      /\ Restorer.events (snd run)
         = [EvLog ERROR (MsgOther "Unexpected error restoring from {json_file_path}: {e}");
            EvLog DEBUG (MsgRestored (JStr "1") (JStr "created"));
            EvHttp (put_document "rt-alert-def-vrm" "1");
            EvLog INFO (MsgRestoring "alerts.json" 4);
            EvLog INFO (MsgOther "Restoring from: {json_file_path}")]
      /\ fst (Restorer._restore_single_item restore_world_with_null JNull Restorer.initial)
         = Raise UnboundLocalError).
Proof. vm_compute. repeat split. Qed.


Lemma empty_field_is_skipped_witness :
  (dict_get "_source" empty_source = Some (JObj []) \/
   dict_get "_index" empty_source = Some (JStr EmptyString) \/
   dict_get "_id" empty_source = Some (JStr EmptyString))
  /\ Restorer._restore_single_item restore_world (JObj empty_source) Restorer.initial
     = (Ret false, skipped (JObj empty_source) Restorer.initial).
Proof.
  split.
  - left; reflexivity.
  - apply (empty_field_is_skipped restore_world empty_source).
    left; reflexivity.
Defined.

(* ===================================================================== *)
(** * The tunnel session: teardown, readiness, escalation, exit status    *)
(* ===================================================================== *)

Ltac unfold_collector :=
  unfold Collector.cleanup_tunnel, Collector.swallow, Collector.when,
    Collector.set_tunnel_running, Collector.set_tunnel_server,
    Collector.set_tunnel_thread, Collector.set_ssh_client,
    Collector.set_worker_alive, Collector.check_port,
    Collector.worker_prologue in *.

Ltac unfold_restorer :=
  unfold Restorer.cleanup_tunnel, Restorer.set_tunnel_process,
    Restorer.set_process_running, Restorer.poll_is_None in *.

Lemma grows_app t u new : grows t u new -> u = (new ++ t)%list.
Proof. induction 1; cbn; congruence. Qed.

Ltac added_events := apply grows_app; repeat constructor.

Lemma requests_app t u : requests (t ++ u) = (requests t ++ requests u)%list.
Proof. unfold requests. apply flat_map_app. Qed.

Ltac teardown_case :=
  cbn; do 2 eexists;
  split; [reflexivity |];
  split; [added_events |];
  split; [reflexivity |];
  cbn; auto 6.

Lemma lower_flag_step :
  teardown_step Collector.lower_flag
    (fun s s' =>
       Collector.tunnel_running s' = false
       /\ Collector.tunnel_server s' = Collector.tunnel_server s
       /\ Collector.tunnel_thread s' = Collector.tunnel_thread s
       /\ Collector.worker_alive s' = Collector.worker_alive s
       /\ Collector.ssh_client s' = Collector.ssh_client s).
Proof.
  intros [client thread server running alive t].
  unfold Collector.lower_flag. unfold_collector. unfold_monad.
  destruct running; teardown_case.
Qed.

Lemma release_server_step E :
  teardown_step (Collector.release_server E)
    (fun s s' =>
       Collector.tunnel_running s' = Collector.tunnel_running s
       /\ Collector.tunnel_server s' = None
       /\ Collector.tunnel_thread s' = Collector.tunnel_thread s
       /\ Collector.worker_alive s' = Collector.worker_alive s
       /\ Collector.ssh_client s' = Collector.ssh_client s).
Proof.
  intros [client thread server running alive t].
  unfold Collector.release_server. unfold_collector. unfold_monad.
  destruct server as [[] |]; [destruct (Collector.server_close E) |];
    teardown_case.
Qed.

Lemma join_worker_step E :
  teardown_step (Collector.join_worker E)
    (fun s s' =>
       Collector.tunnel_running s' = Collector.tunnel_running s
       /\ Collector.tunnel_server s' = Collector.tunnel_server s
       /\ (Collector.tunnel_thread s' = None \/ Collector.worker_alive s' = false)
       /\ Collector.ssh_client s' = Collector.ssh_client s).
Proof.
  intros [client thread server running alive t].
  unfold Collector.join_worker. unfold_collector. unfold_monad.
  destruct thread as [[] |], alive; cbn;
    try (destruct (Collector.thread_join E), (Collector.worker_ends_on_join E));
    teardown_case.
Qed.

Lemma release_client_step E :
  teardown_step (Collector.release_client E)
    (fun s s' =>
       Collector.tunnel_running s' = Collector.tunnel_running s
       /\ Collector.tunnel_server s' = Collector.tunnel_server s
       /\ Collector.tunnel_thread s' = Collector.tunnel_thread s
       /\ Collector.worker_alive s' = Collector.worker_alive s
       /\ Collector.ssh_client s' = None).
Proof.
  intros [client thread server running alive t].
  unfold Collector.release_client. unfold_collector. unfold_monad.
  destruct client as [[] |]; [destruct (Collector.ssh_close E) |];
    teardown_case.
Qed.

(** The whole of [cleanup_tunnel]: it returns, the session is closed, and
    the trace has grown by events that hold no request. *)
Lemma collector_cleanup_spec E :
  teardown_step (Collector.cleanup_tunnel E) (fun _ s' => collector_closed s').
Proof.
  intros s. unfold Collector.cleanup_tunnel, bind.
  destruct (lower_flag_step s) as (s1 & n1 & -> & E1 & Q1 & R1 & S1 & T1 & A1 & C1).
  destruct (release_server_step E s1) as (s2 & n2 & -> & E2 & Q2 & R2 & S2 & T2 & A2 & C2).
  destruct (join_worker_step E s2) as (s3 & n3 & -> & E3 & Q3 & R3 & S3 & T3 & C3).
  destruct (release_client_step E s3) as (s4 & n4 & -> & E4 & Q4 & R4 & S4 & T4 & A4 & C4).
  exists s4, (n4 ++ n3 ++ n2 ++ n1)%list.
  split; [reflexivity |].
  split; [rewrite E4, E3, E2, E1, <- !app_assoc; reflexivity |].
  split; [rewrite !requests_app, Q1, Q2, Q3, Q4; reflexivity |].
  unfold collector_closed.
  rewrite R4, R3, R2, R1, S4, S3, S2, C4.
  repeat (split; [reflexivity |]).
  destruct T3 as [T3 | T3]; [left | right]; congruence.
Qed.

Lemma collector_cleanup_closes E s :
  fst (Collector.cleanup_tunnel E s) = Ret tt
  /\ collector_closed (snd (Collector.cleanup_tunnel E s)).
Proof.
  destruct (collector_cleanup_spec E s) as (s' & new & -> & _ & _ & H).
  split; [reflexivity | exact H].
Qed.

(** [cleanup_tunnel] only adds events, and no request. *)
Lemma collector_cleanup_quiet E s :
  exists new,
    Collector.events (snd (Collector.cleanup_tunnel E s))
    = (new ++ Collector.events s)%list
    /\ requests new = [].
Proof.
  destruct (collector_cleanup_spec E s) as (s' & new & -> & Hev & Hq & _).
  exists new. split; assumption.
Qed.

Lemma collector_cleanup_of_closed E s :
  collector_closed s -> Collector.cleanup_tunnel E s = (Ret tt, s).
Proof.
  unfold collector_closed, Collector.cleanup_tunnel, Collector.lower_flag,
    Collector.release_server, Collector.join_worker, Collector.release_client.
  unfold_collector. unfold_monad.
  destruct s as [client thread server running alive t]. cbn.
  intros (-> & -> & -> & [-> | ->]); cbn; [reflexivity |].
  destruct thread; reflexivity.
Qed.

Lemma restorer_cleanup_closes E s :
  fst (Restorer.cleanup_tunnel E s) = Ret tt
  /\ restorer_closed (snd (Restorer.cleanup_tunnel E s)).
Proof.
  unfold restorer_closed. unfold_restorer. unfold_monad.
  destruct s as [process running t].
  destruct process as [[] |], running; cbn;
    destruct (Restorer.wait_expires E); cbn; auto.
Qed.

Lemma restorer_cleanup_of_closed E s :
  restorer_closed s -> Restorer.cleanup_tunnel E s = (Ret tt, s).
Proof.
  unfold restorer_closed. unfold_restorer. unfold_monad.
  destruct s as [process running t]. cbn.
  intros [-> | ->]; [reflexivity |].
  destruct process; reflexivity.
Qed.

(** The four blocks of the collector's [cleanup_tunnel], run. *)
Lemma lower_flag_run s :
  Collector.lower_flag s
  = (Ret tt,
     Collector.mkState (Collector.ssh_client s) (Collector.tunnel_thread s)
       (Collector.tunnel_server s) false (Collector.worker_alive s)
       ((if Collector.tunnel_running s
         then [EvLog INFO (MsgOther "Closing SSH tunnel...")] else [])
        ++ Collector.events s)).
Proof.
  destruct s as [client thread server running alive t].
  unfold Collector.lower_flag. unfold_collector. unfold_monad.
  destruct running; reflexivity.
Qed.

Lemma release_server_run E s :
  Collector.release_server E s
  = (Ret tt,
     Collector.mkState (Collector.ssh_client s) (Collector.tunnel_thread s)
       None (Collector.tunnel_running s) (Collector.worker_alive s)
       ((if Collector.is_some (Collector.tunnel_server s) then [EvServerClose] else [])
        ++ Collector.events s)).
Proof.
  destruct s as [client thread server running alive t].
  unfold Collector.release_server. unfold_collector. unfold_monad.
  destruct server as [[] |]; [destruct (Collector.server_close E) as [[] | e] |];
    reflexivity.
Qed.

Lemma join_worker_run E s :
  exists thread alive,
    Collector.join_worker E s
    = (Ret tt,
       Collector.mkState (Collector.ssh_client s) thread
         (Collector.tunnel_server s) (Collector.tunnel_running s) alive
         ((if Collector.is_some (Collector.tunnel_thread s) && Collector.worker_alive s
           then [EvThreadJoin 5] else [])
          ++ Collector.events s))
    /\ (thread = None \/ alive = false).
Proof.
  destruct s as [client thread server running alive t].
  unfold Collector.join_worker. unfold_collector. unfold_monad.
  destruct thread as [[] |], alive; cbn;
    try (destruct (Collector.thread_join E) as [[] | e],
                  (Collector.worker_ends_on_join E); cbn);
    do 2 eexists; (split; [reflexivity | auto]).
Qed.

Lemma release_client_run E s :
  Collector.release_client E s
  = (Ret tt,
     Collector.mkState None (Collector.tunnel_thread s)
       (Collector.tunnel_server s) (Collector.tunnel_running s) (Collector.worker_alive s)
       ((if Collector.is_some (Collector.ssh_client s) then [EvSshClose] else [])
        ++ Collector.events s)).
Proof.
  destruct s as [client thread server running alive t].
  unfold Collector.release_client. unfold_collector. unfold_monad.
  destruct client as [[] |]; [destruct (Collector.ssh_close E) as [[] | e] |];
    reflexivity.
Qed.

(** What the collector's [cleanup_tunnel] does to the outside. *)
Lemma collector_cleanup_releases E s :
  Collector.events (snd (Collector.cleanup_tunnel E s))
  = (collector_teardown s ++ Collector.events s)%list.
Proof.
  unfold Collector.cleanup_tunnel, bind.
  rewrite lower_flag_run, release_server_run.
  match goal with |- context [Collector.join_worker E ?s0] =>
    destruct (join_worker_run E s0) as (thread & alive & -> & _) end.
  rewrite release_client_run.
  unfold collector_teardown.
  cbn [snd Collector.events Collector.ssh_client Collector.tunnel_thread
       Collector.tunnel_server Collector.tunnel_running Collector.worker_alive].
  rewrite <- !app_assoc. reflexivity.
Qed.

(** What the restorer's [cleanup_tunnel] does to the outside, and to the
    ssh process. *)
Lemma restorer_cleanup_releases E s :
  Restorer.events (snd (Restorer.cleanup_tunnel E s))
  = (restorer_teardown E s ++ Restorer.events s)%list
  /\ (Restorer.tunnel_process s <> None ->
      Restorer.process_running (snd (Restorer.cleanup_tunnel E s)) = false).
Proof.
  unfold restorer_teardown. unfold_restorer. unfold_monad.
  destruct s as [process running t].
  destruct process as [[] |], running; cbn;
    try (destruct (Restorer.wait_expires E); cbn);
    (split; [reflexivity | congruence]).
Qed.

(** C9.  [cleanup_tunnel] is idempotent, in both scripts.  From any session
    the first call returns normally, releases what the session holds (in
    the collect script: the flag goes down, the listening socket is closed
    if there is one, the worker is joined if it is alive, the SSH client is
    closed if there is one; in the restore script: an ssh process that is
    held and running is terminated, and killed if it does not end in
    time, so that it is not running any more) and leaves the session
    closed.  A second call, whatever the close operations answer by then,
    returns normally and changes nothing: it releases nothing again, and
    not even the trace grows. *)
Theorem cleanup_tunnel_idempotent :
  (forall (E E' : Collector.env) (s : Collector.state),
      let s1 := snd (Collector.cleanup_tunnel E s) in
      fst (Collector.cleanup_tunnel E s) = Ret tt
      /\ Collector.events s1 = (collector_teardown s ++ Collector.events s)%list
      /\ collector_closed s1
      /\ collector_teardown s1 = []
      /\ Collector.cleanup_tunnel E' s1 = (Ret tt, s1))
  /\ (forall (E E' : Restorer.env) (s : Restorer.state),
         let s1 := snd (Restorer.cleanup_tunnel E s) in
         fst (Restorer.cleanup_tunnel E s) = Ret tt
         /\ Restorer.events s1 = (restorer_teardown E s ++ Restorer.events s)%list
         /\ (Restorer.tunnel_process s <> None -> Restorer.process_running s1 = false)
         /\ restorer_closed s1
         /\ restorer_teardown E' s1 = []
         /\ Restorer.cleanup_tunnel E' s1 = (Ret tt, s1)).
Proof.
  split; intros E E' s s1.
  - destruct (collector_cleanup_closes E s) as [Hret Hclosed].
    split; [exact Hret |].
    split; [apply collector_cleanup_releases |].
    split; [exact Hclosed |].
    split.
    + subst s1. destruct Hclosed as (Hrun & Hserver & Hclient & Hthread).
      unfold collector_teardown. rewrite Hrun, Hserver, Hclient. cbn.
      destruct Hthread as [-> | ->]; [reflexivity |].
      now rewrite andb_false_r.
    + apply collector_cleanup_of_closed. exact Hclosed.
  - destruct (restorer_cleanup_closes E s) as [Hret Hclosed].
    destruct (restorer_cleanup_releases E s) as [Hevents Hdead].
    split; [exact Hret |].
    split; [exact Hevents |].
    split; [exact Hdead |].
    split; [exact Hclosed |].
    split.
    + subst s1. unfold restorer_teardown.
      destruct Hclosed as [-> | ->]; [reflexivity |].
      destruct (Restorer.tunnel_process (snd (Restorer.cleanup_tunnel E s)));
        reflexivity.
    + apply restorer_cleanup_of_closed. exact Hclosed.
Qed.

(** The teardown of a session with everything up: every handle is
    released, once. *)
Example teardown_of_a_session_that_is_up :
  (forall E, Collector.events (snd (Collector.cleanup_tunnel E collector_up))
             = [EvSshClose; EvThreadJoin 5; EvServerClose;
                EvLog INFO (MsgOther "Closing SSH tunnel...")])
  /\ (forall E, In EvTerminate
                  (Restorer.events (snd (Restorer.cleanup_tunnel E restorer_up)))
                /\ Restorer.process_running (snd (Restorer.cleanup_tunnel E restorer_up))
                   = false).
Proof.
  split; intros E.
  - rewrite collector_cleanup_releases. reflexivity.
  - destruct (restorer_cleanup_releases E restorer_up) as [-> Hdead].
    split; [| apply Hdead; discriminate].
    unfold restorer_teardown. cbn. destruct (Restorer.wait_expires E); cbn; auto.
Qed.

Lemma grows_under t u pre new :
  grows t u pre -> (new ++ u)%list = ((new ++ pre) ++ t)%list.
Proof. intros H. rewrite (grows_app _ _ _ H). now rewrite app_assoc. Qed.

(** Events without request, put on top of a trace, do not hide its probe. *)
Lemma probe_after_settle_quiet new t :
  requests new = [] -> probe_after_settle (new ++ t) = probe_after_settle t.
Proof.
  induction new as [| e new IH]; intros H; [reflexivity |].
  destruct e; cbn in H |- *; try discriminate; apply IH; exact H.
Qed.

Lemma restorer_cleanup_quiet E s :
  exists new,
    Restorer.events (snd (Restorer.cleanup_tunnel E s))
    = (new ++ Restorer.events s)%list
    /\ requests new = [].
Proof.
  unfold_restorer. unfold_monad.
  destruct s as [process running t].
  destruct process as [[] |], running; cbn;
    destruct (Restorer.wait_expires E); cbn;
    (eexists; split; [added_events | reflexivity]).
Qed.

Lemma around_probe_eq t p u quiet older :
  around_probe t p u quiet older ->
  u = (quiet ++ EvHttp p :: older ++ t)%list.
Proof.
  induction 1 as [u older H | e u quiet older _ IH].
  - cbn. now rewrite (grows_app _ _ _ H).
  - cbn. now rewrite IH.
Qed.

Lemma around_probe_under t p u quiet older new :
  around_probe t p u quiet older ->
  (new ++ u)%list = ((new ++ quiet) ++ EvHttp p :: older ++ t)%list.
Proof.
  intros H. rewrite (around_probe_eq _ _ _ _ _ H). now rewrite app_assoc.
Qed.

(** What a proof needs to know of a call to [cleanup_tunnel]: it returned,
    the session is closed, and the trace grew by [new], without request. *)
Ltac collector_cleanup :=
  match goal with
  | |- context [Collector.cleanup_tunnel ?E ?s0] =>
      destruct (collector_cleanup_spec E s0)
        as (after & new & Hrun & Hev & Hquiet & Hclosed);
      rewrite Hrun; cbn [Collector.events] in Hev
  end.

Ltac restorer_cleanup :=
  match goal with
  | |- context [Restorer.cleanup_tunnel ?E ?s0] =>
      destruct (restorer_cleanup_closes E s0) as [Hret Hclosed];
      destruct (restorer_cleanup_quiet E s0) as (new & Hev & Hquiet);
      destruct (Restorer.cleanup_tunnel E s0) as [ret after];
      cbn [fst snd] in Hret, Hclosed, Hev;
      cbn [Restorer.events] in Hev;
      subst ret
  end.

(** ** The test of the tunnel *)

Lemma collector_test_tunnel E s :
  let run := Collector.test_tunnel E s in
  exists quiet older,
    Collector.events (snd run)
    = quiet ++ EvHttp (ReqProbe (Collector.local_port E)) :: older ++ Collector.events s
    /\ requests quiet = [] /\ requests older = []
    /\ match Collector.net E (requests (Collector.events s))
                (ReqProbe (Collector.local_port E)) with
       | HttpResponse _ =>
           fst run = Ret true
           /\ Collector.tunnel_running (snd run) = Collector.tunnel_running s
           /\ Collector.ssh_client (snd run) = Collector.ssh_client s
       | HttpRaises _ =>
           fst run = Ret false /\ collector_closed (snd run)
       end.
Proof.
  intros run. subst run.
  destruct s as [client thread server running alive t].
  unfold Collector.test_tunnel, Collector.check_port.
  unfold_monad. unfold requests.
  cbn -[Collector.cleanup_tunnel collector_closed].
  destruct (Collector.net E _ _) as [[] | r];
    cbn -[Collector.cleanup_tunnel collector_closed];
    [ destruct (Collector.port_check E) as [[| q | q] |];
      cbn -[Collector.cleanup_tunnel collector_closed] | | | | ].
  all: try (collector_cleanup; cbn [fst snd];
            eexists (new ++ _)%list, _;
            split; [rewrite Hev; apply around_probe_under; repeat constructor |];
            split; [rewrite flat_map_app; unfold requests in Hquiet; rewrite Hquiet; reflexivity |];
            split; [reflexivity |];
            split; [reflexivity | exact Hclosed]).
  eexists _, _.
  split; [apply around_probe_eq; repeat constructor |].
  repeat split.
Qed.

Lemma restorer_test_tunnel E s :
  let run := Restorer.test_tunnel E s in
  exists quiet older,
    Restorer.events (snd run)
    = quiet ++ EvHttp (ReqProbe (Restorer.local_port E)) :: older ++ Restorer.events s
    /\ requests quiet = [] /\ requests older = []
    /\ match Restorer.net E (requests (Restorer.events s))
                (ReqProbe (Restorer.local_port E)) with
       | HttpResponse _ =>
           fst run = Ret true
           /\ Restorer.tunnel_process (snd run) = Restorer.tunnel_process s
           /\ Restorer.process_running (snd run) = Restorer.process_running s
       | HttpRaises OtherError => fst run = Raise OtherException
       | HttpRaises _ => fst run = Ret false /\ restorer_closed (snd run)
       end.
Proof.
  intros run. subst run.
  destruct s as [process running t].
  unfold Restorer.test_tunnel.
  unfold_monad. unfold requests.
  cbn -[Restorer.cleanup_tunnel restorer_closed].
  destruct (Restorer.net E _ _) as [[] | r];
    cbn -[Restorer.cleanup_tunnel restorer_closed].
  all: try (restorer_cleanup; cbn [fst snd];
            eexists (new ++ _)%list, _;
            split; [rewrite Hev; apply around_probe_under; repeat constructor |];
            split; [rewrite flat_map_app; unfold requests in Hquiet; rewrite Hquiet; reflexivity |];
            split; [reflexivity |];
            split; [reflexivity | exact Hclosed]).
  all: eexists _, _;
    (split; [apply around_probe_eq; repeat constructor |]);
    repeat split.
Qed.

(** ** The blocks before the test *)

Lemma collector_connect E s :
  Collector.ssh_connect E = Ret tt ->
  exists s',
    Collector.connect_ssh E s = (Ret tt, s')
    /\ Collector.ssh_client s' = Some tt
    /\ exists pre,
        Collector.events s' = (pre ++ Collector.events s)%list /\ requests pre = [].
Proof.
  intros Hconnect.
  destruct s as [client thread server running alive t].
  unfold Collector.connect_ssh, Collector.set_ssh_client.
  rewrite Hconnect. unfold_monad. cbn.
  eexists. split; [reflexivity |]. split; [reflexivity |].
  eexists. split; [added_events | reflexivity].
Qed.

Lemma collector_start_worker E s :
  exists s',
    Collector.start_worker E s = (Ret tt, s')
    /\ Collector.tunnel_running s' = true
    /\ Collector.ssh_client s' = Collector.ssh_client s
    /\ exists pre,
        Collector.events s' = (pre ++ Collector.events s)%list
        /\ requests pre = []
        /\ existsb is_settle pre = true.
Proof.
  destruct s as [client thread server running alive t].
  unfold Collector.start_worker. unfold_collector. unfold_monad. cbn.
  destruct (Collector.listen E) as [[] | e]; cbn;
    [| destruct (is_Exception e); cbn];
    (eexists; split; [reflexivity |]; split; [reflexivity |];
     split; [reflexivity |];
     eexists; split; [added_events | split; reflexivity]).
Qed.

Lemma restorer_start E s :
  Restorer.popen E = Ret tt ->
  Restorer.exits_during_settle E = false ->
  exists s',
    Restorer.start_ssh E s = (Ret tt, s')
    /\ Restorer.tunnel_process s' = Some tt
    /\ Restorer.process_running s' = true
    /\ exists pre,
        Restorer.events s' = (pre ++ Restorer.events s)%list
        /\ requests pre = []
        /\ existsb is_settle pre = true.
Proof.
  intros Hpopen Hstays.
  destruct s as [process running t].
  unfold Restorer.start_ssh. unfold_restorer.
  rewrite Hpopen, Hstays. unfold_monad. cbn.
  eexists; split; [reflexivity |]; split; [reflexivity |];
    split; [reflexivity |].
  eexists; split; [added_events | split; reflexivity].
Qed.

Lemma probe_settled quiet p older pre :
  requests quiet = [] ->
  existsb is_settle pre = true ->
  probe_after_settle (quiet ++ EvHttp (ReqProbe p) :: older ++ pre) = true.
Proof.
  intros Hq Hs. rewrite probe_after_settle_quiet by exact Hq.
  cbn. now rewrite existsb_app, Hs, orb_true_r.
Qed.

Lemma requests_around quiet p older pre :
  requests quiet = [] -> requests older = [] -> requests pre = [] ->
  requests (quiet ++ EvHttp p :: older ++ pre) = [p].
Proof.
  intros Hq Ho Hp.
  rewrite requests_app, Hq. cbn.
  change (flat_map request_of (older ++ pre)) with (requests (older ++ pre)).
  now rewrite requests_app, Ho, Hp.
Qed.

Lemma collector_probe E s :
  Collector.ssh_connect E = Ret tt ->
  let run := Collector.create_ssh_tunnel E s in
  exists new,
    Collector.events (snd run) = new ++ Collector.events s
    /\ requests new = [ReqProbe (Collector.local_port E)]
    /\ probe_after_settle new = true
    /\ match Collector.net E (requests (Collector.events s))
                (ReqProbe (Collector.local_port E)) with
       | HttpResponse _ =>
           fst run = Ret true
           /\ Collector.tunnel_running (snd run) = true
           /\ Collector.ssh_client (snd run) = Some tt
       | HttpRaises _ =>
           fst run = Ret false /\ collector_closed (snd run)
       end.
Proof.
  intros Hconnect run. subst run.
  unfold Collector.create_ssh_tunnel, try_except, bind.
  destruct (collector_connect E s Hconnect)
    as (s1 & -> & Hclient1 & pre1 & Hev1 & Hq1).
  destruct (collector_start_worker E s1)
    as (s2 & -> & Hrunning2 & Hclient2 & pre2 & Hev2 & Hq2 & Hsettle).
  destruct (collector_test_tunnel E s2)
    as (quiet & older & Hev3 & Hq3 & Ho3 & Hcase).
  assert (Hsame : requests (Collector.events s2) = requests (Collector.events s)).
  { rewrite Hev2, Hev1, !requests_app, Hq1, Hq2. reflexivity. }
  rewrite Hsame in Hcase.
  destruct (Collector.test_tunnel E s2) as [r s3]. cbn [fst snd] in Hev3, Hcase.
  exists (quiet ++ EvHttp (ReqProbe (Collector.local_port E)) :: older ++ pre2 ++ pre1).
  assert (Hev : Collector.events s3
                = (quiet ++ EvHttp (ReqProbe (Collector.local_port E))
                         :: older ++ pre2 ++ pre1) ++ Collector.events s).
  { rewrite Hev3, Hev2, Hev1.
    rewrite <- !app_assoc. cbn. now rewrite <- !app_assoc. }
  assert (Hreq : requests (quiet ++ EvHttp (ReqProbe (Collector.local_port E))
                                 :: older ++ pre2 ++ pre1)
                 = [ReqProbe (Collector.local_port E)]).
  { apply requests_around; [assumption .. |].
    now rewrite requests_app, Hq1, Hq2. }
  assert (Hset : probe_after_settle
                   (quiet ++ EvHttp (ReqProbe (Collector.local_port E))
                          :: older ++ pre2 ++ pre1) = true).
  { apply probe_settled; [assumption |].
    now rewrite existsb_app, Hsettle. }
  destruct (Collector.net E _ _) as [err | resp].
  - destruct Hcase as [-> Hclosed]. cbn [fst snd]. auto.
  - destruct Hcase as (-> & Hrun & Hcl). cbn [fst snd].
    repeat split; try assumption; congruence.
Qed.

Lemma restorer_probe E s :
  Restorer.popen E = Ret tt ->
  Restorer.exits_during_settle E = false ->
  let run := Restorer.create_ssh_tunnel E s in
  exists new,
    Restorer.events (snd run) = new ++ Restorer.events s
    /\ requests new = [ReqProbe (Restorer.local_port E)]
    /\ probe_after_settle new = true
    /\ match Restorer.net E (requests (Restorer.events s))
                (ReqProbe (Restorer.local_port E)) with
       | HttpResponse _ =>
           fst run = Ret true
           /\ Restorer.tunnel_process (snd run) = Some tt
           /\ Restorer.process_running (snd run) = true
       | HttpRaises OtherError => fst run = Ret false
       | HttpRaises _ => fst run = Ret false /\ restorer_closed (snd run)
       end.
Proof.
  intros Hpopen Hstays run. subst run.
  unfold Restorer.create_ssh_tunnel, try_except, bind.
  destruct (restorer_start E s Hpopen Hstays)
    as (s1 & -> & Hprocess & Hrunning & pre & Hev1 & Hq1 & Hsettle).
  unfold Restorer.poll_is_None, bind, get, ret. rewrite Hrunning. cbn [negb].
  destruct (restorer_test_tunnel E s1)
    as (quiet & older & Hev2 & Hq2 & Ho2 & Hcase).
  assert (Hsame : requests (Restorer.events s1) = requests (Restorer.events s)).
  { rewrite Hev1, requests_app, Hq1. reflexivity. }
  rewrite Hsame in Hcase.
  destruct (Restorer.test_tunnel E s1) as [r s2]. cbn [fst snd] in Hev2, Hcase.
  assert (Hev : Restorer.events s2
                = (quiet ++ EvHttp (ReqProbe (Restorer.local_port E))
                         :: older ++ pre) ++ Restorer.events s).
  { rewrite Hev2, Hev1. rewrite <- !app_assoc. cbn. now rewrite <- !app_assoc. }
  assert (Hreq : requests (quiet ++ EvHttp (ReqProbe (Restorer.local_port E))
                                 :: older ++ pre)
                 = [ReqProbe (Restorer.local_port E)])
    by (apply requests_around; assumption).
  assert (Hset : probe_after_settle
                   (quiet ++ EvHttp (ReqProbe (Restorer.local_port E))
                          :: older ++ pre) = true)
    by (apply probe_settled; assumption).
  destruct (Restorer.net E _ _) as [[] | resp].
  1-3: destruct Hcase as [-> Hclosed]; cbn [fst snd]; eauto 6.
  - subst r. cbn.
    eexists (_ :: _). cbn.
    split; [rewrite Hev; reflexivity |].
    split; [exact Hreq |]. split; [exact Hset | reflexivity].
  - destruct Hcase as (-> & Hp & Hr). cbn [fst snd].
    eexists. repeat split; try eassumption; congruence.
Qed.

(** C5.  The readiness probe, in both scripts, once the SSH side has
    started: [create_ssh_tunnel] sends exactly one request, the probe
    [GET http://localhost:{local_port}], after the settle delay.  Any
    response, whatever its status, makes it return [True] with the tunnel
    left up; a refused connection or a timeout makes it return [False] with
    the session torn down. *)
Theorem readiness_probe_decides
    (EC : Collector.env) (ER : Restorer.env)
    (sc : Collector.state) (sr : Restorer.state) :
  Collector.ssh_connect EC = Ret tt ->
  Restorer.popen ER = Ret tt ->
  Restorer.exits_during_settle ER = false ->
  (let run := Collector.create_ssh_tunnel EC sc in
   exists new,
     Collector.events (snd run) = new ++ Collector.events sc
     /\ requests new = [ReqProbe (Collector.local_port EC)]
     /\ probe_after_settle new = true
     /\ match Collector.net EC (requests (Collector.events sc))
                 (ReqProbe (Collector.local_port EC)) with
        | HttpResponse _ =>
            fst run = Ret true
            /\ Collector.tunnel_running (snd run) = true
            /\ Collector.ssh_client (snd run) = Some tt
        | HttpRaises _ =>
            fst run = Ret false /\ collector_closed (snd run)
        end)
  /\ (let run := Restorer.create_ssh_tunnel ER sr in
      exists new,
        Restorer.events (snd run) = new ++ Restorer.events sr
        /\ requests new = [ReqProbe (Restorer.local_port ER)]
        /\ probe_after_settle new = true
        /\ match Restorer.net ER (requests (Restorer.events sr))
                    (ReqProbe (Restorer.local_port ER)) with
           | HttpResponse _ =>
               fst run = Ret true
               /\ Restorer.tunnel_process (snd run) = Some tt
               /\ Restorer.process_running (snd run) = true
           | HttpRaises OtherError => fst run = Ret false
           | HttpRaises _ => fst run = Ret false /\ restorer_closed (snd run)
           end).
Proof.
  intros Hconnect Hpopen Hstays. split.
  - apply collector_probe; assumption.
  - apply restorer_probe; assumption.
Qed.

Lemma readiness_probe_decides_witness :
  Collector.ssh_connect (collect_world (HttpResponse (answer 503))) = Ret tt
  /\ Restorer.popen restore_world = Ret tt
  /\ Restorer.exits_during_settle restore_world = false
  /\ fst (Collector.create_ssh_tunnel (collect_world (HttpResponse (answer 503)))
            Collector.initial) = Ret true
  /\ fst (Restorer.create_ssh_tunnel restore_world Restorer.initial) = Ret true.
Proof.
  do 3 (split; [reflexivity |]).
  destruct (readiness_probe_decides
              (collect_world (HttpResponse (answer 503))) restore_world
              Collector.initial Restorer.initial eq_refl eq_refl eq_refl)
    as [(newc & _ & _ & _ & Hc) (newr & _ & _ & _ & Hr)].
  split; [apply Hc | apply Hr].
Defined.

(** ** Escalation of a tunnel that does not come up *)

Lemma transfers_app t u : transfers (t ++ u) = (transfers t ++ transfers u)%list.
Proof. unfold transfers. now rewrite requests_app, filter_app. Qed.

Lemma transfers_log l m t : transfers (EvLog l m :: t) = transfers t.
Proof. reflexivity. Qed.

Lemma probe_is_no_transfer new p :
  requests new = [ReqProbe p] -> transfers new = [].
Proof. unfold transfers. now intros ->. Qed.

(** [create_ssh_tunnel] transfers no document, whatever happens to it. *)
Lemma collector_create_no_transfer E s :
  exists new,
    Collector.events (snd (Collector.create_ssh_tunnel E s))
    = (new ++ Collector.events s)%list
    /\ transfers new = [].
Proof.
  destruct (Collector.ssh_connect E) as [[] | e] eqn:Hconnect.
  - destruct (collector_probe E s Hconnect) as (new & Hev & Hreq & _).
    exists new. split; [exact Hev | exact (probe_is_no_transfer _ _ Hreq)].
  - destruct s as [client thread server running alive t].
    unfold Collector.create_ssh_tunnel, Collector.connect_ssh,
      Collector.set_ssh_client.
    rewrite Hconnect. unfold_monad.
    cbn -[Collector.start_worker Collector.test_tunnel].
    destruct e; cbn; (eexists; split; [added_events | reflexivity]).
Qed.

Lemma restorer_create_no_transfer E s :
  exists new,
    Restorer.events (snd (Restorer.create_ssh_tunnel E s))
    = (new ++ Restorer.events s)%list
    /\ transfers new = [].
Proof.
  destruct (Restorer.popen E) as [[] | e] eqn:Hpopen;
    [destruct (Restorer.exits_during_settle E) eqn:Hexits |].
  - destruct s as [process running t].
    unfold Restorer.create_ssh_tunnel, Restorer.start_ssh. unfold_restorer.
    rewrite Hpopen, Hexits. unfold_monad.
    cbn -[Restorer.test_tunnel].
    eexists; split; [added_events | reflexivity].
  - destruct (restorer_probe E s Hpopen Hexits) as (new & Hev & Hreq & _).
    exists new. split; [exact Hev | exact (probe_is_no_transfer _ _ Hreq)].
  - destruct s as [process running t].
    unfold Restorer.create_ssh_tunnel, Restorer.start_ssh. unfold_restorer.
    rewrite Hpopen. unfold_monad.
    cbn -[Restorer.test_tunnel].
    destruct e as [| | | | | | | | [] | | | | | | | |]; cbn;
      (eexists; split; [added_events | reflexivity]).
Qed.

(** C7.  When [create_ssh_tunnel] answers [False], [collect_all] and
    [restore_all] return the mapping in which both 'reports' and 'alerts'
    are [False], and the run has sent no search and no PUT. *)
Theorem tunnel_failure_fails_everything
    (EC : Collector.env) (ER : Restorer.env)
    (sc : Collector.state) (sr : Restorer.state)
    (alerts_filename reports_filename : option string) :
  fst (Collector.create_ssh_tunnel EC (collecting sc)) = Ret false ->
  fst (Restorer.create_ssh_tunnel ER (restoring sr)) = Ret false ->
  (fst (Collector.collect_all EC sc) = Ret all_failed
   /\ transfers (Collector.events (snd (Collector.collect_all EC sc)))
      = transfers (Collector.events sc))
  /\ (fst (Restorer.restore_all ER alerts_filename reports_filename sr) = Ret all_failed
      /\ transfers (Restorer.events
                      (snd (Restorer.restore_all ER alerts_filename reports_filename sr)))
         = transfers (Restorer.events sr)).
Proof.
  intros Hcollect Hrestore. split.
  - destruct (collector_create_no_transfer EC (collecting sc)) as (new & Hev & Hnone).
    unfold Collector.collect_all. unfold_monad.
    match goal with
    | |- context [Collector.create_ssh_tunnel EC ?s0] =>
        change s0 with (collecting sc)
    end.
    destruct (Collector.create_ssh_tunnel EC (collecting sc)) as [r s1].
    cbn [fst snd] in Hcollect, Hev. subst r.
    cbn [negb fst snd Collector.events with_trace trace_of Collector.state_traced].
    split; [reflexivity |].
    rewrite transfers_log, Hev, transfers_app, Hnone. reflexivity.
  - destruct (restorer_create_no_transfer ER (restoring sr)) as (new & Hev & Hnone).
    unfold Restorer.restore_all. unfold_monad.
    match goal with
    | |- context [Restorer.create_ssh_tunnel ER ?s0] =>
        change s0 with (restoring sr)
    end.
    destruct (Restorer.create_ssh_tunnel ER (restoring sr)) as [r s1].
    cbn [fst snd] in Hrestore, Hev. subst r.
    cbn [negb fst snd Restorer.events with_trace trace_of Restorer.state_traced].
    split; [reflexivity |].
    rewrite transfers_log, Hev, transfers_app, Hnone. reflexivity.
Qed.

Lemma tunnel_failure_fails_everything_witness :
  fst (Collector.create_ssh_tunnel collect_world_no_ssh (collecting Collector.initial))
  = Ret false
  /\ fst (Restorer.create_ssh_tunnel restore_world_no_ssh (restoring Restorer.initial))
     = Ret false
  /\ fst (Collector.collect_all collect_world_no_ssh Collector.initial) = Ret all_failed
  /\ fst (Restorer.restore_all restore_world_no_ssh None None Restorer.initial)
     = Ret all_failed.
Proof.
  do 2 (split; [reflexivity |]).
  destruct (tunnel_failure_fails_everything
              collect_world_no_ssh restore_world_no_ssh
              Collector.initial Restorer.initial None None eq_refl eq_refl)
    as [[Hc _] [Hr _]].
  split; [exact Hc | exact Hr].
Defined.

Lemma tunnel_failure_escalates_collect E s :
  fst (Collector.create_ssh_tunnel E (collecting s)) = Ret false ->
  exists s1, Collector.collect_all E s = (Ret all_failed, s1).
Proof.
  intros Hfail. unfold Collector.collect_all. unfold_monad.
  match goal with
  | |- context [Collector.create_ssh_tunnel E ?s0] => change s0 with (collecting s)
  end.
  destruct (Collector.create_ssh_tunnel E (collecting s)) as [r s1].
  cbn in Hfail. subst r. eexists. reflexivity.
Qed.

(** ** The exit status *)

Lemma all_values_every_success res :
  forallb snd res = true <-> every_success res.
Proof.
  unfold every_success. rewrite forallb_forall, Forall_forall. reflexivity.
Qed.

Lemma some_failure_not_all res :
  some_failure res -> forallb snd res = false.
Proof.
  unfold some_failure. intros H.
  induction H as [[k v] rest Hv | kv rest _ IH]; cbn in *.
  - now rewrite Hv.
  - rewrite IH. apply andb_false_r.
Qed.

(** The two readings of a status computed from the mapping. *)
Lemma status_reading res (code : Z) :
  code = (if forallb snd res then 0 else 1) ->
  (code = 0 <-> every_success res) /\ (some_failure res -> code = 1).
Proof.
  intros ->. split.
  - rewrite <- all_values_every_success.
    destruct (forallb snd res); split; intros H; try reflexivity; discriminate.
  - intros H. now rewrite (some_failure_not_all res H).
Qed.

Lemma collector_summary_returns res :
  forall s, exists s', Collector.print_summary res s = (Ret tt, s').
Proof.
  induction res as [| [k v] rest IH]; intros s; cbn.
  - eexists; reflexivity.
  - unfold_monad. apply IH.
Qed.

Lemma restorer_summary_returns res :
  forall s, exists s', Restorer.print_summary res s = (Ret tt, s').
Proof.
  induction res as [| [k v] rest IH]; intros s; cbn.
  - eexists; reflexivity.
  - unfold_monad. apply IH.
Qed.

Lemma collector_exit E s res s1 :
  Collector.construct E = Ret tt ->
  Collector.collect_all E s = (Ret res, s1) ->
  fst (Collector.process E s) = (if forallb snd res then 0 else 1).
Proof.
  intros Hconstruct Hall.
  unfold Collector.process, Collector.main, try_except, bind, lift.
  rewrite Hconstruct, Hall.
  destruct (collector_summary_returns res s1) as (s2 & ->).
  unfold Collector.all_values.
  destruct (forallb snd res); reflexivity.
Qed.

Lemma restorer_exit E a s res s1 :
  Restorer.construct E = Ret tt ->
  Restorer.requested E a s = (Ret res, s1) ->
  fst (Restorer.process E a s) = (if forallb snd res then 0 else 1).
Proof.
  intros Hconstruct Hall.
  unfold Restorer.process, Restorer.main, try_except, bind, lift.
  rewrite Hconstruct, Hall.
  destruct (restorer_summary_returns res s1) as (s2 & ->).
  unfold Restorer.all_values.
  destruct (forallb snd res); reflexivity.
Qed.

(** A branch of [main] that asks for a tunnel of its own leaves the process
    with status 1 when the tunnel does not come up. *)
Lemma tunnelled_without_tunnel E key op s :
  fst (Restorer.create_ssh_tunnel E s) = Ret false ->
  fst (Restorer.tunnelled E key op s) = Raise (SystemExit 1).
Proof.
  intros Hfail. unfold Restorer.tunnelled, bind.
  destruct (Restorer.create_ssh_tunnel E s) as [r s1].
  cbn in Hfail. subst r. reflexivity.
Qed.

Lemma restorer_exit_of_sys_exit E a s code :
  Restorer.construct E = Ret tt ->
  fst (Restorer.requested E a s) = Raise (SystemExit code) ->
  fst (Restorer.process E a s) = code.
Proof.
  intros Hconstruct Hexit.
  unfold Restorer.process, Restorer.main, try_except, bind, lift.
  rewrite Hconstruct.
  destruct (Restorer.requested E a s) as [r s1].
  cbn in Hexit. subst r. reflexivity.
Qed.

Lemma restore_all_without_tunnel E alerts reports s :
  fst (Restorer.create_ssh_tunnel E (restoring s)) = Ret false ->
  exists s1, Restorer.restore_all E alerts reports s = (Ret all_failed, s1).
Proof.
  intros Hfail. unfold Restorer.restore_all. unfold_monad.
  match goal with
  | |- context [Restorer.create_ssh_tunnel E ?s0] => change s0 with (restoring s)
  end.
  destruct (Restorer.create_ssh_tunnel E (restoring s)) as [r s1].
  cbn in Hfail. subst r. eexists. reflexivity.
Qed.

Lemma restorer_exit_without_tunnel E a s :
  Restorer.construct E = Ret tt ->
  (forall s0, fst (Restorer.create_ssh_tunnel E s0) = Ret false) ->
  needs_tunnel a = true ->
  fst (Restorer.process E a s) = 1.
Proof.
  intros Hconstruct Hfail Hneeds.
  unfold needs_tunnel in Hneeds.
  assert (Hall : forall alerts reports,
             Restorer.requested E a s = Restorer.restore_all E alerts reports s ->
             fst (Restorer.process E a s) = 1).
  { intros alerts reports Heq.
    destruct (restore_all_without_tunnel E alerts reports s (Hfail _)) as (s1 & Hrun).
    rewrite Hrun in Heq.
    now rewrite (restorer_exit E a s all_failed s1 Hconstruct Heq). }
  assert (Hone : forall key op,
             Restorer.requested E a s = Restorer.tunnelled E key op s ->
             fst (Restorer.process E a s) = 1).
  { intros key op Heq.
    apply restorer_exit_of_sys_exit; [exact Hconstruct |].
    rewrite Heq. apply tunnelled_without_tunnel, Hfail. }
  unfold Restorer.requested in Hall, Hone.
  destruct (given (Restorer.file a)); [eapply Hone; reflexivity |].
  destruct (given (Restorer.alerts_source a)); [discriminate |].
  destruct (given (Restorer.reports_source a)); [discriminate |].
  destruct (given (Restorer.alerts a)), (given (Restorer.reports a)); cbn [andb] in *;
    first [eapply Hall; reflexivity | eapply Hone; reflexivity].
Qed.

(** C8.  The exit status of both scripts.  When [main] gets a result
    mapping, the status is 0 exactly when every operation of the mapping
    succeeded, and 1 as soon as one failed.  When the tunnel does not come
    up the status is 1: through the all-failed mapping of [collect_all] and
    [restore_all], and through [sys.exit(1)] in the branches of the restore
    script that open a tunnel of their own. *)
Theorem exit_status_reflects_results
    (EC : Collector.env) (ER : Restorer.env)
    (sc : Collector.state) (sr : Restorer.state) (a : Restorer.args) :
  Collector.construct EC = Ret tt ->
  Restorer.construct ER = Ret tt ->
  (forall res s1,
      Collector.collect_all EC sc = (Ret res, s1) ->
      (fst (Collector.process EC sc) = 0 <-> every_success res)
      /\ (some_failure res -> fst (Collector.process EC sc) = 1))
  /\ (forall res s1,
         Restorer.requested ER a sr = (Ret res, s1) ->
         (fst (Restorer.process ER a sr) = 0 <-> every_success res)
         /\ (some_failure res -> fst (Restorer.process ER a sr) = 1))
  /\ (fst (Collector.create_ssh_tunnel EC (collecting sc)) = Ret false ->
      fst (Collector.process EC sc) = 1)
  /\ ((forall s0, fst (Restorer.create_ssh_tunnel ER s0) = Ret false) ->
      needs_tunnel a = true ->
      fst (Restorer.process ER a sr) = 1).
Proof.
  intros HC HR.
  split; [| split; [| split]].
  - intros res s1 Hrun. apply status_reading.
    exact (collector_exit EC sc res s1 HC Hrun).
  - intros res s1 Hrun. apply status_reading.
    exact (restorer_exit ER a sr res s1 HR Hrun).
  - intros Hfail.
    destruct (tunnel_failure_escalates_collect EC sc Hfail) as (s1 & Hrun).
    now rewrite (collector_exit EC sc all_failed s1 HC Hrun).
  - intros Hfail Hneeds. now apply restorer_exit_without_tunnel.
Qed.

Lemma exit_status_reflects_results_witness :
  Collector.construct collect_world_no_ssh = Ret tt
  /\ Restorer.construct restore_world = Ret tt
  /\ fst (Collector.process collect_world_no_ssh Collector.initial) = 1
  /\ fst (Restorer.process restore_world one_file Restorer.initial) = 1.
Proof.
  do 2 (split; [reflexivity |]).
  destruct (exit_status_reflects_results
              collect_world_no_ssh restore_world
              Collector.initial Restorer.initial one_file eq_refl eq_refl)
    as (_ & Hrestore & Hcollect & _).
  split.
  - apply Hcollect. reflexivity.
  - assert (Hrun : Restorer.requested restore_world one_file Restorer.initial
                   = (Ret [("alerts.json", false)],
                      snd (Restorer.requested restore_world one_file Restorer.initial)))
      by (vm_compute; reflexivity).
    apply (proj2 (Hrestore _ _ Hrun)).
    constructor. reflexivity.
Defined.

(* ===================================================================== *)
(** * Collect: what makes a search fail                                   *)
(* ===================================================================== *)

(** The specification's format error does not exist in collect: a JSON
    answer without [hits] is saved and reported as a success. *)
Lemma collect_accepts_missing_hits : ~ missing_hits_is_a_format_error.
Proof.
  intros Hclaim.
  specialize (Hclaim collect_world_no_hits
                "/rt-alert-def-vrm-ty-rt-alert-def-vrm/_search"
                Collector.match_all_query "json_files/alerts.json" "alerts"
                Collector.initial no_hits no_hits_body eq_refl eq_refl).
  assert (Hlacks : py_contains "hits" no_hits_body <> Ret true)
    by (vm_compute; discriminate).
  specialize (Hclaim Hlacks).
  vm_compute in Hclaim. discriminate.
Qed.

(** Whatever the network answers, [_execute_request] sends its request
    once: nothing is retried. *)
Lemma execute_request_sends_once E endpoint query output_file file_type s :
  requests (Collector.events
              (snd (Collector._execute_request E endpoint query output_file file_type s)))
  = ReqSearch (Collector.local_port E) endpoint query
    :: requests (Collector.events s).
Proof.
  destruct s as [client thread server running alive t].
  unfold Collector._execute_request. unfold_monad. unfold requests. cbn.
  destruct (Collector.net E _ _) as [[] | r]; cbn; try reflexivity.
  unfold raise_for_status.
  destruct ((400 <=? status r) && (status r <? 600)); cbn; [reflexivity |].
  destruct (Collector.writable E output_file); cbn; [| reflexivity].
  destruct (Collector.is_json_content r); cbn; [| reflexivity].
  unfold Collector.response_json.
  destruct (json_body r); reflexivity.
Qed.

(** C4, as the code has it.  A response that is not a 4xx or 5xx, that
    announces JSON and whose body parses is handled without a look at its
    shape, with or without a [hits] key: when the output file can be
    opened for writing, the parsed body is written to it and the collect
    operation reports success; when it cannot, nothing is written and the
    operation reports failure.  In both cases one request is sent. *)
Theorem collect_saves_any_json_body
    (E : Collector.env) (endpoint : string) (query : json)
    (output_file file_type : string) (s : Collector.state)
    (r : response) (body : json) :
  Collector.net E (requests (Collector.events s))
    (ReqSearch (Collector.local_port E) endpoint query) = HttpResponse r ->
  raise_for_status r = Ret tt ->
  Collector.is_json_content r = true ->
  json_body r = Some body ->
  let run := Collector._execute_request E endpoint query output_file file_type s in
  fst run = Ret (Collector.writable E output_file)
  /\ file_events (Collector.events (snd run))
     = ((if Collector.writable E output_file
         then [EvWriteFile output_file (inl body); EvCreateFile output_file]
         else [])
        ++ file_events (Collector.events s))%list
  /\ requests (Collector.events (snd run))
     = ReqSearch (Collector.local_port E) endpoint query
       :: requests (Collector.events s).
Proof.
  intros Hnet Hstatus Hjson Hbody run.
  split; [| split; [| apply execute_request_sends_once]]; subst run;
    destruct s as [client thread server running alive t];
    unfold Collector._execute_request; unfold_monad;
    unfold requests in *; cbn in Hnet |- *;
    rewrite Hnet; cbn; rewrite Hstatus; cbn;
    (destruct (Collector.writable E output_file); cbn; [| reflexivity]);
    rewrite Hjson; cbn; unfold Collector.response_json; rewrite Hbody; cbn;
    reflexivity.
Qed.

Lemma collect_saves_any_json_body_witness :
  let read_only :=
    Collector.mkEnv 9201 "json_files" "20240101_120000"
      (Ret tt) (Ret tt) (Ret tt) (fun _ _ => HttpResponse no_hits)
      (Some 0) (Ret tt) (Ret tt) true (Ret tt) (fun _ => false) in
  let run E := Collector._execute_request E
                 "/rt-alert-def-vrm-ty-rt-alert-def-vrm/_search"
                 Collector.match_all_query "json_files/alerts.json" "alerts"
                 Collector.initial in
  py_contains "hits" no_hits_body = Ret false
  /\ fst (run collect_world_no_hits) = Ret true
  /\ file_events (Collector.events (snd (run collect_world_no_hits)))
     = [EvWriteFile "json_files/alerts.json" (inl no_hits_body);
        EvCreateFile "json_files/alerts.json"]
  /\ fst (run read_only) = Ret false
  /\ file_events (Collector.events (snd (run read_only))) = [].
Proof.
  intros read_only run. split; [reflexivity |].
  destruct (collect_saves_any_json_body collect_world_no_hits
              "/rt-alert-def-vrm-ty-rt-alert-def-vrm/_search"
              Collector.match_all_query "json_files/alerts.json" "alerts"
              Collector.initial no_hits no_hits_body
              eq_refl eq_refl eq_refl eq_refl) as (Hok & Hfile & _).
  destruct (collect_saves_any_json_body read_only
              "/rt-alert-def-vrm-ty-rt-alert-def-vrm/_search"
              Collector.match_all_query "json_files/alerts.json" "alerts"
              Collector.initial no_hits no_hits_body
              eq_refl eq_refl eq_refl eq_refl) as (Hno & Hnone & _).
  repeat split; assumption.
Defined.

(** X6.  The format error is restore's: a file whose top level has no
    [hits] key is refused, and nothing is sent. *)
Lemma restore_refuses_missing_hits E path members s :
  Restorer.fs E path = Restorer.FileJson (JObj members) ->
  dict_get "hits" members = None ->
  fst (Restorer.restore_from_file E path s) = Ret false
  /\ requests (Restorer.events (snd (Restorer.restore_from_file E path s)))
     = requests (Restorer.events s).
Proof.
  intros Hfile Hnone.
  unfold Restorer.restore_from_file, Restorer.path_exists, Restorer.load_json.
  rewrite Hfile. unfold_monad. cbn [negb].
  unfold py_contains, dict_has. rewrite Hnone. cbn.
  split; reflexivity.
Qed.

(* ===================================================================== *)
(** * The listener: errors of [accept]                                    *)
(* ===================================================================== *)

(** The specification's two sentences on the errors of the listener do
    not hold: an error of [accept] does not let the loop continue (the
    client that would have connected next is never accepted), and an error
    of [bind] does not make tunnel setup fail (with the port taken by
    something that answers the probe, [create_ssh_tunnel] gives [True]). *)
Lemma listener_errors_are_not_as_claimed :
  ~ accept_error_continues /\ ~ bind_error_fails_setup.
Proof.
  split.
  - intros Hclaim.
    specialize (Hclaim failing_tick [client_tick 7] listening OSError
                  eq_refl eq_refl eq_refl eq_refl eq_refl eq_refl).
    vm_compute in Hclaim. discriminate.
  - intros Hclaim.
    specialize (Hclaim collect_world_port_taken Collector.initial OSError
                  eq_refl eq_refl).
    vm_compute in Hclaim. discriminate.
Qed.

(** A timeout of [accept] is a turn without effect but the wait. *)
Lemma accept_timeout_continues t rest s :
  Collector.tunnel_running s = true ->
  Collector.stopped_before_test t = false ->
  Collector.accept t = Raise SocketTimeout ->
  Collector.accept_loop (t :: rest) s = Collector.accept_loop rest (waited s).
Proof.
  intros Hrun Htest Haccept.
  destruct s as [client thread server running alive tr]. cbn in Hrun. subst running.
  cbn [Collector.accept_loop]. unfold Collector.when.
  rewrite Htest, Haccept. unfold_monad. reflexivity.
Qed.

(** A bind error ends the worker before its loop: one error line, no
    [accept]; the [finally] finds [self.tunnel_server] as it was before. *)
Lemma bind_error_ends_worker E ticks released s e :
  Collector.listen E = Raise e ->
  is_Exception e = true ->
  let run := Collector._tunnel_worker E ticks released s in
  fst run = Ret Collector.Failed
  /\ exists closing,
      Collector.events (snd run)
      = (closing ++ EvLog ERROR (MsgWorkerError e)
                 :: EvListen (Collector.local_port E) :: Collector.events s)%list
      /\ (closing = [] \/ closing = [EvServerClose])
      /\ (Collector.tunnel_server s = None -> closing = []).
Proof.
  intros Hlisten Hexc run. subst run.
  destruct s as [client thread server running alive tr].
  unfold Collector._tunnel_worker, Collector.main_thread_release, try_finally,
    Collector.when, Collector.swallow, Collector.set_tunnel_server.
  unfold_monad. rewrite Hlisten. cbn. rewrite Hexc. cbn.
  destruct (released && negb running); cbn.
  - split; [reflexivity |]. exists []. auto.
  - destruct server as [[] |]; cbn.
    + destruct (Collector.server_close E) as [[] | e']; cbn;
        (split; [reflexivity |]; exists [EvServerClose];
         split; [reflexivity |]; split; [now right | discriminate]).
    + split; [reflexivity |]. exists []. auto.
Qed.

(** The worker that could not bind, seen from [create_ssh_tunnel]: the
    thread was started, the delay has passed, and the worker is gone with
    its error line. *)
Lemma start_worker_bind_error E s b :
  Collector.listen E = Raise b ->
  is_Exception b = true ->
  Collector.start_worker E s = (Ret tt, unbound E b s).
Proof.
  intros Hlisten Hexc.
  destruct s as [client thread server running alive tr].
  unfold Collector.start_worker, unbound. unfold_collector. unfold_monad.
  rewrite Hlisten. cbn. rewrite Hexc. reflexivity.
Qed.

(** A probe that is answered. *)
Lemma test_tunnel_answered E s r :
  Collector.net E (requests (Collector.events s)) (ReqProbe (Collector.local_port E))
  = HttpResponse r ->
  Collector.test_tunnel E s
  = (Ret true,
     with_trace
       (EvLog INFO (MsgOther "SSH tunnel established successfully")
        :: EvHttp (ReqProbe (Collector.local_port E))
        :: EvLog INFO (MsgOther "Testing connection to localhost:{self.local_port}")
        :: Collector.events s) s).
Proof.
  intros Hnet.
  destruct s as [client thread server running alive tr].
  unfold Collector.test_tunnel. unfold_monad. unfold requests in *.
  cbn -[Collector.cleanup_tunnel] in Hnet |- *.
  rewrite Hnet. reflexivity.
Qed.

(** A bind error is not surfaced to [create_ssh_tunnel]: with the SSH
    connection up, the answer is that of the probe. *)
Lemma bind_error_is_not_surfaced E s b r :
  Collector.listen E = Raise b ->
  is_Exception b = true ->
  Collector.ssh_connect E = Ret tt ->
  Collector.net E (requests (Collector.events s)) (ReqProbe (Collector.local_port E))
  = HttpResponse r ->
  let run := Collector.create_ssh_tunnel E s in
  fst run = Ret true
  /\ In (EvLog ERROR (MsgWorkerError b)) (Collector.events (snd run))
  /\ Collector.worker_alive (snd run) = false
  /\ Collector.tunnel_running (snd run) = true.
Proof.
  intros Hlisten Hexc Hconnect Hnet run. subst run.
  unfold Collector.create_ssh_tunnel, try_except, bind.
  destruct (collector_connect E s Hconnect)
    as (s1 & -> & Hclient1 & pre1 & Hev1 & Hq1).
  rewrite (start_worker_bind_error E s1 b Hlisten Hexc).
  assert (Hprobe : Collector.net E (requests (Collector.events (unbound E b s1)))
                     (ReqProbe (Collector.local_port E)) = HttpResponse r).
  { unfold unbound. cbn [Collector.events]. unfold requests in *. cbn [flat_map request_of app].
    rewrite Hev1, flat_map_app, Hq1. exact Hnet. }
  rewrite (test_tunnel_answered E _ r Hprobe).
  cbn. repeat split. auto 6.
Qed.

(** C6, as the code has it.  In the accept loop, with the stop flag not
    set at the test: every [accept] waits at most one second; a timeout
    lets the loop go on to its next turn; any other error ends the loop
    ([break]), and is logged unless the flag was cleared before the handler
    read it.  A bind error ends the worker before the loop, with an error
    line and without any [accept]; it is not surfaced to tunnel setup:
    with the SSH connection up, [create_ssh_tunnel] still answers [True]
    when the probe is answered, with the worker gone. *)
Theorem accept_error_ends_loop
    (t : Collector.tick) (rest : list Collector.tick)
    (s : Collector.state) (e : exn) :
  Collector.tunnel_running s = true ->
  Collector.stopped_before_test t = false ->
  Collector.accept t = Raise e ->
  is_Exception e = true ->
  (if Collector.is_socket_timeout e
   then Collector.accept_loop (t :: rest) s = Collector.accept_loop rest (waited s)
   else Collector.accept_loop (t :: rest) s = (Ret Collector.Broke, handled t e s))
  /\ (forall E ticks released s0 b,
         Collector.listen E = Raise b ->
         is_Exception b = true ->
         let run := Collector._tunnel_worker E ticks released s0 in
         fst run = Ret Collector.Failed
         /\ exists closing,
             Collector.events (snd run)
             = (closing ++ EvLog ERROR (MsgWorkerError b)
                        :: EvListen (Collector.local_port E) :: Collector.events s0)%list
             /\ (closing = [] \/ closing = [EvServerClose])
             /\ (Collector.tunnel_server s0 = None -> closing = []))
  /\ (forall E s0 b r,
         Collector.listen E = Raise b ->
         is_Exception b = true ->
         Collector.ssh_connect E = Ret tt ->
         Collector.net E (requests (Collector.events s0))
           (ReqProbe (Collector.local_port E)) = HttpResponse r ->
         let run := Collector.create_ssh_tunnel E s0 in
         fst run = Ret true
         /\ In (EvLog ERROR (MsgWorkerError b)) (Collector.events (snd run))
         /\ Collector.worker_alive (snd run) = false
         /\ Collector.tunnel_running (snd run) = true).
Proof.
  intros Hrun Htest Haccept Hexc. split; [| split].
  - destruct (Collector.is_socket_timeout e) eqn:Htimeout.
    + destruct e; try discriminate.
      now apply accept_timeout_continues.
    + destruct s as [client thread server running alive tr].
      cbn in Hrun. subst running.
      cbn [Collector.accept_loop]. unfold Collector.when, handled.
      rewrite Htest, Haccept, Htimeout, Hexc. unfold_monad.
      unfold Collector.set_tunnel_running, modify.
      destruct (Collector.stopped_before_handler t); reflexivity.
  - intros E ticks released s0 b Hlisten Hb.
    now apply bind_error_ends_worker.
  - intros E s0 b r Hlisten Hb Hconnect Hnet.
    now apply (bind_error_is_not_surfaced E s0 b r).
Qed.

(** A timeout, then a client: the client is accepted; an error, then a
    client: it is not. *)
Example accept_after_timeout_and_after_error :
  fst (Collector.accept_loop [timeout_tick; client_tick 7] listening)
  = Ret Collector.Waiting
  /\ In (EvSpawn 7)
        (Collector.events (snd (Collector.accept_loop [timeout_tick; client_tick 7] listening)))
  /\ fst (Collector.accept_loop [failing_tick; client_tick 7] listening)
     = Ret Collector.Broke
  /\ ~ In (EvSpawn 7)
          (Collector.events (snd (Collector.accept_loop [failing_tick; client_tick 7] listening))).
Proof.
  vm_compute. repeat split; auto.
  intros [H | [H | H]]; try discriminate; exact H.
Qed.

Lemma accept_error_ends_loop_witness :
  Collector.tunnel_running listening = true
  /\ Collector.stopped_before_test failing_tick = false
  /\ Collector.accept failing_tick = Raise OSError
  /\ is_Exception OSError = true
  /\ Collector.accept_loop [failing_tick; client_tick 7] listening
     = (Ret Collector.Broke, handled failing_tick OSError listening)
  /\ fst (Collector._tunnel_worker collect_world_port_taken [client_tick 7] true
            Collector.initial) = Ret Collector.Failed
  /\ fst (Collector.create_ssh_tunnel collect_world_port_taken Collector.initial)
     = Ret true.
Proof.
  do 4 (split; [reflexivity |]).
  destruct (accept_error_ends_loop failing_tick [client_tick 7] listening OSError
              eq_refl eq_refl eq_refl eq_refl) as (Hloop & Hworker & Hsetup).
  split; [exact Hloop |]. split.
  - exact (proj1 (Hworker collect_world_port_taken [client_tick 7] true
                    Collector.initial OSError eq_refl eq_refl)).
  - exact (proj1 (Hsetup collect_world_port_taken Collector.initial OSError (answer 200)
                    eq_refl eq_refl eq_refl eq_refl)).
Defined.

(* ===================================================================== *)
(** * Forwarding: what reaches the other side                             *)
(* ===================================================================== *)

Lemma whole_chunk (n : nat) (buf : Collector.bytes) :
  (Collector.chunk_size <= n)%nat ->
  (firstn n (firstn Collector.chunk_size buf) ++ skipn Collector.chunk_size buf)%list
  = buf.
Proof.
  intros Hn.
  rewrite (firstn_all2 (n := n) (firstn Collector.chunk_size buf)).
  - apply firstn_skipn.
  - rewrite length_firstn. lia.
Qed.

(** [recv] returns nothing only from an empty buffer. *)
Lemma empty_chunk (buf : Collector.bytes) :
  firstn Collector.chunk_size buf = [] -> buf = [].
Proof.
  assert (Hpos : Collector.chunk_size = S (Nat.pred Collector.chunk_size))
    by reflexivity.
  rewrite Hpos. destruct buf; [reflexivity | discriminate].
Qed.

Lemma arrive_in_transit r c : in_transit c -> in_transit (Collector.arrive r c).
Proof.
  unfold in_transit, Collector.arrive.
  destruct c as [cb ce cs tc hb he hs th closed]. cbn.
  intros [Hc Hh].
  destruct ce, he; cbn; subst; now rewrite <- ?app_assoc.
Qed.

Lemma client_half_in_transit ready r c :
  takes_all r -> in_transit c ->
  in_transit (snd (Collector.client_half ready r c))
  /\ (fst (Collector.client_half ready r c) = Some Collector.ClientClosed ->
      Collector.client_buf (snd (Collector.client_half ready r c)) = []).
Proof.
  intros [(n & Hn & Hle) _] [Hc Hh].
  unfold Collector.client_half.
  destruct ready; [| split; [split; assumption | discriminate]].
  destruct (Collector.client_recv_raises r); [split; [split; assumption | discriminate] |].
  unfold Collector.client_recv.
  destruct (firstn Collector.chunk_size (Collector.client_buf c)) as [| b data] eqn:Hdata.
  - apply empty_chunk in Hdata.
    cbn [fst snd]. unfold in_transit.
    cbn [Collector.client_sent Collector.to_channel Collector.client_buf
         Collector.channel_sent Collector.to_client Collector.channel_buf].
    rewrite Hdata in *. rewrite skipn_nil.
    split; [split; assumption | reflexivity].
  - rewrite Hn. cbn [fst snd]. split; [| discriminate].
    unfold in_transit, Collector.channel_send.
    cbn [Collector.client_sent Collector.to_channel Collector.client_buf
         Collector.channel_sent Collector.to_client Collector.channel_buf].
    split; [| exact Hh].
    rewrite Hc, <- app_assoc. f_equal.
    rewrite <- Hdata. symmetry. now apply whole_chunk.
Qed.

Lemma channel_half_in_transit ready r c :
  takes_all r -> in_transit c ->
  in_transit (snd (Collector.channel_half ready r c))
  /\ (fst (Collector.channel_half ready r c) = Some Collector.ChannelClosed ->
      Collector.channel_buf (snd (Collector.channel_half ready r c)) = []).
Proof.
  intros [_ (n & Hn & Hle)] [Hc Hh].
  unfold Collector.channel_half.
  destruct ready; [| split; [split; assumption | discriminate]].
  destruct (Collector.channel_recv_raises r); [split; [split; assumption | discriminate] |].
  unfold Collector.channel_recv.
  destruct (firstn Collector.chunk_size (Collector.channel_buf c)) as [| b data] eqn:Hdata.
  - apply empty_chunk in Hdata.
    cbn [fst snd]. unfold in_transit.
    cbn [Collector.client_sent Collector.to_channel Collector.client_buf
         Collector.channel_sent Collector.to_client Collector.channel_buf].
    rewrite Hdata in *. rewrite skipn_nil.
    split; [split; assumption | reflexivity].
  - rewrite Hn. cbn [fst snd]. split; [| discriminate].
    unfold in_transit, Collector.client_send.
    cbn [Collector.client_sent Collector.to_channel Collector.client_buf
         Collector.channel_sent Collector.to_client Collector.channel_buf].
    split; [exact Hc |].
    rewrite Hh, <- app_assoc. f_equal.
    rewrite <- Hdata. symmetry. now apply whole_chunk.
Qed.

Lemma client_half_exit ready r c out :
  fst (Collector.client_half ready r c) = Some out ->
  out <> Collector.ChannelClosed.
Proof.
  unfold Collector.client_half.
  destruct ready; [| discriminate].
  destruct (Collector.client_recv_raises r); [cbn; congruence |].
  destruct (Collector.client_recv c) as [[| b data] c1]; [cbn; congruence |].
  destruct (Collector.channel_send_takes r); cbn; congruence.
Qed.

Lemma channel_half_exit ready r c out :
  fst (Collector.channel_half ready r c) = Some out ->
  out <> Collector.ClientClosed.
Proof.
  unfold Collector.channel_half.
  destruct ready; [| discriminate].
  destruct (Collector.channel_recv_raises r); [cbn; congruence |].
  destruct (Collector.channel_recv c) as [[| b data] c1]; [cbn; congruence |].
  destruct (Collector.client_send_takes r); cbn; congruence.
Qed.

(** What the relay does guarantee.  As long as every [send] takes the whole
    chunk it is given, each side has taken, in order, what the other side
    has sent, but for what is still buffered; and when the loop ends on a
    side's end of stream, the other side has taken all that this side ever
    sent. *)
Lemma forward_loop_fidelity rounds :
  Forall takes_all rounds ->
  forall c,
    in_transit c ->
    let run := Collector.forward_loop rounds c in
    in_transit (snd run)
    /\ (fst run = Collector.ClientClosed ->
        Collector.to_channel (snd run) = Collector.client_sent (snd run))
    /\ (fst run = Collector.ChannelClosed ->
        Collector.to_client (snd run) = Collector.channel_sent (snd run)).
Proof.
  induction 1 as [| r rest Hr _ IH]; intros c Hc; cbn [Collector.forward_loop].
  - repeat split; try discriminate; apply Hc.
  - pose proof (arrive_in_transit r c Hc) as H0.
    set (c0 := Collector.arrive r c) in *.
    pose proof (client_half_in_transit (Collector.client_ready c0) r c0 Hr H0)
      as [H1 Hclosed1].
    pose proof (client_half_exit (Collector.client_ready c0) r c0) as Hexit1.
    destruct (Collector.client_half (Collector.client_ready c0) r c0) as [[out |] c1];
      cbn [fst snd] in *.
    + split; [exact H1 |]. split.
      * intros ->. destruct H1 as [H1 _].
        rewrite H1, (Hclosed1 eq_refl). now rewrite app_nil_r.
      * intros ->. now elim (Hexit1 _ eq_refl).
    + pose proof (channel_half_in_transit (Collector.channel_ready c0) r c1 Hr H1)
        as [H2 Hclosed2].
      pose proof (channel_half_exit (Collector.channel_ready c0) r c1) as Hexit2.
      destruct (Collector.channel_half (Collector.channel_ready c0) r c1) as [[out |] c2];
        cbn [fst snd] in *.
      * split; [exact H2 |]. split.
        -- intros ->. now elim (Hexit2 _ eq_refl).
        -- intros ->. destruct H2 as [_ H2].
           rewrite H2, (Hclosed2 eq_refl). now rewrite app_nil_r.
      * apply IH. exact H2.
Qed.

(** C1.  The relay hands to [send] exactly the chunk it has read, but it
    drops the count that [send] returns.  Here the client writes six bytes
    and then closes, and the channel takes only two bytes of the first
    chunk of four: the loop goes on, ends on the client's end of stream, and
    the channel has received four of the six bytes. *)
Theorem partial_send_drops_bytes :
  let run := Collector._handle_tunnel_connection (Ret tt) short_send Collector.fresh in
  fst run = Collector.ClientClosed
  /\ Collector.client_sent (snd run)
     = [Byte.x01; Byte.x02; Byte.x03; Byte.x04; Byte.x05; Byte.x06]
  /\ Collector.to_channel (snd run) = [Byte.x01; Byte.x02; Byte.x05; Byte.x06]
  /\ Collector.client_buf (snd run) = []
  /\ Collector.to_channel (snd run) <> Collector.client_sent (snd run).
Proof.
  vm_compute. repeat split. discriminate.
Qed.

(* ===================================================================== *)
(** * Further properties: restore                                         *)
(* ===================================================================== *)

(** What an attempt sends: the PUT of the entry, or nothing. *)
Lemma attempt_requests E item s :
  requests (Restorer.events (snd (Restorer._restore_single_item E item s)))
  = (put_of (Restorer.local_port E) item ++ requests (Restorer.events s))%list.
Proof.
  destruct item; try reflexivity.
  unfold Restorer._restore_single_item, put_of.
  rewrite !py_get_document.
  unfold_monad. unfold requests.
  destruct (py_all _); cbn [negb]; [| reflexivity].
  cbn.
  destruct (Restorer.net E _ _) as [t | r]; cbn.
  - destruct t; reflexivity.
  - unfold raise_for_status.
    destruct ((400 <=? status r) && (status r <? 600)); cbn; [reflexivity |].
    unfold Restorer.response_json.
    destruct (json_body r) as [j |]; cbn; [| reflexivity].
    destruct j; cbn; try reflexivity.
    destruct (dict_get "result" members0); reflexivity.
Qed.

(** An attempt returns, or it ends in the [UnboundLocalError] of an entry
    that is not an object. *)
Lemma attempt_outcome E item s :
  (exists ok, fst (Restorer._restore_single_item E item s) = Ret ok)
  \/ (is_object item = false
      /\ Restorer._restore_single_item E item s = (Raise UnboundLocalError, s)).
Proof.
  destruct item; try (right; split; reflexivity).
  left. destruct (document_attempt_returns E members s) as (ok & s' & ->).
  now exists ok.
Qed.

(** X1.  Identity and order of the writes.  For a list of documents, the
    loop of [restore_from_file] sends, in the order of the list, exactly one
    PUT for each document whose [_index], [_id] and [_source] are truthy,
    to that document's own index and id with its own source as body, and
    nothing for the others, whatever the document store answers: a failed
    PUT is neither retried nor a reason to stop. *)
Theorem restore_sends_each_document_once E items :
  Forall is_document items ->
  forall ok ko s,
    requests (Restorer.events (snd (Restorer.restore_items E items ok ko s)))
    = (rev (flat_map (put_of (Restorer.local_port E)) items)
       ++ requests (Restorer.events s))%list.
Proof.
  induction 1 as [| item rest [members ->] _ IH]; intros ok ko s.
  - reflexivity.
  - rewrite restore_items_cons.
    pose proof (attempt_requests E (JObj members) s) as Hreq.
    destruct (document_attempt_returns E members s) as (b & s1 & Hb).
    rewrite Hb in Hreq |- *. cbn [snd] in Hreq.
    assert (Hgoal : forall ok' ko',
               requests (Restorer.events (snd (Restorer.restore_items E rest ok' ko' s1)))
               = (rev (flat_map (put_of (Restorer.local_port E)) (JObj members :: rest))
                  ++ requests (Restorer.events s))%list).
    { intros ok' ko'. rewrite IH, Hreq.
      cbn [flat_map]. rewrite rev_app_distr, <- app_assoc.
      f_equal. f_equal.
      unfold put_of. destruct (py_all _); reflexivity. }
    destruct b; apply Hgoal.
Qed.

Lemma restore_sends_each_document_once_witness :
  Forall is_document four_hits
  /\ List.length
       (requests (Restorer.events
                    (snd (Restorer.restore_items restore_world four_hits 0 0
                            Restorer.initial)))) = 3%nat.
Proof.
  split; [exact four_hits_are_documents |].
  rewrite (restore_sends_each_document_once restore_world four_hits
             four_hits_are_documents 0%nat 0%nat Restorer.initial).
  reflexivity.
Defined.

(** ** What can escape from a block *)

Section Escapes.
Context {St : Type} `{Traced St}.

Lemma never_exits_ret {A} (a : A) : never_exits (ret a : M St A).
Proof. intros s. exact I. Qed.

Lemma never_exits_emit (e : event) : never_exits (emit e : M St unit).
Proof. intros s. exact I. Qed.

Lemma never_exits_log l m : never_exits (log l m : M St unit).
Proof. intros s. exact I. Qed.

Lemma never_exits_raise {A} (e : exn) :
  is_Exception e = true -> never_exits (raise e : M St A).
Proof. intros He s. exact He. Qed.

Lemma never_exits_lift {A} (r : result A) :
  catchable r -> never_exits (lift r : M St A).
Proof. intros Hr s. exact Hr. Qed.

Lemma never_exits_bind {A B} (m : M St A) (k : A -> M St B) :
  never_exits m -> (forall a, never_exits (k a)) -> never_exits (bind m k).
Proof.
  intros Hm Hk s. unfold bind.
  specialize (Hm s). destruct (m s) as [[a | e] s1]; cbn in *.
  - apply Hk.
  - exact Hm.
Qed.

Lemma never_exits_http net r : never_exits (http_call net r : M St response).
Proof.
  intros s. unfold http_call.
  destruct (net _ r) as [[] | resp]; exact I || reflexivity.
Qed.

Lemma returns_never_exits {A} (m : M St A) : returns m -> never_exits m.
Proof. intros Hm s. destruct (Hm s) as (a & s' & ->). exact I. Qed.

Lemma returns_bind {A B} (m : M St A) (k : A -> M St B) :
  returns m -> (forall a, returns (k a)) -> returns (bind m k).
Proof.
  intros Hm Hk s. unfold bind.
  destruct (Hm s) as (a & s1 & ->). apply Hk.
Qed.

Lemma returns_ret {A} (a : A) : returns (ret a : M St A).
Proof. intros s. now exists a, s. Qed.

Lemma returns_log l m : returns (log l m : M St unit).
Proof. intros s. eexists _, _. reflexivity. Qed.

(** A [try] whose last clause is [except Exception], around a block that
    raises nothing else, with handlers that return: the whole returns. *)
Lemma returns_try_except {A} (m : M St A)
    (clauses : list ((exn -> bool) * (exn -> M St A))) (h : exn -> M St A) :
  never_exits m ->
  Forall (fun c => forall e, returns (snd c e)) clauses ->
  (forall e, returns (h e)) ->
  returns (try_except m (clauses ++ [(is_Exception, h)])).
Proof.
  intros Hm Hclauses Hh s. unfold try_except.
  specialize (Hm s). destruct (m s) as [[a | e] s1]; cbn in Hm.
  - now exists a, s1.
  - clear s. induction Hclauses as [| [f g] rest Hg _ IH]; cbn.
    + rewrite Hm. apply Hh.
    + destruct (f e); [apply Hg | apply IH].
Qed.
End Escapes.

Lemma py_get_default_catchable obj key default :
  catchable (py_get_default obj key default).
Proof. destruct obj; cbn; try reflexivity. destruct (dict_get key members); exact I. Qed.

Lemma py_contains_catchable key obj : catchable (py_contains key obj).
Proof. destruct obj; cbn; reflexivity || exact I. Qed.

Lemma py_iter_catchable obj : catchable (py_iter obj).
Proof. destruct obj; cbn; reflexivity || exact I. Qed.

Lemma hits_of_catchable json_data : catchable (Restorer.hits_of json_data).
Proof.
  unfold Restorer.hits_of.
  pose proof (py_get_default_catchable json_data "hits" (JObj [])) as H.
  destruct (py_get_default json_data "hits" (JObj [])); [| exact H].
  apply py_get_default_catchable.
Qed.

Lemma py_len_catchable obj : catchable (Restorer.py_len obj).
Proof.
  unfold Restorer.py_len. pose proof (py_iter_catchable obj) as H.
  destruct (py_iter obj); [exact I | exact H].
Qed.

Lemma restore_items_never_exits E items :
  forall ok ko, never_exits (Restorer.restore_items E items ok ko).
Proof.
  induction items as [| item rest IH]; intros ok ko s.
  - exact I.
  - rewrite restore_items_cons.
    destruct (attempt_outcome E item s) as [[b Hb] | [_ Hraise]].
    + destruct (Restorer._restore_single_item E item s) as [r s1].
      cbn in Hb. subst r. destruct b; apply IH.
    + rewrite Hraise. reflexivity.
Qed.

Lemma load_json_never_exits E path : never_exits (Restorer.load_json E path).
Proof.
  intros s. unfold Restorer.load_json.
  destruct (Restorer.fs E path); reflexivity || exact I.
Qed.

(** No exception of [restore_from_file] gets past its handlers. *)
Lemma restore_from_file_total E path :
  returns (Restorer.restore_from_file E path).
Proof.
  unfold Restorer.restore_from_file.
  apply (returns_try_except _ [(Restorer.is_JSONDecodeError, _)]).
  - destruct (negb (Restorer.path_exists E path)).
    + apply returns_never_exits, returns_bind; [apply returns_log | intros _; apply returns_ret].
    + apply never_exits_bind; [apply never_exits_log | intros _].
      apply never_exits_bind; [apply load_json_never_exits | intros json_data].
      apply never_exits_bind; [apply never_exits_lift, py_contains_catchable | intros has].
      destruct (negb has).
      * apply never_exits_bind; [apply never_exits_log | intros _; apply never_exits_ret].
      * apply never_exits_bind; [apply never_exits_lift, hits_of_catchable | intros hits].
        destruct (negb (truthy hits)).
        -- apply never_exits_bind; [apply never_exits_log | intros _; apply never_exits_ret].
        -- apply never_exits_bind; [apply never_exits_lift, py_len_catchable | intros n].
           apply never_exits_bind; [apply never_exits_log | intros _].
           apply never_exits_bind; [apply never_exits_lift, py_iter_catchable | intros items].
           apply never_exits_bind; [apply restore_items_never_exits | intros counts].
           apply never_exits_bind; [apply never_exits_log | intros _; apply never_exits_ret].
  - constructor; [| constructor].
    intros e. apply returns_bind; [apply returns_log | intros _; apply returns_ret].
  - intros e. apply returns_bind; [apply returns_log | intros _; apply returns_ret].
Qed.

(** X2.  [restore_from_file] lets no exception out: whatever the file holds
    (nothing, bytes that are not JSON, JSON of any shape, entries that are
    not objects) and whatever the document store answers, it returns
    [True] or [False]. *)
Theorem restore_from_file_returns E path s :
  exists ok s', Restorer.restore_from_file E path s = (Ret ok, s').
Proof. apply restore_from_file_total. Qed.

(** X3.  Nothing to restore is a success.  When the file has a [hits] key
    but the list under [hits.hits] is empty, absent or [null] (any falsy
    value), [restore_from_file] answers [True] and sends nothing. *)
Theorem restore_of_nothing_succeeds E path envelope hits s :
  Restorer.fs E path = Restorer.FileJson (JObj envelope) ->
  dict_has "hits" envelope = true ->
  Restorer.hits_of (JObj envelope) = Ret hits ->
  truthy hits = false ->
  fst (Restorer.restore_from_file E path s) = Ret true
  /\ requests (Restorer.events (snd (Restorer.restore_from_file E path s)))
     = requests (Restorer.events s).
Proof.
  intros Hfile Hhas Hhits Hfalsy.
  unfold Restorer.restore_from_file, Restorer.path_exists, Restorer.load_json.
  rewrite Hfile. unfold_monad. cbn [negb].
  unfold py_contains. rewrite Hhas. cbn [negb].
  rewrite Hhits, Hfalsy. cbn.
  split; reflexivity.
Qed.

Lemma restore_of_nothing_succeeds_witness :
  let world :=
    Restorer.mkEnv 9202 None "json_files" "20240101_120000"
      (fun _ => Restorer.FileJson (JObj (envelope_of [])))
      (fun _ => true) (fun _ _ => HttpRaises Refused)
      (Ret tt) (Ret tt) false false in
  Restorer.fs world "reports.json" = Restorer.FileJson (JObj (envelope_of []))
  /\ fst (Restorer.restore_from_file world "reports.json" Restorer.initial) = Ret true.
Proof.
  intros world. split; [reflexivity |].
  apply (restore_of_nothing_succeeds world "reports.json" (envelope_of []) (JArr [])
           Restorer.initial eq_refl eq_refl eq_refl eq_refl).
Defined.

(** X4.  A file that cannot be used (it is missing, it cannot be read, or
    it is not JSON) makes [restore_from_file] answer [False], and nothing
    is sent. *)
Theorem unusable_file_is_refused E path s :
  unusable (Restorer.fs E path) = true ->
  fst (Restorer.restore_from_file E path s) = Ret false
  /\ requests (Restorer.events (snd (Restorer.restore_from_file E path s)))
     = requests (Restorer.events s).
Proof.
  intros Hbad.
  unfold Restorer.restore_from_file, Restorer.path_exists, Restorer.load_json.
  destruct (Restorer.fs E path); try discriminate;
    unfold_monad; cbn; split; reflexivity.
Qed.

Lemma unusable_file_is_refused_witness :
  let world :=
    Restorer.mkEnv 9202 None "json_files" "20240101_120000"
      (fun _ => Restorer.FileNotJson)
      (fun _ => true) (fun _ _ => HttpResponse created)
      (Ret tt) (Ret tt) false false in
  unusable (Restorer.fs world "alerts.json") = true
  /\ fst (Restorer.restore_from_file world "alerts.json" Restorer.initial) = Ret false.
Proof.
  intros world. split; [reflexivity |].
  apply (unusable_file_is_refused world "alerts.json" Restorer.initial eq_refl).
Defined.

Lemma restore_refuses_missing_hits_witness :
  let world :=
    Restorer.mkEnv 9202 None "json_files" "20240101_120000"
      (fun _ => Restorer.FileJson no_hits_body)
      (fun _ => true) (fun _ _ => HttpResponse created)
      (Ret tt) (Ret tt) false false in
  dict_get "hits" [("took", JInt 1); ("timed_out", JBool false)] = None
  /\ fst (Restorer.restore_from_file world "alerts.json" Restorer.initial) = Ret false.
Proof.
  intros world. split; [reflexivity |].
  apply (restore_refuses_missing_hits world "alerts.json"
           [("took", JInt 1); ("timed_out", JBool false)] Restorer.initial
           eq_refl eq_refl).
Defined.

Lemma restore_items_stop E pre bad post :
  Forall is_document pre ->
  is_object bad = false ->
  forall ok ko s,
  exists s1,
    Restorer.restore_items E (pre ++ bad :: post) ok ko s
    = (Raise UnboundLocalError, s1)
    /\ requests (Restorer.events s1)
       = (rev (flat_map (put_of (Restorer.local_port E)) pre)
          ++ requests (Restorer.events s))%list.
Proof.
  intros Hpre Hbad.
  induction Hpre as [| item rest [members ->] _ IH]; intros ok ko s; cbn [app].
  - rewrite restore_items_cons.
    exists s. destruct bad; try discriminate; split; reflexivity.
  - rewrite restore_items_cons.
    pose proof (attempt_requests E (JObj members) s) as Hreq.
    destruct (document_attempt_returns E members s) as (b & s1 & Hb).
    rewrite Hb in Hreq |- *. cbn [snd] in Hreq.
    assert (Hgoal : forall ok' ko',
               exists s2,
                 Restorer.restore_items E (rest ++ bad :: post) ok' ko' s1
                 = (Raise UnboundLocalError, s2)
                 /\ requests (Restorer.events s2)
                    = (rev (flat_map (put_of (Restorer.local_port E)) (JObj members :: rest))
                       ++ requests (Restorer.events s))%list).
    { intros ok' ko'. destruct (IH ok' ko' s1) as (s2 & Hrun & Hsent).
      exists s2. split; [exact Hrun |].
      rewrite Hsent, Hreq.
      cbn [flat_map]. rewrite rev_app_distr, <- app_assoc.
      f_equal. f_equal.
      unfold put_of. destruct (py_all _); reflexivity. }
    destruct b; apply Hgoal.
Qed.

(** X5.  An entry of the hits list that is not a JSON object ([null], a
    string, a number, a list) ends the restore of the file there: the
    documents before it have been sent, those after it are not, and the
    file is reported as failed. *)
Theorem entry_that_is_no_object_ends_the_file
    E path envelope inner pre bad post s :
  Restorer.fs E path = Restorer.FileJson (JObj envelope) ->
  dict_get "hits" envelope = Some (JObj inner) ->
  dict_get "hits" inner = Some (JArr (pre ++ bad :: post)) ->
  Forall is_document pre ->
  is_object bad = false ->
  fst (Restorer.restore_from_file E path s) = Ret false
  /\ requests (Restorer.events (snd (Restorer.restore_from_file E path s)))
     = (rev (flat_map (put_of (Restorer.local_port E)) pre)
        ++ requests (Restorer.events s))%list.
Proof.
  intros Hfile Henv Hinner Hpre Hbad.
  destruct (restore_items_stop E pre bad post Hpre Hbad 0%nat 0%nat
              (entering path (List.length (pre ++ bad :: post)) s))
    as (s1 & Hloop & Hsent).
  unfold Restorer.restore_from_file, Restorer.path_exists, Restorer.load_json.
  rewrite Hfile. unfold_monad. cbn [negb].
  unfold py_contains, dict_has. rewrite Henv. cbn [negb].
  unfold Restorer.hits_of, py_get_default. rewrite Henv, Hinner.
  assert (Htruthy : truthy (JArr (pre ++ bad :: post)) = true)
    by (destruct pre; reflexivity).
  rewrite Htruthy. cbn [negb].
  unfold Restorer.py_len, py_iter.
  unfold entering in Hloop.
  cbn [with_trace trace_of Restorer.state_traced Restorer.tunnel_process
       Restorer.process_running Restorer.events] in Hloop |- *.
  rewrite Hloop. cbn.
  split; [reflexivity | exact Hsent].
Qed.

Lemma entry_that_is_no_object_ends_the_file_witness :
  let hits := [document "rt-alert-def-vrm" "1"] ++ JNull :: [document "rt-alert-def-vrm" "2"] in
  let world :=
    Restorer.mkEnv 9202 None "json_files" "20240101_120000"
      (fun _ => Restorer.FileJson (JObj (envelope_of hits)))
      (fun _ => true) (fun _ _ => HttpResponse created)
      (Ret tt) (Ret tt) false false in
  is_object JNull = false
  /\ fst (Restorer.restore_from_file world "alerts.json" Restorer.initial) = Ret false
  /\ List.length
       (requests (Restorer.events
                    (snd (Restorer.restore_from_file world "alerts.json" Restorer.initial))))
     = 1%nat.
Proof.
  intros hits world. split; [reflexivity |].
  destruct (entry_that_is_no_object_ends_the_file world "alerts.json"
              (envelope_of hits) (inner_of hits)
              [document "rt-alert-def-vrm" "1"] JNull [document "rt-alert-def-vrm" "2"]
              Restorer.initial eq_refl eq_refl eq_refl) as [Hfalse Hsent].
  - repeat constructor. eexists; reflexivity.
  - reflexivity.
  - split; [exact Hfalse |]. rewrite Hsent. reflexivity.
Defined.

(** ** What a block leaves alone *)

Section Keeps.
Context {St : Type} `{Traced St}.
Hypothesis trace_of_with_trace : forall t (s : St), trace_of (with_trace t s) = t.
Context {X : Type} (f : trace -> X).

Lemma keeps_ret {A} (a : A) : keeps f (ret a : M St A).
Proof. intros s. reflexivity. Qed.

Lemma keeps_raise {A} (e : exn) : keeps f (raise e : M St A).
Proof. intros s. reflexivity. Qed.

Lemma keeps_lift {A} (r : result A) : keeps f (lift r : M St A).
Proof. intros s. reflexivity. Qed.

Lemma keeps_emit (e : event) : blind f e -> keeps f (emit e : M St unit).
Proof.
  intros He s. unfold emit, modify. cbn. now rewrite trace_of_with_trace, He.
Qed.

Lemma keeps_log l m : blind f (EvLog l m) -> keeps f (log l m : M St unit).
Proof. apply keeps_emit. Qed.

Lemma keeps_bind {A B} (m : M St A) (k : A -> M St B) :
  keeps f m -> (forall a, keeps f (k a)) -> keeps f (bind m k).
Proof.
  intros Hm Hk s. unfold bind.
  specialize (Hm s). destruct (m s) as [[a | e] s1]; cbn in *.
  - now rewrite Hk.
  - exact Hm.
Qed.

Lemma keeps_dispatch {A} (clauses : list ((exn -> bool) * (exn -> M St A))) e :
  Forall (fun c => forall e, keeps f (snd c e)) clauses ->
  keeps f (dispatch clauses e).
Proof.
  induction 1 as [| [g h] rest Hh _ IH]; cbn.
  - apply keeps_raise.
  - destruct (g e); [apply Hh | exact IH].
Qed.

Lemma keeps_try_except {A} (m : M St A)
    (clauses : list ((exn -> bool) * (exn -> M St A))) :
  keeps f m ->
  Forall (fun c => forall e, keeps f (snd c e)) clauses ->
  keeps f (try_except m clauses).
Proof.
  intros Hm Hc s. unfold try_except.
  specialize (Hm s). destruct (m s) as [[a | e] s1]; cbn in *.
  - exact Hm.
  - now rewrite (keeps_dispatch clauses e Hc s1).
Qed.

Lemma keeps_try_finally {A} (m : M St A) (g : M St unit) :
  keeps f m -> keeps f g -> keeps f (try_finally m g).
Proof.
  intros Hm Hg s. unfold try_finally.
  specialize (Hm s). destruct (m s) as [r s1]. cbn in Hm.
  specialize (Hg s1). destruct (g s1) as [[u | e] s2]; cbn in *; congruence.
Qed.
End Keeps.

Lemma restorer_trace_law t (s : Restorer.state) : trace_of (with_trace t s) = t.
Proof. reflexivity. Qed.

Lemma collector_trace_law t (s : Collector.state) : trace_of (with_trace t s) = t.
Proof. reflexivity. Qed.

Lemma requests_blind e : is_tunnel_event e = true \/ is_file_event e = true
                         \/ (exists l m, e = EvLog l m) \/ (exists k v, e = EvSummary k v) ->
  blind requests e.
Proof.
  intros H t. destruct e; try reflexivity.
  destruct H as [H | [H | [(l & m & H) | (k & v & H)]]]; discriminate.
Qed.

Lemma tunnel_events_blind e : is_tunnel_event e = false -> blind tunnel_events e.
Proof. intros H t. unfold tunnel_events. cbn. now rewrite H. Qed.

Lemma file_events_blind e : is_file_event e = false -> blind file_events e.
Proof. intros H t. unfold file_events. cbn. now rewrite H. Qed.

(** ** Extraction of the definitions *)

Lemma definitions_of_catchable items : catchable (Restorer.definitions_of items).
Proof.
  induction items as [| item rest IH]; cbn; [exact I |].
  pose proof (py_get_default_catchable item "_source" JNull) as H.
  unfold py_get. destruct (py_get_default item "_source" JNull); [| exact H].
  destruct (Restorer.definitions_of rest); [exact I | exact IH].
Qed.

(** The loop over documents is a filter of their [_source] values. *)
Lemma definitions_of_documents (documents : list (list (string * json))) :
  Restorer.definitions_of (map JObj documents) = Ret (sources_of documents).
Proof.
  unfold sources_of.
  induction documents as [| members rest IH]; [reflexivity |].
  cbn [map Restorer.definitions_of filter].
  rewrite py_get_document, IH. reflexivity.
Qed.

(** X7.  The loop of [extract_definitions_only], on documents: the
    definitions are the [_source] values that are truthy, in the order of
    the hits; a document without [_source], or with an empty one, gives
    none. *)
Theorem definitions_are_the_truthy_sources (documents : list (list (string * json))) :
  Restorer.definitions_of (map JObj documents) = Ret (sources_of documents)
  /\ (List.length (sources_of documents) <= List.length documents)%nat.
Proof.
  split; [apply definitions_of_documents |].
  unfold sources_of. rewrite <- (length_map (field "_source") documents).
  apply filter_length_le.
Qed.

Ltac keeps_step law :=
  first
    [ apply keeps_bind
    | apply (keeps_log law); first [apply requests_blind; right; right; left; eauto
                                   | apply tunnel_events_blind; reflexivity
                                   | apply file_events_blind; reflexivity]
    | apply (keeps_emit law); first [apply requests_blind; auto
                                    | apply tunnel_events_blind; reflexivity
                                    | apply file_events_blind; reflexivity]
    | apply keeps_ret | apply keeps_raise | apply keeps_lift ].

Ltac keeps_auto law :=
  repeat first
    [ lazymatch goal with
      | |- keeps _ _ => fail
      | |- Forall _ _ => fail
      | |- forall _, _ => intro
      end
    | match goal with
      | |- keeps _ (if ?b then _ else _) => destruct b
      | |- keeps _ (match ?x with _ => _ end) => destruct x
      | |- Forall _ _ => constructor
      | |- keeps _ (try_except _ _) => apply keeps_try_except
      | |- keeps _ (try_finally _ _) => apply keeps_try_finally
      end
    | keeps_step law ].

Lemma load_json_keeps E path {X} (f : trace -> X) : keeps f (Restorer.load_json E path).
Proof. intros s. unfold Restorer.load_json. destruct (Restorer.fs E path); reflexivity. Qed.

Lemma extraction_keeps_requests E json_file_path output_file_path :
  keeps requests (Restorer.extract_definitions_only E json_file_path output_file_path).
Proof.
  unfold Restorer.extract_definitions_only.
  keeps_auto restorer_trace_law; apply load_json_keeps.
Qed.

Lemma extraction_keeps_tunnel_events E json_file_path output_file_path :
  keeps tunnel_events (Restorer.extract_definitions_only E json_file_path output_file_path).
Proof.
  unfold Restorer.extract_definitions_only.
  keeps_auto restorer_trace_law; apply load_json_keeps.
Qed.

(** X8.  [extract_definitions_only] works on files alone: whatever the
    input file holds, it returns [True] or [False], it sends no request and
    it starts or stops nothing of a tunnel. *)
Theorem extraction_is_offline E json_file_path output_file_path :
  returns (Restorer.extract_definitions_only E json_file_path output_file_path)
  /\ keeps requests (Restorer.extract_definitions_only E json_file_path output_file_path)
  /\ keeps tunnel_events
        (Restorer.extract_definitions_only E json_file_path output_file_path).
Proof.
  unfold Restorer.extract_definitions_only.
  split; [| split].
  - apply (returns_try_except _ [(Restorer.is_JSONDecodeError, _)]).
    + destruct (negb (Restorer.path_exists E json_file_path)).
      * apply returns_never_exits, returns_bind;
          [apply returns_log | intros _; apply returns_ret].
      * apply never_exits_bind; [apply never_exits_log | intros _].
        apply never_exits_bind; [apply load_json_never_exits | intros json_data].
        apply never_exits_bind; [apply never_exits_lift, py_contains_catchable | intros has].
        destruct (negb has).
        -- apply never_exits_bind; [apply never_exits_log | intros _; apply never_exits_ret].
        -- apply never_exits_bind; [apply never_exits_lift, hits_of_catchable | intros hits].
           destruct (negb (truthy hits)).
           ++ apply never_exits_bind; [apply never_exits_log | intros _; apply never_exits_ret].
           ++ apply never_exits_bind; [apply never_exits_lift, py_iter_catchable | intros items].
              apply never_exits_bind; [apply never_exits_lift, definitions_of_catchable | intros defs].
              apply never_exits_bind;
                [destruct (Restorer.writable E output_file_path);
                 [apply never_exits_emit | now apply never_exits_raise] | intros _].
              apply never_exits_bind; [apply never_exits_emit | intros _].
              apply never_exits_bind; [apply never_exits_log | intros _; apply never_exits_ret].
    + constructor; [| constructor].
      intros e. apply returns_bind; [apply returns_log | intros _; apply returns_ret].
    + intros e. apply returns_bind; [apply returns_log | intros _; apply returns_ret].
  - fold (Restorer.extract_definitions_only E json_file_path output_file_path).
    apply extraction_keeps_requests.
  - fold (Restorer.extract_definitions_only E json_file_path output_file_path).
    apply extraction_keeps_tunnel_events.
Qed.

(** X9.  What [extract_definitions_only] writes.  For a file whose hits are
    documents, and an output file that can be written, it creates the
    output file and writes one JSON object into it: the truthy [_source]
    values in the order of the hits, their number as [count], and the base
    name of the input file as [extracted_from]; it returns [True]. *)
Theorem extraction_writes_the_sources
    E json_file_path output_file_path envelope inner documents s :
  Restorer.fs E json_file_path = Restorer.FileJson (JObj envelope) ->
  dict_get "hits" envelope = Some (JObj inner) ->
  dict_get "hits" inner = Some (JArr (map JObj documents)) ->
  documents <> [] ->
  Restorer.writable E output_file_path = true ->
  let run := Restorer.extract_definitions_only E json_file_path output_file_path s in
  fst run = Ret true
  /\ file_events (Restorer.events (snd run))
     = EvWriteFile output_file_path
         (inl (extracted json_file_path (sources_of documents)))
       :: EvCreateFile output_file_path
       :: file_events (Restorer.events s).
Proof.
  intros Hfile Henv Hinner Hsome Hwrite run. subst run.
  unfold Restorer.extract_definitions_only, Restorer.path_exists, Restorer.load_json.
  rewrite Hfile. unfold_monad. cbn [negb].
  unfold py_contains, dict_has. rewrite Henv. cbn [negb].
  unfold Restorer.hits_of, py_get_default. rewrite Henv, Hinner.
  assert (Htruthy : truthy (JArr (map JObj documents)) = true)
    by (destruct documents; [now elim Hsome | reflexivity]).
  rewrite Htruthy. cbn [negb].
  unfold py_iter. rewrite definitions_of_documents, Hwrite.
  cbn. split; reflexivity.
Qed.

Lemma extraction_writes_the_sources_witness :
  let documents := [without_id; empty_source] in
  let world :=
    Restorer.mkEnv 9202 None "json_files" "20240101_120000"
      (fun _ => Restorer.FileJson (JObj (envelope_of (map JObj documents))))
      (fun _ => true) (fun _ _ => HttpRaises Refused)
      (Ret tt) (Ret tt) false false in
  documents <> []
  /\ Restorer.writable world "out.json" = true
  /\ fst (Restorer.extract_definitions_only world "json_files/alerts.json" "out.json"
            Restorer.initial) = Ret true
  /\ sources_of documents = [JObj [("name", JStr "cpu")]].
Proof.
  intros documents world.
  split; [discriminate |]. split; [reflexivity |].
  split; [| reflexivity].
  apply (extraction_writes_the_sources world "json_files/alerts.json" "out.json"
           (envelope_of (map JObj documents)) (inner_of (map JObj documents))
           documents Restorer.initial eq_refl eq_refl eq_refl).
  - discriminate.
  - reflexivity.
Defined.

(** ** File names *)

Lemma contains_slash_cons c rest :
  contains_slash (String c rest) = Ascii.eqb c "/" || contains_slash rest.
Proof.
  unfold contains_slash. cbn -[ascii_dec].
  destruct (ascii_dec "/" c) as [<- | Hne].
  - destruct rest; reflexivity.
  - assert (Hc : Ascii.eqb c "/" = false)
      by (apply Ascii.eqb_neq; congruence).
    rewrite Hc. cbn.
    destruct (String.index 0 "/" rest); reflexivity.
Qed.

Lemma basename_without_slash name :
  contains_slash name = false -> basename name = name.
Proof.
  destruct name as [| c rest]; [reflexivity |].
  rewrite contains_slash_cons. intros H.
  apply orb_false_elim in H as [Hc Hrest].
  cbn [basename]. now rewrite Hrest, Hc.
Qed.

Lemma contains_slash_app a b :
  contains_slash (a ++ b) = contains_slash a || contains_slash b.
Proof.
  induction a as [| c a IH]; [reflexivity |].
  cbn [String.append]. rewrite !contains_slash_cons, IH. apply orb_assoc.
Qed.

Lemma basename_after_slash dir name :
  contains_slash name = false -> basename (dir ++ "/" ++ name) = name.
Proof.
  intros Hname.
  induction dir as [| c dir IH]; cbn [String.append basename].
  - now rewrite Hname.
  - rewrite contains_slash_app. cbn [String.append].
    rewrite contains_slash_cons. cbn [Ascii.eqb].
    rewrite orb_true_r. exact IH.
Qed.

Lemma basename_after_dir dir name :
  ends_with_slash dir = true ->
  contains_slash name = false ->
  basename (dir ++ name) = name.
Proof.
  intros Hdir Hname.
  induction dir as [| c dir IH]; [discriminate |].
  destruct dir as [| d dir'].
  - cbn in Hdir. cbn [String.append basename]. now rewrite Hname, Hdir.
  - cbn [String.append] in *. cbn [basename].
    assert (Hin : contains_slash (String d (dir' ++ name)) = true).
    { clear IH. revert d Hdir. induction dir' as [| e dir'' IH']; intros d Hdir.
      - cbn in Hdir. rewrite contains_slash_cons, Hdir. reflexivity.
      - cbn [String.append]. rewrite contains_slash_cons.
        rewrite (IH' e); [apply orb_true_r | exact Hdir]. }
    rewrite Hin. apply IH. exact Hdir.
Qed.

(** X10.  Where [restore_alerts] and [restore_reports] look.  A name given
    with a path separator is used as it is; a bare name (or the default
    name when none is given) is looked up in the input directory; in both
    cases the file opened has the base name that was asked for. *)
Theorem resolve_keeps_the_name E default filename :
  let name := match filename with Some f => f | None => default end in
  (contains_slash name = true -> Restorer.resolve E default filename = name)
  /\ (contains_slash name = false ->
      Restorer.resolve E default filename = path_join (Restorer.input_dir E) name)
  /\ basename (Restorer.resolve E default filename) = basename name.
Proof.
  intros name. unfold Restorer.resolve. fold name.
  destruct (contains_slash name) eqn:Hslash.
  - repeat split; congruence.
  - split; [discriminate | split; [reflexivity |]].
    rewrite (basename_without_slash name Hslash).
    unfold path_join.
    destruct name as [| c rest] eqn:Hname.
    + destruct (String.eqb (Restorer.input_dir E) EmptyString || ends_with_slash _) eqn:Hdir.
      * apply orb_true_iff in Hdir as [Hempty | Hends].
        -- apply String.eqb_eq in Hempty. now rewrite Hempty.
        -- now apply basename_after_dir.
      * now apply basename_after_slash.
    + assert (Hc : Ascii.eqb c "/" = false).
      { rewrite contains_slash_cons in Hslash. now apply orb_false_elim in Hslash. }
      destruct c as [[] [] [] [] [] [] [] []]; try discriminate Hc;
        (destruct (String.eqb (Restorer.input_dir E) EmptyString || ends_with_slash _) eqn:Hdir;
         [ apply orb_true_iff in Hdir as [Hempty | Hends];
           [ apply String.eqb_eq in Hempty; rewrite Hempty;
             now apply basename_without_slash
           | now apply basename_after_dir ]
         | now apply basename_after_slash ]).
Qed.

(* ===================================================================== *)
(** * Further properties: the tunnel and the whole runs                   *)
(* ===================================================================== *)

(** X11.  A tunnel whose SSH side does not start is not probed.  In the
    restore script, when [ssh] cannot be started or has exited by the end
    of the settle delay, [create_ssh_tunnel] answers [False] without any
    request.  In the collect script, when the SSH connection fails,
    [create_ssh_tunnel] answers [False] with nothing but the connection
    attempt: no listener thread, no settle delay, no request. *)
Theorem ssh_failure_is_not_probed
    (EC : Collector.env) (ER : Restorer.env)
    (sc : Collector.state) (sr : Restorer.state) (e : exn) :
  Collector.ssh_connect EC = Raise e ->
  is_Exception e = true ->
  match Restorer.popen ER with
  | Ret _ => Restorer.exits_during_settle ER = true
  | Raise e' => is_Exception e' = true
  end ->
  (fst (Collector.create_ssh_tunnel EC sc) = Ret false
   /\ tunnel_events (Collector.events (snd (Collector.create_ssh_tunnel EC sc)))
      = EvSshConnect :: tunnel_events (Collector.events sc)
   /\ requests (Collector.events (snd (Collector.create_ssh_tunnel EC sc)))
      = requests (Collector.events sc))
  /\ (fst (Restorer.create_ssh_tunnel ER sr) = Ret false
      /\ requests (Restorer.events (snd (Restorer.create_ssh_tunnel ER sr)))
         = requests (Restorer.events sr)).
Proof.
  intros Hconnect He Hssh. split.
  - destruct sc as [client thread server running alive t].
    unfold Collector.create_ssh_tunnel, Collector.connect_ssh,
      Collector.set_ssh_client.
    rewrite Hconnect. unfold_monad.
    cbn -[Collector.start_worker Collector.test_tunnel].
    destruct e; try discriminate He; cbn; repeat split.
  - destruct sr as [process running t].
    unfold Restorer.create_ssh_tunnel, Restorer.start_ssh. unfold_restorer.
    destruct (Restorer.popen ER) as [[] | e'].
    + rewrite Hssh. unfold_monad. cbn -[Restorer.test_tunnel]. split; reflexivity.
    + unfold_monad. cbn -[Restorer.test_tunnel].
      destruct e' as [| | | | | | | | [] | | | | | | | |]; try discriminate Hssh;
        cbn; split; reflexivity.
Qed.

Lemma ssh_failure_is_not_probed_witness :
  Collector.ssh_connect collect_world_no_ssh = Raise AuthenticationException
  /\ is_Exception AuthenticationException = true
  /\ fst (Collector.create_ssh_tunnel collect_world_no_ssh Collector.initial) = Ret false
  /\ fst (Restorer.create_ssh_tunnel restore_world_no_ssh Restorer.initial) = Ret false.
Proof.
  do 2 (split; [reflexivity |]).
  destruct (ssh_failure_is_not_probed collect_world_no_ssh restore_world_no_ssh
              Collector.initial Restorer.initial AuthenticationException
              eq_refl eq_refl eq_refl) as [(Hc & _) (Hr & _)].
  split; [exact Hc | exact Hr].
Defined.

Lemma restore_alerts_returns E filename : returns (Restorer.restore_alerts E filename).
Proof.
  unfold Restorer.restore_alerts.
  apply returns_bind; [apply returns_log | intros _; apply restore_from_file_total].
Qed.

Lemma restore_reports_returns E filename : returns (Restorer.restore_reports E filename).
Proof.
  unfold Restorer.restore_reports.
  apply returns_bind; [apply returns_log | intros _; apply restore_from_file_total].
Qed.

(** X13.  [restore_all] behind a tunnel that came up: it restores the
    alerts and then the reports, each whatever the other gave, returns the
    mapping of the two results, and leaves the session closed. *)
Theorem restore_all_runs_both E alerts_filename reports_filename s s1 :
  Restorer.create_ssh_tunnel E (restoring s) = (Ret true, s1) ->
  exists a r s2 s3,
    Restorer.restore_alerts E alerts_filename s1 = (Ret a, s2)
    /\ Restorer.restore_reports E reports_filename s2 = (Ret r, s3)
    /\ fst (Restorer.restore_all E alerts_filename reports_filename s)
       = Ret [("alerts", a); ("reports", r)]
    /\ restorer_closed (snd (Restorer.restore_all E alerts_filename reports_filename s)).
Proof.
  intros Hcreate.
  destruct (restore_alerts_returns E alerts_filename s1) as (a & s2 & Ha).
  destruct (restore_reports_returns E reports_filename s2) as (r & s3 & Hr).
  exists a, r, s2, s3. split; [exact Ha |]. split; [exact Hr |].
  assert (Hrun : exists s',
             Restorer.restore_all E alerts_filename reports_filename s
             = (Ret [("alerts", a); ("reports", r)], s')
             /\ restorer_closed s').
  { unfold Restorer.restore_all, try_finally, bind.
    unfold log at 1. unfold emit, modify at 1.
    match goal with
    | |- context [Restorer.create_ssh_tunnel E ?s0] => change s0 with (restoring s)
    end.
    rewrite Hcreate. cbn [negb]. rewrite Ha, Hr.
    unfold Restorer.all_values.
    destruct (forallb snd [("alerts", a); ("reports", r)]);
      unfold log, emit, modify, ret;
      restorer_cleanup; eexists; split; (reflexivity || exact Hclosed). }
  destruct Hrun as (s' & -> & Hclosed). split; [reflexivity | exact Hclosed].
Qed.

Lemma restore_all_runs_both_witness :
  Restorer.create_ssh_tunnel restore_world (restoring Restorer.initial)
  = (Ret true, snd (Restorer.create_ssh_tunnel restore_world (restoring Restorer.initial)))
  /\ fst (Restorer.restore_all restore_world None None Restorer.initial)
     = Ret [("alerts", false); ("reports", false)].
Proof.
  split; [reflexivity |].
  destruct (restore_all_runs_both restore_world None None Restorer.initial _ eq_refl)
    as (a & r & s2 & s3 & Ha & Hr & Hall & _).
  rewrite Hall.
  vm_compute in Ha. vm_compute in Hr.
  injection Ha as <- _. injection Hr as <- _. reflexivity.
Defined.

(* ===================================================================== *)
(** * Further properties: collect                                         *)
(* ===================================================================== *)

(** No exception of [_execute_request] gets past its handlers. *)
Lemma execute_request_total E endpoint query output_file file_type :
  returns (Collector._execute_request E endpoint query output_file file_type).
Proof.
  unfold Collector._execute_request.
  apply (returns_try_except _
           [(is_RequestException, _); (Collector.is_JSONDecodeError, _)]).
  - apply never_exits_bind; [apply never_exits_log | intros _].
    apply never_exits_bind; [apply never_exits_http | intros r].
    apply never_exits_bind.
    { apply never_exits_lift. unfold raise_for_status.
      destruct ((400 <=? status r) && (status r <? 600)); reflexivity || exact I. }
    intros _.
    apply never_exits_bind.
    { destruct (Collector.writable E output_file);
        [apply never_exits_emit | now apply never_exits_raise]. }
    intros _.
    apply never_exits_bind.
    { destruct (Collector.is_json_content r); [| apply never_exits_emit].
      apply never_exits_bind; [| intros body; apply never_exits_emit].
      apply never_exits_lift. unfold Collector.response_json.
      destruct (json_body r); reflexivity || exact I. }
    intros _.
    apply never_exits_bind; [apply never_exits_log | intros _; apply never_exits_ret].
  - repeat constructor;
      intros e; (apply returns_bind; [apply returns_log | intros _; apply returns_ret]).
  - intros e. apply returns_bind; [apply returns_log | intros _; apply returns_ret].
Qed.

(** X14.  [_execute_request] lets no exception out: whatever the network
    answers and whether or not the output file can be written, it returns
    [True] or [False]. *)
Theorem execute_request_returns E endpoint query output_file file_type s :
  exists ok s',
    Collector._execute_request E endpoint query output_file file_type s = (Ret ok, s').
Proof. apply execute_request_total. Qed.

(** X15.  A search that gets no usable response (no response at all, or a
    4xx or 5xx status) makes [_execute_request] answer [False], and the
    output file is neither created nor written. *)
Theorem failed_search_writes_nothing E endpoint query output_file file_type s :
  search_failed (Collector.net E (requests (Collector.events s))
                   (ReqSearch (Collector.local_port E) endpoint query)) = true ->
  let run := Collector._execute_request E endpoint query output_file file_type s in
  fst run = Ret false
  /\ file_events (Collector.events (snd run)) = file_events (Collector.events s).
Proof.
  intros Hfailed run. subst run.
  destruct s as [client thread server running alive t].
  unfold Collector._execute_request. unfold_monad.
  unfold requests in *. cbn in Hfailed |- *.
  destruct (Collector.net E _ _) as [[] | r]; cbn; try (split; reflexivity).
  cbn in Hfailed. unfold is_error_status in Hfailed.
  unfold raise_for_status. rewrite Hfailed. cbn. split; reflexivity.
Qed.

Lemma failed_search_writes_nothing_witness :
  let world :=
    Collector.mkEnv 9201 "json_files" "20240101_120000"
      (Ret tt) (Ret tt) (Ret tt) (fun _ _ => HttpResponse (answer 503))
      (Some 0) (Ret tt) (Ret tt) true (Ret tt) (fun _ => true) in
  search_failed (Collector.net world [] (alerts_search world)) = true
  /\ fst (Collector.collect_alerts world Collector.initial) = Ret false.
Proof.
  intros world. split; [reflexivity |].
  exact (proj1 (failed_search_writes_nothing world
                  "/rt-alert-def-vrm-ty-rt-alert-def-vrm/_search"
                  Collector.match_all_query
                  (path_join "json_files" ("alerts_" ++ "20240101_120000" ++ ".json"))
                  "alerts" Collector.initial eq_refl)).
Defined.

(** X16.  A response that does not announce JSON is saved as text: when
    the status is not an error and the content type does not start with
    [application/json], then, if the output file can be opened for
    writing, the text of the response is written to it as it is and
    [_execute_request] answers [True], whether or not that text is JSON;
    if the file cannot be opened, nothing is written and the answer is
    [False]. *)
Theorem other_content_is_saved_as_text
    E endpoint query output_file file_type s r :
  Collector.net E (requests (Collector.events s))
    (ReqSearch (Collector.local_port E) endpoint query) = HttpResponse r ->
  is_error_status r = false ->
  Collector.is_json_content r = false ->
  let run := Collector._execute_request E endpoint query output_file file_type s in
  fst run = Ret (Collector.writable E output_file)
  /\ file_events (Collector.events (snd run))
     = ((if Collector.writable E output_file
         then [EvWriteFile output_file (inr (text r)); EvCreateFile output_file]
         else [])
        ++ file_events (Collector.events s))%list.
Proof.
  intros Hnet Hstatus Hjson run. subst run.
  destruct s as [client thread server running alive t].
  unfold Collector._execute_request. unfold_monad.
  unfold requests in *. cbn in Hnet |- *.
  rewrite Hnet. cbn.
  unfold raise_for_status. unfold is_error_status in Hstatus. rewrite Hstatus. cbn.
  destruct (Collector.writable E output_file); cbn; [| split; reflexivity].
  rewrite Hjson. cbn. split; reflexivity.
Qed.

Lemma other_content_is_saved_as_text_witness :
  let page := mkResponse 200 (Some "text/html") "<html>proxy login</html>" None in
  let world (can_write : bool) :=
    Collector.mkEnv 9201 "json_files" "20240101_120000"
      (Ret tt) (Ret tt) (Ret tt) (fun _ _ => HttpResponse page)
      (Some 0) (Ret tt) (Ret tt) true (Ret tt) (fun _ => can_write) in
  is_error_status page = false
  /\ Collector.is_json_content page = false
  /\ fst (Collector.collect_reports (world true) Collector.initial) = Ret true
  /\ fst (Collector.collect_reports (world false) Collector.initial) = Ret false.
Proof.
  intros page world. do 2 (split; [reflexivity |]).
  split.
  - exact (proj1 (other_content_is_saved_as_text (world true)
                    "/vrm-scheduled-report-definition-vrm-ty-vrm-scheduled-report-definition/_search"
                    Collector.match_all_query
                    (path_join "json_files" ("reports_" ++ "20240101_120000" ++ ".json"))
                    "reports" Collector.initial page
                    eq_refl eq_refl eq_refl)).
  - exact (proj1 (other_content_is_saved_as_text (world false)
                    "/vrm-scheduled-report-definition-vrm-ty-vrm-scheduled-report-definition/_search"
                    Collector.match_all_query
                    (path_join "json_files" ("reports_" ++ "20240101_120000" ++ ".json"))
                    "reports" Collector.initial page
                    eq_refl eq_refl eq_refl)).
Defined.

(** X17.  A response that announces JSON and does not parse makes
    [_execute_request] answer [False]; by then the output file has been
    opened for writing: it exists, and it is empty. *)
Theorem broken_json_leaves_an_empty_file
    E endpoint query output_file file_type s r :
  Collector.net E (requests (Collector.events s))
    (ReqSearch (Collector.local_port E) endpoint query) = HttpResponse r ->
  is_error_status r = false ->
  Collector.is_json_content r = true ->
  json_body r = None ->
  Collector.writable E output_file = true ->
  let run := Collector._execute_request E endpoint query output_file file_type s in
  fst run = Ret false
  /\ file_events (Collector.events (snd run))
     = EvCreateFile output_file :: file_events (Collector.events s).
Proof.
  intros Hnet Hstatus Hjson Hbody Hwrite run. subst run.
  destruct s as [client thread server running alive t].
  unfold Collector._execute_request. unfold_monad.
  unfold requests in *. cbn in Hnet |- *.
  rewrite Hnet. cbn.
  unfold raise_for_status. unfold is_error_status in Hstatus. rewrite Hstatus. cbn.
  rewrite Hwrite. cbn. rewrite Hjson. cbn.
  unfold Collector.response_json. rewrite Hbody. cbn. split; reflexivity.
Qed.

Lemma broken_json_leaves_an_empty_file_witness :
  let cut := mkResponse 200 (Some "application/json") "{hits: {total" None in
  let world :=
    Collector.mkEnv 9201 "json_files" "20240101_120000"
      (Ret tt) (Ret tt) (Ret tt) (fun _ _ => HttpResponse cut)
      (Some 0) (Ret tt) (Ret tt) true (Ret tt) (fun _ => true) in
  Collector.is_json_content cut = true
  /\ json_body cut = None
  /\ fst (Collector.collect_reports world Collector.initial) = Ret false.
Proof.
  intros cut world. do 2 (split; [reflexivity |]).
  exact (proj1 (broken_json_leaves_an_empty_file world
                  "/vrm-scheduled-report-definition-vrm-ty-vrm-scheduled-report-definition/_search"
                  Collector.match_all_query
                  (path_join "json_files" ("reports_" ++ "20240101_120000" ++ ".json"))
                  "reports" Collector.initial cut
                  eq_refl eq_refl eq_refl eq_refl eq_refl)).
Defined.

(** X18.  [collect_all] behind a tunnel that came up: it searches the
    reports and then the alerts, the second whatever the first gave, sends
    these two requests and no other, returns the mapping of the two
    results, and leaves the session closed. *)
Theorem collect_all_runs_both E s s1 :
  Collector.create_ssh_tunnel E (collecting s) = (Ret true, s1) ->
  exists r a s2 s3,
    Collector.collect_reports E s1 = (Ret r, s2)
    /\ Collector.collect_alerts E s2 = (Ret a, s3)
    /\ fst (Collector.collect_all E s) = Ret [("reports", r); ("alerts", a)]
    /\ collector_closed (snd (Collector.collect_all E s))
    /\ requests (Collector.events (snd (Collector.collect_all E s)))
       = alerts_search E :: reports_search E :: requests (Collector.events s1).
Proof.
  intros Hcreate.
  destruct (execute_request_total E
              "/vrm-scheduled-report-definition-vrm-ty-vrm-scheduled-report-definition/_search"
              Collector.match_all_query
              (path_join (Collector.output_dir E)
                 ("reports_" ++ Collector.timestamp E ++ ".json")) "reports" s1)
    as (r & s2 & Hr).
  destruct (execute_request_total E
              "/rt-alert-def-vrm-ty-rt-alert-def-vrm/_search"
              Collector.match_all_query
              (path_join (Collector.output_dir E)
                 ("alerts_" ++ Collector.timestamp E ++ ".json")) "alerts" s2)
    as (a & s3 & Ha).
  fold (Collector.collect_reports E) in Hr.
  fold (Collector.collect_alerts E) in Ha.
  exists r, a, s2, s3. split; [exact Hr |]. split; [exact Ha |].
  assert (Hsent : requests (Collector.events s3)
                  = alerts_search E :: reports_search E :: requests (Collector.events s1)).
  { pose proof (execute_request_sends_once E
                  "/rt-alert-def-vrm-ty-rt-alert-def-vrm/_search"
                  Collector.match_all_query
                  (path_join (Collector.output_dir E)
                     ("alerts_" ++ Collector.timestamp E ++ ".json")) "alerts" s2) as H2.
    pose proof (execute_request_sends_once E
                  "/vrm-scheduled-report-definition-vrm-ty-vrm-scheduled-report-definition/_search"
                  Collector.match_all_query
                  (path_join (Collector.output_dir E)
                     ("reports_" ++ Collector.timestamp E ++ ".json")) "reports" s1) as H1.
    fold (Collector.collect_reports E) in H1.
    fold (Collector.collect_alerts E) in H2.
    rewrite Hr in H1. rewrite Ha in H2. cbn [snd] in H1, H2.
    rewrite H2, H1. reflexivity. }
  assert (Hrun : exists s',
             Collector.collect_all E s = (Ret [("reports", r); ("alerts", a)], s')
             /\ collector_closed s'
             /\ requests (Collector.events s') = requests (Collector.events s3)).
  { unfold Collector.collect_all, try_finally, bind.
    unfold log at 1. unfold emit, modify at 1.
    match goal with
    | |- context [Collector.create_ssh_tunnel E ?s0] => change s0 with (collecting s)
    end.
    rewrite Hcreate. cbn [negb]. rewrite Hr, Ha.
    unfold Collector.all_values.
    destruct (forallb snd [("reports", r); ("alerts", a)]);
      unfold log, emit, modify, ret;
      collector_cleanup; eexists; (split; [reflexivity |]);
      (split; [exact Hclosed |]);
      rewrite Hev, requests_app, Hquiet; reflexivity. }
  destruct Hrun as (s' & -> & Hclosed & Hsame).
  split; [reflexivity |]. split; [exact Hclosed |].
  cbn [snd]. now rewrite Hsame.
Qed.

Lemma collect_all_runs_both_witness :
  let world := collect_world (HttpResponse (answer 404)) in
  Collector.create_ssh_tunnel world (collecting Collector.initial)
  = (Ret true, snd (Collector.create_ssh_tunnel world (collecting Collector.initial)))
  /\ List.length
       (requests (Collector.events (snd (Collector.collect_all world Collector.initial))))
     = 3%nat.
Proof.
  intros world.
  assert (Hup : Collector.create_ssh_tunnel world (collecting Collector.initial)
                = (Ret true,
                   snd (Collector.create_ssh_tunnel world (collecting Collector.initial))))
    by (vm_compute; reflexivity).
  split; [exact Hup |].
  destruct (collect_all_runs_both world Collector.initial _ Hup)
    as (r & a & s2 & s3 & _ & _ & _ & _ & Hsent).
  rewrite Hsent. vm_compute. reflexivity.
Defined.

(* ===================================================================== *)
(** * Further properties: the forwarder and the listener                  *)
(* ===================================================================== *)

(** X19.  Fidelity of the relay when no [send] is short.  If every [send]
    takes the whole chunk it is given, then at the end of
    [_handle_tunnel_connection] each side has received, in order and
    unchanged, what the other side sent, but for what was still waiting in
    a buffer; and when the relay ended on one side's end of stream, the
    other side has received everything that side ever sent.  Both sockets
    are closed. *)
Theorem relay_is_faithful_when_sends_are_whole rounds :
  Forall takes_all rounds ->
  let run := Collector._handle_tunnel_connection (Ret tt) rounds Collector.fresh in
  in_transit (snd run)
  /\ (fst run = Collector.ClientClosed ->
      Collector.to_channel (snd run) = Collector.client_sent (snd run))
  /\ (fst run = Collector.ChannelClosed ->
      Collector.to_client (snd run) = Collector.channel_sent (snd run))
  /\ Collector.sockets_closed (snd run) = true.
Proof.
  intros Hall run. subst run. unfold Collector._handle_tunnel_connection.
  assert (Hfresh : in_transit Collector.fresh) by (split; reflexivity).
  destruct (forward_loop_fidelity rounds Hall Collector.fresh Hfresh) as (Ht & Hc & Hh).
  destruct (Collector.forward_loop rounds Collector.fresh) as [out c].
  cbn [fst snd] in *.
  repeat split; try apply Ht; assumption.
Qed.

Lemma relay_is_faithful_when_sends_are_whole_witness :
  Forall takes_all echo
  /\ Collector.to_channel
       (snd (Collector._handle_tunnel_connection (Ret tt) echo Collector.fresh))
     = Collector.client_sent
         (snd (Collector._handle_tunnel_connection (Ret tt) echo Collector.fresh)).
Proof.
  assert (Hall : Forall takes_all echo).
  { repeat constructor; exists 4096%nat; split; (reflexivity || apply Nat.le_refl). }
  split; [exact Hall |].
  apply (relay_is_faithful_when_sends_are_whole echo Hall).
  vm_compute. reflexivity.
Defined.

(** X20.  The client's end of stream is looked at first.  When the client
    has closed and nothing of it is left to read, the turn ends the loop
    before the channel is read: what the channel has ready in that turn is
    not delivered to the client. *)
Theorem client_close_ends_before_the_channel_is_read r rest c :
  Collector.client_recv_raises r = None ->
  Collector.client_buf (Collector.arrive r c) = [] ->
  Collector.client_eof (Collector.arrive r c) = true ->
  fst (Collector.forward_loop (r :: rest) c) = Collector.ClientClosed
  /\ Collector.to_client (snd (Collector.forward_loop (r :: rest) c))
     = Collector.to_client c
  /\ Collector.channel_buf (snd (Collector.forward_loop (r :: rest) c))
     = Collector.channel_buf (Collector.arrive r c).
Proof.
  intros Hrecv Hbuf Heof.
  cbn [Collector.forward_loop].
  unfold Collector.client_half, Collector.client_ready, Collector.client_recv.
  rewrite Hbuf, Heof, Hrecv.
  assert (Hnone : firstn Collector.chunk_size (@nil Byte.byte) = []) by apply firstn_nil.
  rewrite Hnone. cbn [fst snd Collector.to_client Collector.channel_buf].
  split; [reflexivity |]. split; [| reflexivity].
  unfold Collector.arrive.
  destruct (Collector.client_eof c), (Collector.channel_eof c); reflexivity.
Qed.

Lemma client_close_ends_before_the_channel_is_read_witness :
  Collector.client_eof (Collector.arrive close_and_answer Collector.fresh) = true
  /\ Collector.channel_buf (Collector.arrive close_and_answer Collector.fresh)
     = [Byte.x0a; Byte.x0b; Byte.x0c]
  /\ Collector.to_client
       (snd (Collector.forward_loop [close_and_answer] Collector.fresh)) = [].
Proof.
  do 2 (split; [reflexivity |]).
  apply (client_close_ends_before_the_channel_is_read close_and_answer []
           Collector.fresh eq_refl eq_refl eq_refl).
Defined.

Lemma chunk_is_bounded (n : nat) (buf : Collector.bytes) :
  (List.length (firstn n (firstn Collector.chunk_size buf)) <= Collector.chunk_size)%nat.
Proof. rewrite !length_firstn. lia. Qed.

Lemma client_half_bound ready r c :
  (List.length (Collector.to_channel (snd (Collector.client_half ready r c)))
   <= List.length (Collector.to_channel c) + Collector.chunk_size)%nat
  /\ Collector.to_client (snd (Collector.client_half ready r c)) = Collector.to_client c.
Proof.
  unfold Collector.client_half, Collector.client_recv.
  destruct ready; [| cbn; split; [lia | reflexivity]].
  destruct (Collector.client_recv_raises r); [cbn; split; [lia | reflexivity] |].
  destruct (firstn Collector.chunk_size (Collector.client_buf c)) as [| b data] eqn:Hdata;
    [cbn; split; [lia | reflexivity] |].
  destruct (Collector.channel_send_takes r) as [n |]; [| cbn; split; [lia | reflexivity]].
  cbn [fst snd Collector.channel_send Collector.to_channel Collector.to_client].
  split; [| reflexivity].
  rewrite length_app, <- Hdata.
  pose proof (chunk_is_bounded n (Collector.client_buf c)). lia.
Qed.

Lemma channel_half_bound ready r c :
  (List.length (Collector.to_client (snd (Collector.channel_half ready r c)))
   <= List.length (Collector.to_client c) + Collector.chunk_size)%nat
  /\ Collector.to_channel (snd (Collector.channel_half ready r c)) = Collector.to_channel c.
Proof.
  unfold Collector.channel_half, Collector.channel_recv.
  destruct ready; [| cbn; split; [lia | reflexivity]].
  destruct (Collector.channel_recv_raises r); [cbn; split; [lia | reflexivity] |].
  destruct (firstn Collector.chunk_size (Collector.channel_buf c)) as [| b data] eqn:Hdata;
    [cbn; split; [lia | reflexivity] |].
  destruct (Collector.client_send_takes r) as [n |]; [| cbn; split; [lia | reflexivity]].
  cbn [fst snd Collector.client_send Collector.to_channel Collector.to_client].
  split; [| reflexivity].
  rewrite length_app, <- Hdata.
  pose proof (chunk_is_bounded n (Collector.channel_buf c)). lia.
Qed.

Lemma arrive_delivers_nothing r c :
  Collector.to_channel (Collector.arrive r c) = Collector.to_channel c
  /\ Collector.to_client (Collector.arrive r c) = Collector.to_client c.
Proof.
  unfold Collector.arrive.
  destruct (Collector.client_eof c), (Collector.channel_eof c); split; reflexivity.
Qed.

(** X21.  The relay moves at most 4096 bytes in each direction in a turn:
    after any number of turns, each side has received at most 4096 bytes
    per turn more than it had. *)
Theorem relay_moves_a_chunk_per_turn rounds :
  forall c,
    let run := Collector.forward_loop rounds c in
    (List.length (Collector.to_channel (snd run))
     <= List.length (Collector.to_channel c) + List.length rounds * Collector.chunk_size)%nat
    /\ (List.length (Collector.to_client (snd run))
        <= List.length (Collector.to_client c) + List.length rounds * Collector.chunk_size)%nat.
Proof.
  induction rounds as [| r rest IH]; intros c; cbn [Collector.forward_loop].
  - cbn. lia.
  - destruct (arrive_delivers_nothing r c) as [Ha1 Ha2].
    set (c0 := Collector.arrive r c) in *.
    destruct (client_half_bound (Collector.client_ready c0) r c0) as [Hb1 Hb2].
    destruct (Collector.client_half (Collector.client_ready c0) r c0) as [[out |] c1];
      cbn [fst snd] in *; rewrite Ha1 in Hb1.
    + cbn [List.length]. rewrite Hb2, Ha2. lia.
    + destruct (channel_half_bound (Collector.channel_ready c0) r c1) as [Hc1 Hc2].
      destruct (Collector.channel_half (Collector.channel_ready c0) r c1) as [[out |] c2];
        cbn [fst snd] in *; rewrite Hb2, Ha2 in Hc1.
      * cbn [List.length]. rewrite Hc2. lia.
      * specialize (IH c2). cbn zeta in IH.
        cbn [List.length]. rewrite Hc2 in IH. lia.
Qed.

(** A calm turn of the accept loop: the wait, a forwarder for the client
    if one came, and the loop goes on. *)
Lemma calm_turn t rest s :
  calm t = true ->
  Collector.tunnel_running s = true ->
  Collector.accept_loop (t :: rest) s = Collector.accept_loop rest (after_calm t s).
Proof.
  intros Hcalm Hrun.
  destruct s as [client thread server running alive tr]. cbn in Hrun. subst running.
  unfold calm in Hcalm. apply andb_prop in Hcalm. destruct Hcalm as [Htest Haccept].
  apply negb_true_iff in Htest.
  cbn [Collector.accept_loop]. unfold Collector.when, after_calm, client_of.
  rewrite Htest.
  destruct (Collector.accept t) as [c | e].
  - unfold_monad. reflexivity.
  - destruct e; try discriminate. unfold_monad. reflexivity.
Qed.

Lemma after_calm_running t s :
  Collector.tunnel_running (after_calm t s) = Collector.tunnel_running s.
Proof. destruct s. reflexivity. Qed.

Lemma after_calm_spawned t s :
  spawned (Collector.events (after_calm t s))
  = (client_of t ++ spawned (Collector.events s))%list.
Proof.
  destruct s as [client thread server running alive tr].
  unfold after_calm, client_of. cbn [with_trace Collector.events].
  destruct (Collector.accept t); reflexivity.
Qed.

Lemma client_of_rev t : rev (client_of t) = client_of t.
Proof. unfold client_of. destruct (Collector.accept t); reflexivity. Qed.

(** X22.  The accept loop serves every client until it is told to stop.
    Through any number of turns in which [accept] gives a client or times
    out, it starts one forwarder for each client, in the order in which
    the clients came, and none for a timeout; at the first turn that finds
    the stop flag cleared it leaves the loop without another [accept],
    whatever would have come next. *)
Theorem listener_serves_each_client_until_stopped calm_ticks t rest :
  forallb calm calm_ticks = true ->
  Collector.stopped_before_test t = true ->
  forall s,
    Collector.tunnel_running s = true ->
    let run := Collector.accept_loop (calm_ticks ++ t :: rest) s in
    fst run = Ret Collector.Stopped
    /\ spawned (Collector.events (snd run))
       = (rev (flat_map client_of calm_ticks) ++ spawned (Collector.events s))%list
    /\ List.length (filter is_tunnel_event (Collector.events (snd run)))
       = (List.length (flat_map client_of calm_ticks) + List.length calm_ticks
          + List.length (filter is_tunnel_event (Collector.events s)))%nat.
Proof.
  intros Hcalm Hstop.
  induction calm_ticks as [| c more IH]; intros s Hrun run; subst run.
  - cbn [app flat_map rev List.length].
    destruct s as [client thread server running alive tr].
    cbn [Collector.accept_loop]. unfold Collector.when. rewrite Hstop.
    unfold_monad. cbn. repeat split; reflexivity.
  - cbn [forallb] in Hcalm. apply andb_prop in Hcalm. destruct Hcalm as [Hc Hmore].
    specialize (IH Hmore (after_calm c s)).
    rewrite after_calm_running in IH. specialize (IH Hrun). cbn zeta in IH.
    destruct IH as (Hout & Hspawn & Hcount).
    rewrite <- app_comm_cons, (calm_turn c _ s Hc Hrun).
    split; [exact Hout |]. split.
    + rewrite Hspawn, after_calm_spawned.
      cbn [flat_map]. rewrite rev_app_distr, client_of_rev, <- app_assoc. reflexivity.
    + rewrite Hcount. cbn [flat_map List.length]. rewrite length_app.
      destruct s as [client thread server running alive tr].
      unfold after_calm, client_of. cbn [with_trace Collector.events].
      destruct (Collector.accept c); cbn; lia.
Qed.

Lemma listener_serves_each_client_until_stopped_witness :
  forallb calm [client_tick 7; timeout_tick; client_tick 9] = true
  /\ spawned (Collector.events
       (snd (Collector.accept_loop
               ([client_tick 7; timeout_tick; client_tick 9]
                ++ stop_tick :: [client_tick 11]) listening)))
     = [9; 7]%nat.
Proof.
  split; [reflexivity |].
  exact (proj1 (proj2 (listener_serves_each_client_until_stopped
                         [client_tick 7; timeout_tick; client_tick 9]
                         stop_tick [client_tick 11] eq_refl eq_refl
                         listening eq_refl))).
Defined.

(** The accept loop leaves the listening socket where it is: it neither
    resets [self.tunnel_server] nor closes the socket. *)
Lemma accept_loop_keeps_the_server ticks :
  forall s,
    Collector.tunnel_server (snd (Collector.accept_loop ticks s))
    = Collector.tunnel_server s
    /\ server_closes (Collector.events (snd (Collector.accept_loop ticks s)))
       = server_closes (Collector.events s).
Proof.
  induction ticks as [| t rest IH]; intros s; [split; reflexivity |].
  destruct s as [client thread server running alive tr].
  destruct t as [before acc after].
  cbn [Collector.accept_loop]. unfold Collector.when.
  cbn [Collector.stopped_before_test Collector.accept Collector.stopped_before_handler].
  destruct before, running; unfold_monad;
    cbn [negb Collector.tunnel_running with_trace trace_of Collector.state_traced fst snd];
    try (split; reflexivity).
  destruct acc as [c | e].
  - cbn [negb Collector.tunnel_running with_trace trace_of Collector.state_traced fst snd].
    match goal with |- context [Collector.accept_loop rest ?s0] =>
      destruct (IH s0) as [-> ->] end.
    split; reflexivity.
  - destruct (Collector.is_socket_timeout e).
    + match goal with |- context [Collector.accept_loop rest ?s0] =>
        destruct (IH s0) as [-> ->] end.
      split; reflexivity.
    + destruct (is_Exception e); [| split; reflexivity].
      destruct after; split; reflexivity.
Qed.

(** X23.  Who closes the listening socket.  Once the socket is bound and
    the worker ends, its [finally] closes the socket, as the worker's last
    action, whenever [self.tunnel_server] is still set: when the loop ends
    with the stop flag up (an error of [accept], an exception that is no
    [Exception]), or with the flag cleared by a [cleanup_tunnel] that has
    not reset [self.tunnel_server] yet; an error of that [close] is
    dropped.  When [cleanup_tunnel] has already reset it (it closes the
    socket itself before), the worker closes nothing. *)
Theorem worker_closes_its_listener E ticks released s :
  Collector.listen E = Ret tt ->
  let run := Collector._tunnel_worker E ticks released s in
  fst run <> Ret Collector.Waiting ->
  if released && negb (Collector.tunnel_running (snd run))
  then Collector.tunnel_server (snd run) = None
       /\ server_closes (Collector.events (snd run))
          = server_closes (Collector.events s)
  else exists older, Collector.events (snd run) = EvServerClose :: older.
Proof.
  intros Hlisten run _. subst run.
  unfold Collector._tunnel_worker.
  match goal with
  | |- context [try_finally ?m ?f s] => set (guarded := m); set (closing := f)
  end.
  assert (Hfinally : snd (try_finally guarded closing s) = snd (closing (snd (guarded s)))).
  { unfold try_finally. destruct (guarded s) as [r s1]. cbn [snd].
    destruct (closing s1) as [[u | e] s2]; reflexivity. }
  rewrite Hfinally.
  assert (Hserver : Collector.tunnel_server (snd (guarded s)) = Some tt
                    /\ server_closes (Collector.events (snd (guarded s)))
                       = server_closes (Collector.events s)).
  { subst guarded. unfold try_except.
    set (prologue :=
           Collector.mkState (Collector.ssh_client s) (Collector.tunnel_thread s) (Some tt)
             (Collector.tunnel_running s) (Collector.worker_alive s)
             (EvLog INFO (MsgOther "Tunnel server listening on localhost:{self.local_port}")
                :: EvListen (Collector.local_port E) :: Collector.events s)).
    assert (Hbody :
      (emit (EvListen (Collector.local_port E)) ;;
       lift (Collector.listen E) ;;
       Collector.set_tunnel_server (Some tt) ;;
       log INFO (MsgOther "Tunnel server listening on localhost:{self.local_port}") ;;
       Collector.accept_loop ticks)%py s
      = Collector.accept_loop ticks prologue).
    { rewrite Hlisten. subst prologue. destruct s as [client thread server running alive tr].
      unfold_monad. reflexivity. }
    rewrite Hbody.
    pose proof (accept_loop_keeps_the_server ticks prologue) as Hkept.
    destruct (Collector.accept_loop ticks prologue) as [[out | e] s1];
      cbn [snd] in Hkept |- *; [exact Hkept |].
    unfold dispatch. destruct (is_Exception e); [| exact Hkept].
    destruct s1. cbn in Hkept |- *. exact Hkept. }
  destruct Hserver as [Hserver Hcloses]. rewrite <- Hcloses.
  destruct (snd (guarded s)) as [client thread server running alive tr].
  cbn in Hserver. subst server. subst closing.
  unfold Collector.main_thread_release, Collector.swallow, Collector.when,
    Collector.set_tunnel_server.
  unfold_monad.
  destruct released, running; cbn;
    try (split; reflexivity);
    destruct (Collector.server_close E) as [[] | e]; cbn; eexists; reflexivity.
Qed.

Lemma worker_closes_its_listener_witness :
  (exists older,
      Collector.events
        (snd (Collector._tunnel_worker (collect_world (HttpResponse (answer 200)))
                [client_tick 7; failing_tick] true listening))
      = EvServerClose :: older)
  /\ server_closes
       (Collector.events
          (snd (Collector._tunnel_worker (collect_world (HttpResponse (answer 200)))
                  [client_tick 7; stop_tick] true listening)))
     = 0%nat.
Proof.
  split.
  - apply (worker_closes_its_listener (collect_world (HttpResponse (answer 200)))
             [client_tick 7; failing_tick] true listening eq_refl).
    vm_compute. discriminate.
  - apply (worker_closes_its_listener (collect_world (HttpResponse (answer 200)))
             [client_tick 7; stop_tick] true listening eq_refl).
    vm_compute. discriminate.
Defined.

(* ===================================================================== *)
(** * Further properties: the modes of the restore script                 *)
(* ===================================================================== *)

Lemma print_summary_keeps {X} (f : trace -> X) res :
  (forall k v, blind f (EvSummary k v)) ->
  keeps f (Restorer.print_summary res).
Proof.
  intros Hblind. induction res as [| [file_type success] rest IH]; cbn [Restorer.print_summary].
  - apply keeps_ret.
  - apply keeps_bind; [apply (keeps_emit restorer_trace_law), Hblind | intros _; exact IH].
Qed.

Lemma extract_mode_keeps {X} (f : trace -> X) E a :
  (forall l m, blind f (EvLog l m)) ->
  (forall k v, blind f (EvSummary k v)) ->
  (forall i o, keeps f (Restorer.extract_definitions_only E i o)) ->
  given (Restorer.file a) = false ->
  given (Restorer.alerts_source a) || given (Restorer.reports_source a) = true ->
  keeps f (Restorer.main E a).
Proof.
  intros Hlog Hsummary Hextract Hfile Hsource.
  assert (Hexit : forall code, keeps f (Restorer.sys_exit code : M Restorer.state unit))
    by (intros code; apply keeps_raise).
  unfold Restorer.main.
  apply keeps_try_except.
  - apply keeps_bind; [apply keeps_lift | intros _].
    apply keeps_bind.
    + unfold Restorer.requested. rewrite Hfile.
      destruct (given (Restorer.alerts_source a)); cbn [orb] in Hsource;
        [| rewrite Hsource]; unfold Restorer.extract;
        (apply keeps_bind; [apply Hextract | intros ok; apply keeps_ret]).
    + intros res. apply keeps_bind; [now apply print_summary_keeps | intros _].
      destruct (Restorer.all_values res); apply Hexit.
  - repeat constructor; intros e; cbn [snd];
      (apply keeps_bind; [apply (keeps_log restorer_trace_law), Hlog | intros _; apply Hexit]).
Qed.

(** X24.  The extraction modes need no tunnel.  When [--file] is not given
    and [-as] or [-rs] is, [main] sends no request and starts or stops
    nothing of a tunnel, whatever the other arguments are and whatever the
    files hold. *)
Theorem extract_modes_need_no_tunnel E a :
  given (Restorer.file a) = false ->
  given (Restorer.alerts_source a) || given (Restorer.reports_source a) = true ->
  keeps requests (Restorer.main E a) /\ keeps tunnel_events (Restorer.main E a).
Proof.
  intros Hfile Hsource. split.
  - apply extract_mode_keeps; try assumption.
    + intros l m. apply requests_blind. right; right; left. eauto.
    + intros k v. apply requests_blind. right; right; right. eauto.
    + intros i o. apply extraction_keeps_requests.
  - apply extract_mode_keeps; try assumption.
    + intros l m. now apply tunnel_events_blind.
    + intros k v. now apply tunnel_events_blind.
    + intros i o. apply extraction_keeps_tunnel_events.
Qed.

Lemma extract_modes_need_no_tunnel_witness :
  requests (Restorer.events
     (snd (Restorer.main restore_world
             (Restorer.mkArgs None (Some "alerts.json") (Some "reports.json")
                (Some "alerts.json") None)
             Restorer.initial)))
  = [].
Proof.
  apply (extract_modes_need_no_tunnel restore_world
           (Restorer.mkArgs None (Some "alerts.json") (Some "reports.json")
              (Some "alerts.json") None)
           eq_refl eq_refl).
Defined.
